(** * sarif_file: runs, files and file sets of SARIF documents

    A shallow embedding of [src/sarif/sarif_file.py] and the properties
    of its record extraction, path-prefix stripping, aggregate queries
    and file-set flattening.

    Conventions of the embedding.
    - Python values that come out of a parsed JSON document are values of
      [pyval]; strings are [string]s of ASCII characters (case mapping and
      white space are the ASCII ones), numbers are integers.
    - A Python [dict] is an association list in insertion order, looked up
      by its first binding.
    - A Python exception is a value of [pyexn]; a computation that may raise
      is an [outcome].  Methods that read or write the attributes of a
      [SarifRun] take the run and give back the run they leave behind. *)

From Stdlib Require Import String Ascii List ZArith Bool Arith Lia.
From Stdlib Require Import Permutation Sorted DecimalString.
Import ListNotations.

Set Warnings "-register-all".

Local Open Scope string_scope.
Local Open Scope list_scope.

(** ** Python values and exceptions *)

Inductive pyval : Type :=
| PyNone
| PyBool (b : bool)
| PyInt (z : Z)
| PyStr (s : string)
| PyList (l : list pyval)
| PyDict (d : list (string * pyval)).

Inductive pyexn : Type :=
| ValueError (msg : string)
| KeyError
| IndexError
| TypeError
| AttributeError.

Inductive outcome (A : Type) : Type :=
| Returns (a : A)
| Raises (e : pyexn).

Arguments Returns {A} a.
Arguments Raises {A} e.

Definition bind {A B : Type} (c : outcome A) (k : A -> outcome B) : outcome B :=
  match c with
  | Returns a => k a
  | Raises e => Raises e
  end.

Notation "x <- c ;; k" := (bind c (fun x => k))
  (at level 61, c at next level, right associativity).

(** [bool(v)] *)
Definition truthy (v : pyval) : bool :=
  match v with
  | PyNone => false
  | PyBool b => b
  | PyInt z => negb (Z.eqb z 0)
  | PyStr s => negb (String.eqb s "")
  | PyList l => match l with [] => false | _ => true end
  | PyDict d => match d with [] => false | _ => true end
  end.

Fixpoint assoc_get {A : Type} (d : list (string * A)) (k : string) : option A :=
  match d with
  | [] => None
  | (k', v) :: rest => if String.eqb k' k then Some v else assoc_get rest k
  end.

(** [v[k]] for a string key [k] *)
Definition py_getitem (v : pyval) (k : string) : outcome pyval :=
  match v with
  | PyDict d => match assoc_get d k with
                | Some x => Returns x
                | None => Raises KeyError
                end
  | _ => Raises TypeError
  end.

(** [v[0]] *)
Definition py_getitem0 (v : pyval) : outcome pyval :=
  match v with
  | PyList l => match l with
                | x :: _ => Returns x
                | [] => Raises IndexError
                end
  | PyStr s => match s with
               | String c _ => Returns (PyStr (String c ""))
               | EmptyString => Raises IndexError
               end
  | PyDict _ => Raises KeyError
  | _ => Raises TypeError
  end.

(** [v.get(k, default)] *)
Definition py_get (v : pyval) (k : string) (default : pyval) : outcome pyval :=
  match v with
  | PyDict d => match assoc_get d k with
                | Some x => Returns x
                | None => Returns default
                end
  | _ => Raises AttributeError
  end.

(** The elements a [for] loop over [v] visits. *)
Definition py_iter (v : pyval) : outcome (list pyval) :=
  match v with
  | PyList l => Returns l
  | PyDict d => Returns (map (fun kv => PyStr (fst kv)) d)
  | PyStr s => Returns (map (fun c => PyStr (String c "")) (list_ascii_of_string s))
  | _ => Raises TypeError
  end.

(** ** Strings *)

Definition is_lower (c : ascii) : bool :=
  let n := nat_of_ascii c in ((97 <=? n) && (n <=? 122))%nat.

Definition upper_char (c : ascii) : ascii :=
  if is_lower c then ascii_of_nat (nat_of_ascii c - 32) else c.

(** [s.upper()] *)
Fixpoint py_upper (s : string) : string :=
  match s with
  | EmptyString => EmptyString
  | String c rest => String (upper_char c) (py_upper rest)
  end.

Definition is_space (c : ascii) : bool :=
  let n := nat_of_ascii c in
  (((9 <=? n) && (n <=? 13)) || ((28 <=? n) && (n <=? 32)))%nat.

Fixpoint lstrip (s : string) : string :=
  match s with
  | EmptyString => EmptyString
  | String c rest => if is_space c then lstrip rest else s
  end.

Fixpoint rstrip (s : string) : string :=
  match s with
  | EmptyString => EmptyString
  | String c rest =>
      match rstrip rest with
      | EmptyString => if is_space c then EmptyString else String c EmptyString
      | r => String c r
      end
  end.

(** [s.strip()] *)
Definition py_strip (s : string) : string := rstrip (lstrip s).

(** [s.startswith(p)] *)
Definition py_startswith (s p : string) : bool := String.prefix p s.

(** [s[0:n]] and [s[n:]] for [0 <= n] *)
Fixpoint slice_to (n : nat) (s : string) : string :=
  match n, s with
  | S n', String c rest => String c (slice_to n' rest)
  | _, _ => EmptyString
  end.

Fixpoint slice_from (n : nat) (s : string) : string :=
  match n, s with
  | S n', String _ rest => slice_from n' rest
  | _, _ => s
  end.

(** [s.rfind(sub)], searching from position [pos] of the whole string *)
Fixpoint rfind_at (pos : Z) (s sub : string) : Z :=
  match s with
  | EmptyString => if String.prefix sub EmptyString then pos else (-1)%Z
  | String _ rest =>
      let r := rfind_at (pos + 1) rest sub in
      if (0 <=? r)%Z then r
      else if String.prefix sub s then pos else (-1)%Z
  end.

Definition py_rfind (s sub : string) : Z := rfind_at 0 s sub.

(** [sub in s] on strings *)
Fixpoint py_contains (s sub : string) : bool :=
  String.prefix sub s ||
  match s with
  | EmptyString => false
  | String _ rest => py_contains rest sub
  end.

(** [x in l] on a list of strings *)
Definition str_in (x : string) (l : list string) : bool :=
  existsb (String.eqb x) l.

(** *** [repr] and [str], as f-strings use them *)

Definition hex_digit (n : nat) : ascii :=
  if (n <? 10)%nat then ascii_of_nat (48 + n) else ascii_of_nat (87 + n).

Definition repr_char (quote c : ascii) : string :=
  let n := nat_of_ascii c in
  if Ascii.eqb c quote || Ascii.eqb c "\"%char then String "\" (String c "")
  else if (n =? 9)%nat then "\t"
  else if (n =? 10)%nat then "\n"
  else if (n =? 13)%nat then "\r"
  else if ((n <? 32) || (n =? 127))%nat
       then String "\" (String "x" (String (hex_digit (n / 16))
                                       (String (hex_digit (n mod 16)) "")))
  else String c "".

Fixpoint has_char (c : ascii) (s : string) : bool :=
  match s with
  | EmptyString => false
  | String c' rest => Ascii.eqb c c' || has_char c rest
  end.

Fixpoint repr_body (quote : ascii) (s : string) : string :=
  match s with
  | EmptyString => EmptyString
  | String c rest => (repr_char quote c ++ repr_body quote rest)%string
  end.

Definition dquote : ascii := ascii_of_nat 34.
Definition squote : ascii := ascii_of_nat 39.

Definition repr_str (s : string) : string :=
  let quote := if has_char squote s && negb (has_char dquote s)
               then dquote else squote in
  String quote (repr_body quote s ++ String quote "")%string.

Definition repr_int (z : Z) : string := NilZero.string_of_int (Z.to_int z).

Fixpoint py_repr (v : pyval) : string :=
  match v with
  | PyNone => "None"
  | PyBool true => "True"
  | PyBool false => "False"
  | PyInt z => repr_int z
  | PyStr s => repr_str s
  | PyList l => ("[" ++ String.concat ", " (map py_repr l) ++ "]")%string
  | PyDict d =>
      ("{" ++ String.concat ", "
                (map (fun kv => repr_str (fst kv) ++ ": " ++ py_repr (snd kv)) d)
           ++ "}")%string
  end.

(** [str(v)], the conversion of [{v}] in an f-string *)
Definition py_str (v : pyval) : string :=
  match v with
  | PyStr s => s
  | _ => py_repr v
  end.

(** [s.strip()] and [s.upper()] on a value: only a [str] has the method. *)
Definition val_strip (v : pyval) : outcome string :=
  match v with
  | PyStr s => Returns (py_strip s)
  | _ => Raises AttributeError
  end.

(** [x in v] for a string [x] *)
Definition py_in (x : string) (v : pyval) : outcome bool :=
  match v with
  | PyStr s => Returns (py_contains s x)
  | PyList l =>
      Returns (existsb (fun e => match e with
                                 | PyStr s => String.eqb s x
                                 | _ => false
                                 end) l)
  | PyDict d => Returns (existsb (fun kv => String.eqb (fst kv) x) d)
  | _ => Raises TypeError
  end.

(** [v == s] for a string [s] *)
Definition val_eq_str (v : pyval) (s : string) : bool :=
  match v with
  | PyStr s' => String.eqb s' s
  | _ => false
  end.

(** [max(xs)] *)
Definition py_max (xs : list Z) : outcome Z :=
  match xs with
  | [] => Raises (ValueError "max() arg is an empty sequence")
  | x :: rest => Returns (fold_left Z.max rest x)
  end.

(** A list comprehension whose body may raise. *)
Fixpoint map_outcome {A B : Type} (f : A -> outcome B) (l : list A)
  : outcome (list B) :=
  match l with
  | [] => Returns []
  | x :: rest =>
      y <- f x ;;
      ys <- map_outcome f rest ;;
      Returns (y :: ys)
  end.

(** ** Module constants *)

Definition SARIF_SEVERITIES : list string := ["error"; "warning"; "note"].

Definition _SLASHES : list string := ["\"; "/"].

(** ** Records and the module-level aggregations *)

Record SarifRecord : Type := mkRecord {
  Tool : pyval;
  Location : pyval;
  Line : pyval;
  Severity : pyval;
  Code : string
}.

(** [code_to_count[code] = code_to_count.get(code, 0) + 1] on a dict that
    keeps its keys in insertion order *)
Fixpoint dict_incr (code_to_count : list (string * nat)) (code : string)
  : list (string * nat) :=
  match code_to_count with
  | [] => [(code, 0 + 1)]
  | (k, n) :: rest =>
      if String.eqb k code then (k, n + 1) :: rest
      else (k, n) :: dict_incr rest code
  end.

(** [sorted(items, key=lambda x: x[1], reverse=True)]: the stable sort,
    written as an insertion sort that never moves an item past one with the
    same count. *)
Fixpoint insert_desc (x : string * nat) (l : list (string * nat))
  : list (string * nat) :=
  match l with
  | [] => [x]
  | y :: rest =>
      if (snd y <=? snd x)%nat then x :: l else y :: insert_desc x rest
  end.

Definition sorted_by_count_desc (items : list (string * nat))
  : list (string * nat) :=
  fold_right insert_desc [] items.

Definition _count_records_by_issue_code (records : list SarifRecord)
  (severity : string) : list (string * nat) :=
  let code_to_count :=
    fold_left (fun d record =>
                 if val_eq_str (Severity record) severity
                 then dict_incr d (Code record) else d)
              records [] in
  sorted_by_count_desc code_to_count.

(** ** SarifRun *)

Record SarifRun : Type := mkRun {
  run_index : nat;
  run_data : pyval;
  _path_prefixes_upper : option (list string);
  _cached_records : option (list SarifRecord)
}.

Definition SarifRun_init (run_index : nat) (run_data : pyval) : SarifRun :=
  mkRun run_index run_data None None.

Definition set_cached_records (self : SarifRun)
  (c : option (list SarifRecord)) : SarifRun :=
  mkRun (run_index self) (run_data self) (_path_prefixes_upper self) c.

Definition set_path_prefixes_upper (self : SarifRun)
  (p : option (list string)) : SarifRun :=
  mkRun (run_index self) (run_data self) p (_cached_records self).

Definition get_tool_name (self : SarifRun) : outcome pyval :=
  tool <- py_getitem (run_data self) "tool" ;;
  driver <- py_getitem tool "driver" ;;
  py_getitem driver "name".

Definition get_results (self : SarifRun) : outcome pyval :=
  py_getitem (run_data self) "results".

(** The path-prefix stripping at the end of [result_to_record]: the loop
    over the prefixes, left at the first one that matches. *)
Fixpoint strip_first_prefix (file_path file_path_upper : string)
  (prefixes : list string) : string :=
  match prefixes with
  | [] => file_path
  | prefix :: rest =>
      if py_startswith file_path_upper prefix then
        let prefixlen := String.length prefix in
        if (prefixlen <? String.length file_path)%nat
           && str_in (slice_to 1 (slice_from prefixlen file_path)) _SLASHES
        then slice_from (prefixlen + 1) file_path
        else slice_from prefixlen file_path
      else strip_first_prefix file_path file_path_upper rest
  end.

Definition strip_path_prefix (path_prefixes_upper : option (list string))
  (file_path : pyval) : outcome pyval :=
  match path_prefixes_upper with
  | Some ((_ :: _) as prefixes) =>
      match file_path with
      | PyStr s => Returns (PyStr (strip_first_prefix s (py_upper s) prefixes))
      | _ => Raises AttributeError
      end
  | _ => Returns file_path
  end.

(** The three places a location is looked for, in the order of the source. *)
Definition find_file_path (location : pyval) : outcome pyval :=
  physical_location <- py_get location "physicalLocation" (PyDict []) ;;
  address <- py_get physical_location "address" (PyDict []) ;;
  file_path <- py_get address "fullyQualifiedName" PyNone ;;
  file_path <-
    (if negb (truthy file_path) then
       physical_location <- py_get location "physicalLocation" (PyDict []) ;;
       artifact_location <- py_get physical_location "artifactLocation" (PyDict []) ;;
       py_get artifact_location "uri" PyNone
     else Returns file_path) ;;
  if negb (truthy file_path) then
    logical_locations <- py_get location "logicalLocations" PyNone ;;
    if truthy logical_locations then
      first <- py_getitem0 logical_locations ;;
      py_get first "fullyQualifiedName" PyNone
    else Returns file_path
  else Returns file_path.

Definition no_location_message (error_id tool_name : pyval) : string :=
  ("No location in " ++ py_str error_id ++ " output from " ++ py_str tool_name)%string.

Definition result_to_record (self : SarifRun) (result : pyval)
  : outcome SarifRecord :=
  error_id <- py_getitem result "ruleId" ;;
  locations <- py_get result "locations" (PyList []) ;;
  let error_line := PyStr "1" in
  let file_path := PyNone in
  tool_name <- get_tool_name self ;;
  line_and_path <-
    (if truthy locations then
       location <- py_getitem0 locations ;;
       physical_location <- py_get location "physicalLocation" (PyDict []) ;;
       region <- py_get physical_location "region" (PyDict []) ;;
       error_line <- py_get region "startLine" error_line ;;
       file_path <- find_file_path location ;;
       Returns (error_line, file_path)
     else Returns (error_line, file_path)) ;;
  let error_line := fst line_and_path in
  let file_path := snd line_and_path in
  if negb (truthy file_path) then
    Raises (ValueError (no_location_message error_id tool_name))
  else
    file_path <- strip_path_prefix (_path_prefixes_upper self) file_path ;;
    severity <- py_get result "level" (PyStr "warning") ;;
    message_obj <- py_getitem result "message" ;;
    message <- py_getitem message_obj "text" ;;
    Returns {| Tool := tool_name;
               Location := file_path;
               Line := error_line;
               Severity := severity;
               Code := (py_str error_id ++ " " ++ py_str message)%string |}.

(** What [get_records] computes when the cache does not answer. *)
Definition compute_records (self : SarifRun) : outcome (list SarifRecord) :=
  results <- get_results self ;;
  items <- py_iter results ;;
  map_outcome (result_to_record self) items.

Definition get_records (self : SarifRun)
  : outcome (list SarifRecord) * SarifRun :=
  match _cached_records self with
  | Some ((_ :: _) as records) => (Returns records, self)
  | _ =>
      match compute_records self with
      | Returns records =>
          (Returns records, set_cached_records self (Some records))
      | Raises e => (Raises e, self)
      end
  end.

(** The inner [for (char_pos, char) in enumerate(...)] loop of the autotrim:
    [loc] is what is left of the location from position [char_pos] on. *)
Fixpoint trim_common_prefix (common_prefix : string) (char_pos : nat)
  (loc : string) : string :=
  match loc with
  | EmptyString => common_prefix
  | String char rest =>
      if (String.length common_prefix <=? char_pos)%nat then common_prefix
      else if negb (String.eqb (String char "")
                      (slice_to 1 (slice_from char_pos common_prefix)))
      then slice_to char_pos common_prefix
      else trim_common_prefix common_prefix (S char_pos) rest
  end.

(** The outer [for record in records[1:]] loop, left when the common prefix
    becomes empty. *)
Fixpoint common_prefix_loop (common_prefix : string)
  (records : list SarifRecord) : outcome string :=
  match records with
  | [] => Returns common_prefix
  | record :: rest =>
      loc <- val_strip (Location record) ;;
      let common_prefix := trim_common_prefix common_prefix 0 loc in
      if String.eqb common_prefix "" then Returns common_prefix
      else common_prefix_loop common_prefix rest
  end.

(** The value of [autotrim_prefix] before it is compared with the explicit
    prefixes. *)
Definition autotrim_candidate (records : list SarifRecord)
  : outcome (option string) :=
  match records with
  | [] => Returns None
  | [record] =>
      loc <- val_strip (Location record) ;;
      slash_pos <- py_max (map (py_rfind loc) _SLASHES) ;;
      Returns (if (-1 <? slash_pos)%Z
               then Some (slice_to (Z.to_nat slash_pos) loc) else None)
  | record0 :: rest =>
      common_prefix <- val_strip (Location record0) ;;
      common_prefix <- common_prefix_loop common_prefix rest ;;
      Returns (if negb (String.eqb common_prefix "")
               then Some (py_upper common_prefix) else None)
  end.

Definition option_truthy (o : option string) : bool :=
  match o with
  | Some s => negb (String.eqb s "")
  | None => false
  end.

Definition init_path_prefix_stripping (self : SarifRun) (autotrim : bool)
  (path_prefixes : option (list string)) : outcome unit * SarifRun :=
  let prefixes :=
    match path_prefixes with
    | Some ((_ :: _) as ps) => map (fun prefix => py_upper (py_strip prefix)) ps
    | _ => []
    end in
  let finish (self : SarifRun) (prefixes : list string) :=
    let self := set_path_prefixes_upper self
                  (match prefixes with [] => None | _ => Some prefixes end) in
    (Returns tt, set_cached_records self None) in
  if autotrim then
    match get_records self with
    | (Raises e, self) => (Raises e, self)
    | (Returns records, self) =>
        match autotrim_candidate records with
        | Raises e => (Raises e, self)
        | Returns autotrim_prefix =>
            match autotrim_prefix with
            | Some p =>
                if option_truthy autotrim_prefix
                   && negb (existsb (fun q => py_startswith q (py_upper (py_strip p)))
                              prefixes)
                then finish self (prefixes ++ [p])
                else finish self prefixes
            | None => finish self prefixes
            end
        end
    end
  else finish self prefixes.

Definition get_result_count_by_severity (self : SarifRun)
  : outcome (list (string * nat)) * SarifRun :=
  match get_records self with
  | (Raises e, self) => (Raises e, self)
  | (Returns records, self) =>
      (map_outcome
         (fun severity =>
            hits <- map_outcome (fun record => py_in severity (Severity record))
                      records ;;
            Returns (severity, List.length (filter (fun b : bool => b) hits)))
         SARIF_SEVERITIES,
       self)
  end.

Definition get_issue_code_histogram (self : SarifRun) (severity : string)
  : outcome (list (string * nat)) * SarifRun :=
  match get_records self with
  | (Raises e, self) => (Raises e, self)
  | (Returns records, self) =>
      (Returns (_count_records_by_issue_code records severity), self)
  end.

(** ** SarifFile *)

Record SarifFile : Type := mkFile {
  abs_file_path : string;
  data : pyval;
  runs : list SarifRun
}.


(** [bool(file)] *)
Definition SarifFile_bool (self : SarifFile) : bool :=
  match runs self with
  | [] => false
  | _ => true
  end.

(** [os.path.basename] of a POSIX path *)
Definition basename (p : string) : string :=
  slice_from (Z.to_nat (py_rfind p "/" + 1)) p.

Definition get_file_name (self : SarifFile) : string :=
  basename (abs_file_path self).

Definition is_digit (c : ascii) : bool :=
  let n := nat_of_ascii c in ((48 <=? n) && (n <=? 57))%nat.

(** What is left of [s] after [n] digits, if it starts with that many. *)
Fixpoint eat_digits (n : nat) (s : string) : option string :=
  match n with
  | O => Some s
  | S n' =>
      match s with
      | String c rest => if is_digit c then eat_digits n' rest else None
      | EmptyString => None
      end
  end.

Definition eat_char (c : ascii) (s : string) : option string :=
  match s with
  | String c' rest => if Ascii.eqb c c' then Some rest else None
  | EmptyString => None
  end.

(** Does [DATETIME_REGEX], eight digits, [T], six digits, [Z], match at the
    start of [s]? *)
Definition match_datetime (s : string) : bool :=
  match eat_digits 8 s with
  | Some s1 =>
      match eat_char "T" s1 with
      | Some s2 =>
          match eat_digits 6 s2 with
          | Some s3 =>
              match eat_char "Z" s3 with
              | Some _ => true
              | None => false
              end
          | None => false
          end
      | None => false
      end
  | None => false
  end.

(** [re.findall(DATETIME_REGEX, s)]: the matches from left to right, none
    overlapping; [skip] counts the characters of the last match that are
    still to be passed over. *)
Fixpoint findall_datetime (skip : nat) (s : string) : list string :=
  match s with
  | EmptyString => []
  | String _ rest =>
      match skip with
      | S k => findall_datetime k rest
      | O =>
          if match_datetime s
          then slice_to 16 s :: findall_datetime 15 rest
          else findall_datetime 0 rest
      end
  end.

Definition get_filename_timestamp (self : SarifFile) : pyval :=
  let parsed_date := findall_datetime 0 (get_file_name self) in
  if (List.length parsed_date =? 1)%nat
  then PyList (map PyStr parsed_date) else PyNone.

(** ** SarifFileSet *)

Inductive SarifFileSet : Type :=
| mkFileSet (subdirs : list SarifFileSet) (files : list SarifFile).

Definition subdirs (self : SarifFileSet) : list SarifFileSet :=
  match self with mkFileSet s _ => s end.

Definition files (self : SarifFileSet) : list SarifFile :=
  match self with mkFileSet _ f => f end.

Definition add_dir (self sarif_file_set : SarifFileSet) : SarifFileSet :=
  mkFileSet (subdirs self ++ [sarif_file_set]) (files self).

Definition add_file (self : SarifFileSet) (f : SarifFile) : SarifFileSet :=
  mkFileSet (subdirs self) (files self ++ [f]).

(** [len(fileset)] *)
Fixpoint SarifFileSet_len (self : SarifFileSet) : nat :=
  match self with
  | mkFileSet subdirs files =>
      list_sum (map SarifFileSet_len subdirs)
      + List.length (filter SarifFile_bool files)
  end.

(** The files [iter(fileset)] yields, in order. *)
Definition SarifFileSet_iter (self : SarifFileSet) : list SarifFile :=
  concat (map files (subdirs self)) ++ files self.

(** [l[k]] on a list: a negative index counts from the end. *)
Definition list_getitem {A : Type} (l : list A) (k : Z) : outcome A :=
  let n := Z.of_nat (List.length l) in
  let k' := if (k <? 0)%Z then (k + n)%Z else k in
  if (k' <? 0)%Z then Raises IndexError
  else match nth_error l (Z.to_nat k') with
       | Some x => Returns x
       | None => Raises IndexError
       end.

(** The loops of [__getitem__]: the file found, or the counter [i] at the
    end of the loop. *)
Fixpoint scan_files (index i : Z) (input_files : list SarifFile)
  : SarifFile + Z :=
  match input_files with
  | [] => inr i
  | input_file :: rest =>
      if (i =? index)%Z then inl input_file
      else scan_files index (i + 1) rest
  end.

Fixpoint scan_subdirs (index i : Z) (dirs : list SarifFileSet)
  : SarifFile + Z :=
  match dirs with
  | [] => inr i
  | subdir :: rest =>
      match scan_files index i (files subdir) with
      | inl input_file => inl input_file
      | inr i' => scan_subdirs index i' rest
      end
  end.

(** [fileset[index]] *)
Definition SarifFileSet_getitem (self : SarifFileSet) (index : Z)
  : outcome SarifFile :=
  match scan_subdirs index 0 (subdirs self) with
  | inl input_file => Returns input_file
  | inr i => list_getitem (files self) (index - i)
  end.

(** ** Reference definitions, in the words of the specification *)

(** The flattening of a file set: depth-first through the subdirectories in
    insertion order, then the direct files in insertion order. *)
Fixpoint flatten (self : SarifFileSet) : list SarifFile :=
  match self with
  | mkFileSet subdirs files => concat (map flatten subdirs) ++ files
  end.

(** No subdirectory has subdirectories of its own. *)
Definition shallow (self : SarifFileSet) : Prop :=
  Forall (fun d => subdirs d = []) (subdirs self).

(** The value found by following [path] through nested objects; absent as
    soon as a step is missing. *)
Fixpoint lookup_path (v : pyval) (path : list string) : option pyval :=
  match path with
  | [] => Some v
  | k :: rest =>
      match v with
      | PyDict d =>
          match assoc_get d k with
          | Some x => lookup_path x rest
          | None => None
          end
      | _ => None
      end
  end.

Definition nonempty (o : option pyval) : option pyval :=
  match o with
  | Some v => if truthy v then Some v else None
  | None => None
  end.

(** The first non-empty value of a sequence of sources. *)
Fixpoint first_nonempty (sources : list (option pyval)) : option pyval :=
  match sources with
  | [] => None
  | o :: rest =>
      match nonempty o with
      | Some v => Some v
      | None => first_nonempty rest
      end
  end.

(** The three location sources of a location object, in priority order. *)
Definition location_sources (location : pyval) : list (option pyval) :=
  [ lookup_path location ["physicalLocation"; "address"; "fullyQualifiedName"];
    lookup_path location ["physicalLocation"; "artifactLocation"; "uri"];
    match lookup_path location ["logicalLocations"] with
    | Some (PyList (first :: _)) => lookup_path first ["fullyQualifiedName"]
    | _ => None
    end ].

(** The first entry of the [locations] list of a result, if it has one. *)
Definition first_location (result : pyval) : option pyval :=
  match lookup_path result ["locations"] with
  | Some (PyList (location :: _)) => Some location
  | _ => None
  end.

(** The location the three sources of a result yield, if any. *)
Definition derivable_location (result : pyval) : option pyval :=
  match first_location result with
  | Some location => first_nonempty (location_sources location)
  | None => None
  end.

Definition absent_or_object (o : option pyval) : Prop :=
  match o with
  | None => True
  | Some (PyDict _) => True
  | Some _ => False
  end.

(** A location object shaped as the SARIF schema has it: the location, its
    [physicalLocation] and the [address], [artifactLocation] and [region] of
    that are objects where present, and [logicalLocations], where present
    and not empty, is an array that starts with an object. *)
Definition wf_location (location : pyval) : Prop :=
  match location with
  | PyDict d =>
      match assoc_get d "physicalLocation" with
      | None => True
      | Some (PyDict pl) =>
          absent_or_object (assoc_get pl "address")
          /\ absent_or_object (assoc_get pl "artifactLocation")
          /\ absent_or_object (assoc_get pl "region")
      | Some _ => False
      end
      /\ match assoc_get d "logicalLocations" with
         | None => True
         | Some (PyList (PyDict _ :: _)) => True
         | Some v => truthy v = false
         end
  | _ => False
  end.

(** A result whose [locations], where present and not empty, is an array
    that starts with a well-shaped location object. *)
Definition wf_locations (result : pyval) : Prop :=
  match lookup_path result ["locations"] with
  | None => True
  | Some (PyList (location :: _)) => wf_location location
  | Some v => truthy v = false
  end.

(** The record cache holds nothing [get_records] would answer from. *)
Definition cache_empty (self : SarifRun) : Prop :=
  match _cached_records self with
  | Some (_ :: _) => False
  | _ => True
  end.

(** The part of [result_to_record] that follows the check of the location. *)
Definition build_record (self : SarifRun) (result : pyval)
  (error_id tool_name error_line file_path : pyval) : outcome SarifRecord :=
  file_path <- strip_path_prefix (_path_prefixes_upper self) file_path ;;
  severity <- py_get result "level" (PyStr "warning") ;;
  message_obj <- py_getitem result "message" ;;
  message <- py_getitem message_obj "text" ;;
  Returns {| Tool := tool_name;
             Location := file_path;
             Line := error_line;
             Severity := severity;
             Code := (py_str error_id ++ " " ++ py_str message)%string |}.

(** The position at which [c] is first met in [codes] (their number when it
    is not met). *)
Fixpoint first_index (c : string) (codes : list string) : nat :=
  match codes with
  | [] => 0
  | c' :: rest => if String.eqb c' c then 0 else S (first_index c rest)
  end.

(** [x] stands somewhere before [y] in [l]. *)
Fixpoint precedes {A : Type} (l : list A) (x y : A) : Prop :=
  match l with
  | [] => False
  | a :: rest => (a = x /\ In y rest) \/ precedes rest x y
  end.

(** The codes of the records whose Severity is [severity], in record order. *)
Definition codes_with_severity (records : list SarifRecord)
  (severity : string) : list string :=
  map Code (filter (fun r => val_eq_str (Severity r) severity) records).

(** The dict [code_to_count] after the codes [codes] have been counted. *)
Definition tally (codes : list string) : list (string * nat) :=
  fold_left dict_incr codes [].

(** [x] has at least the count of [y]. *)
Definition count_ge (x y : string * nat) : Prop := snd y <= snd x.

(** The longest common prefix of two strings, character by character. *)
Fixpoint lcp2 (a b : string) : string :=
  match a, b with
  | String x a', String y b' =>
      if Ascii.eqb x y then String x (lcp2 a' b') else EmptyString
  | _, _ => EmptyString
  end.

(** [p] is the longest common prefix of the strings of [l]: a prefix of each
    of them, of which every other common prefix is a prefix. *)
Definition is_longest_common_prefix (p : string) (l : list string) : Prop :=
  Forall (fun s => String.prefix p s = true) l
  /\ forall q, Forall (fun s => String.prefix q s = true) l ->
               String.prefix q p = true.

(** [a] is a prefix of [b] and shorter than it. *)
Definition proper_prefix (a b : string) : Prop :=
  String.prefix a b = true /\ a <> b.

(** Induction on a file set and, with it, on each of its subdirectories. *)
Section FileSetInduction.

Variable P : SarifFileSet -> Prop.

Hypothesis step :
  forall subdirs files, Forall P subdirs -> P (mkFileSet subdirs files).

Fixpoint SarifFileSet_nested_ind (self : SarifFileSet) : P self :=
  match self with
  | mkFileSet subdirs files =>
      step subdirs files
        ((fix go (l : list SarifFileSet) : Forall P l :=
            match l with
            | [] => Forall_nil P
            | d :: rest => Forall_cons d (SarifFileSet_nested_ind d) (go rest)
            end) subdirs)
  end.

End FileSetInduction.

(** ** Sample documents *)

Definition sample_result (rule_id uri level : string) : pyval :=
  PyDict [("ruleId", PyStr rule_id);
          ("level", PyStr level);
          ("message", PyDict [("text", PyStr "msg")]);
          ("locations",
           PyList [PyDict [("physicalLocation",
                            PyDict [("artifactLocation",
                                     PyDict [("uri", PyStr uri)])])]])].

Definition sample_run_data (results : list pyval) : pyval :=
  PyDict [("tool", PyDict [("driver", PyDict [("name", PyStr "lint")])]);
          ("results", PyList results)].

Definition sample_file (path : string) (runs_data : list pyval) : SarifFile :=
  mkFile path (PyDict [("runs", PyList runs_data)])
    (map (fun ir => SarifRun_init (fst ir) (snd ir))
         (combine (seq 0 (List.length runs_data)) runs_data)).

Definition file_without_runs : SarifFile := sample_file "/r/empty.sarif" [].
Definition file_a : SarifFile := sample_file "/r/a.sarif" [sample_run_data []].
Definition file_b : SarifFile := sample_file "/r/d/b.sarif" [sample_run_data []].
Definition file_c : SarifFile := sample_file "/r/d/c.sarif" [sample_run_data []].

Definition empty_fileset : SarifFileSet := mkFileSet [] [].

Definition fileset_one_empty_file : SarifFileSet :=
  add_file empty_fileset file_without_runs.

Definition fileset_two_levels : SarifFileSet :=
  add_file
    (add_dir empty_fileset (add_file (add_file empty_fileset file_b) file_c))
    file_a.

Definition fileset_three_levels : SarifFileSet :=
  add_dir empty_fileset (add_dir empty_fileset (add_file empty_fileset file_b)).

Definition run_of_uris (uris : list string) : SarifRun :=
  SarifRun_init 0
    (sample_run_data (map (fun uri => sample_result "R1" uri "error") uris)).

Definition run_single_record : SarifRun := run_of_uris ["/a/b/c.py"].

Definition run_single_record_upper : SarifRun := run_of_uris ["/A/B/C.PY"].

Definition run_two_records : SarifRun := run_of_uris ["/a/b/c.py"; "/a/b/d.py"].

Definition file_with_timestamp : SarifFile :=
  sample_file "/r/scan_20211012T110000Z.sarif" [].

Definition file_with_two_timestamps : SarifFile :=
  sample_file "/r/scan_20211012T110000Z_20211013T120000Z.sarif" [].

Definition file_with_no_timestamp : SarifFile :=
  sample_file "/r/scan_2021-10-12.sarif" [].

Definition result_with_start_line : pyval :=
  PyDict [("ruleId", PyStr "R1");
          ("message", PyDict [("text", PyStr "msg")]);
          ("locations",
           PyList [PyDict [("physicalLocation",
                            PyDict [("artifactLocation",
                                     PyDict [("uri", PyStr "src/a.py")]);
                                    ("region",
                                     PyDict [("startLine", PyInt 42)])])]])].

Definition result_with_all_sources : pyval :=
  PyDict [("ruleId", PyStr "R2");
          ("message", PyDict [("text", PyStr "msg")]);
          ("locations",
           PyList [PyDict [("physicalLocation",
                            PyDict [("address",
                                     PyDict [("fullyQualifiedName", PyStr "")]);
                                    ("artifactLocation",
                                     PyDict [("uri", PyStr "src/b.py")])]);
                           ("logicalLocations",
                            PyList [PyDict [("fullyQualifiedName",
                                             PyStr "pkg.Class")]])]])].

Definition result_without_location : pyval :=
  PyDict [("ruleId", PyStr "R3");
          ("message", PyDict [("text", PyStr "msg")]);
          ("locations", PyList [PyDict [("physicalLocation", PyDict [])]])].

Definition run_without_results : SarifRun := run_of_uris [].

Definition run_with_failing_result : SarifRun :=
  SarifRun_init 0
    (sample_run_data [sample_result "R1" "src/a.py" "error";
                      result_without_location;
                      sample_result "R1" "src/b.py" "error"]).

Definition fields_of (v : pyval) : list (string * pyval) :=
  match v with
  | PyDict d => d
  | _ => []
  end.

Definition run_two_errors_one_warning : SarifRun :=
  SarifRun_init 0
    (sample_run_data [sample_result "E1" "src/a.py" "error";
                      sample_result "W1" "src/a.py" "warning";
                      sample_result "E2" "src/b.py" "error"]).

Definition record_with_code (severity code : string) : SarifRecord :=
  mkRecord (PyStr "lint") (PyStr "src/a.py") (PyStr "1") (PyStr severity) code.

Definition run_with_codes : SarifRun :=
  SarifRun_init 0
    (sample_run_data [sample_result "E1" "src/a.py" "error";
                      sample_result "W1" "src/a.py" "warning";
                      sample_result "E2" "src/b.py" "error";
                      sample_result "E2" "src/c.py" "error";
                      sample_result "E3" "src/c.py" "error"]).

Definition run_two_records_cached : SarifRun :=
  snd (get_records run_two_records).

Definition run_two_records_reconfigured : SarifRun :=
  snd (init_path_prefix_stripping run_two_records_cached true None).

Definition run_with_shorter_second_record : SarifRun :=
  run_of_uris ["/a/b/c.py"; "/a"].

(** ** The rest of the module *)

(** [s.endswith(suffix)] *)
Definition py_endswith (s suffix : string) : bool :=
  (String.length suffix <=? String.length s)%nat
  && String.eqb (slice_from (String.length s - String.length suffix) s) suffix.

Definition has_sarif_file_extension (filename : string) : bool :=
  let filename_upper := py_strip (py_upper filename) in
  existsb (fun x => py_endswith filename_upper x) [".SARIF"; ".SARIF.JSON"].

(** [s.index(sub)]: the first position of [sub] in [s], counted from [pos]. *)
Fixpoint index_at (pos : nat) (s sub : string) : outcome nat :=
  if String.prefix sub s then Returns pos
  else match s with
       | EmptyString => Raises (ValueError "substring not found")
       | String _ rest => index_at (S pos) rest sub
       end.

Definition py_index (s sub : string) : outcome nat := index_at 0 s sub.

(** [len(v)] *)
Definition py_len (v : pyval) : outcome nat :=
  match v with
  | PyList l => Returns (List.length l)
  | PyDict d => Returns (List.length d)
  | PyStr s => Returns (String.length s)
  | _ => Raises TypeError
  end.

Definition _group_records_by_severity (records : list SarifRecord)
  : list (string * list SarifRecord) :=
  map (fun severity =>
         (severity,
          filter (fun record => val_eq_str (Severity record) severity) records))
      SARIF_SEVERITIES.

(** *** SarifRun, the remaining methods *)

Definition get_records_grouped_by_severity (self : SarifRun)
  : outcome (list (string * list SarifRecord)) * SarifRun :=
  match get_records self with
  | (Raises e, self) => (Raises e, self)
  | (Returns records, self) =>
      (Returns (_group_records_by_severity records), self)
  end.

Definition get_result_count (self : SarifRun) : outcome nat :=
  results <- get_results self ;;
  py_len results.

(** *** SarifFile, the remaining methods *)

Definition get_abs_file_path (self : SarifFile) : string :=
  abs_file_path self.

Definition get_file_name_without_extension (self : SarifFile)
  : outcome string :=
  let file_name := get_file_name self in
  if py_contains file_name "." then
    i <- py_index file_name "." ;;
    Returns (slice_to i file_name)
  else Returns file_name.

Definition get_file_name_extension (self : SarifFile) : outcome string :=
  let file_name := get_file_name self in
  if py_contains file_name "." then
    i <- py_index file_name "." ;;
    Returns (slice_from (i + 1) file_name)
  else Returns "".

(** A [for] loop that calls the method [op] on each object of [l] in turn:
    the values the calls returned and the objects as the calls left them.
    When a call raises, the loop ends there, and the objects after it are
    untouched. *)
Definition for_each {S A : Type} (op : S -> outcome A * S)
  : list S -> outcome (list A) * list S :=
  fix go (l : list S) : outcome (list A) * list S :=
    match l with
    | [] => (Returns [], [])
    | x :: rest =>
        match op x with
        | (Raises e, x') => (Raises e, x' :: rest)
        | (Returns a, x') =>
            match go rest with
            | (Raises e, rest') => (Raises e, x' :: rest')
            | (Returns others, rest') => (Returns (a :: others), x' :: rest')
            end
        end
    end.

Definition set_runs (self : SarifFile) (runs : list SarifRun) : SarifFile :=
  mkFile (abs_file_path self) (data self) runs.

(** [sum(rc.get(severity, 0) for rc in per_part)] for each severity *)
Definition sum_counts_by_severity (per_part : list (list (string * nat)))
  : list (string * nat) :=
  map (fun severity =>
         (severity,
          list_sum (map (fun rc => match assoc_get rc severity with
                                   | Some n => n
                                   | None => 0
                                   end) per_part)))
      SARIF_SEVERITIES.

Definition SarifFile_init_path_prefix_stripping (self : SarifFile)
  (autotrim : bool) (path_prefixes : option (list string))
  : outcome unit * SarifFile :=
  match for_each (fun run => init_path_prefix_stripping run autotrim path_prefixes)
          (runs self) with
  | (Raises e, runs') => (Raises e, set_runs self runs')
  | (Returns _, runs') => (Returns tt, set_runs self runs')
  end.

Definition SarifFile_get_results (self : SarifFile) : outcome (list pyval) :=
  per_run <- map_outcome (fun run => results <- get_results run ;;
                                     py_iter results) (runs self) ;;
  Returns (concat per_run).

Definition SarifFile_get_records (self : SarifFile)
  : outcome (list SarifRecord) * SarifFile :=
  match for_each get_records (runs self) with
  | (Raises e, runs') => (Raises e, set_runs self runs')
  | (Returns per_run, runs') => (Returns (concat per_run), set_runs self runs')
  end.

Definition SarifFile_get_records_grouped_by_severity (self : SarifFile)
  : outcome (list (string * list SarifRecord)) * SarifFile :=
  match SarifFile_get_records self with
  | (Raises e, self) => (Raises e, self)
  | (Returns records, self) =>
      (Returns (_group_records_by_severity records), self)
  end.

Definition SarifFile_get_result_count (self : SarifFile) : outcome nat :=
  per_run <- map_outcome get_result_count (runs self) ;;
  Returns (list_sum per_run).

Definition SarifFile_get_result_count_by_severity (self : SarifFile)
  : outcome (list (string * nat)) * SarifFile :=
  match for_each get_result_count_by_severity (runs self) with
  | (Raises e, runs') => (Raises e, set_runs self runs')
  | (Returns per_run, runs') =>
      (Returns (sum_counts_by_severity per_run), set_runs self runs')
  end.

Definition SarifFile_get_issue_code_histogram (self : SarifFile)
  (severity : string) : outcome (list (string * nat)) * SarifFile :=
  match SarifFile_get_records self with
  | (Raises e, self) => (Raises e, self)
  | (Returns records, self) =>
      (Returns (_count_records_by_issue_code records severity), self)
  end.

(** *** SarifFileSet, the remaining methods *)

(** [bool(fileset)] *)
Fixpoint SarifFileSet_bool (self : SarifFileSet) : bool :=
  match self with
  | mkFileSet subdirs files =>
      existsb SarifFileSet_bool subdirs
      || match files with [] => false | _ => true end
  end.

Definition get_description (self : SarifFileSet) : outcome string :=
  let count := SarifFileSet_len self in
  if (count =? 1)%nat then
    first <- SarifFileSet_getitem self 0 ;;
    Returns (get_file_name first)
  else Returns (py_str (PyInt (Z.of_nat count)) ++ " files")%string.

Fixpoint SarifFileSet_init_path_prefix_stripping (self : SarifFileSet)
  (autotrim : bool) (path_prefixes : option (list string))
  : outcome unit * SarifFileSet :=
  match self with
  | mkFileSet subdirs files =>
      match for_each (fun subdir =>
                        SarifFileSet_init_path_prefix_stripping subdir
                          autotrim path_prefixes) subdirs with
      | (Raises e, subdirs') => (Raises e, mkFileSet subdirs' files)
      | (Returns _, subdirs') =>
          match for_each (fun input_file =>
                            SarifFile_init_path_prefix_stripping input_file
                              autotrim path_prefixes) files with
          | (Raises e, files') => (Raises e, mkFileSet subdirs' files')
          | (Returns _, files') => (Returns tt, mkFileSet subdirs' files')
          end
      end
  end.

Fixpoint SarifFileSet_get_results (self : SarifFileSet)
  : outcome (list pyval) :=
  match self with
  | mkFileSet subdirs files =>
      from_subdirs <- map_outcome SarifFileSet_get_results subdirs ;;
      from_files <- map_outcome SarifFile_get_results files ;;
      Returns (concat from_subdirs ++ concat from_files)
  end.

Fixpoint SarifFileSet_get_records (self : SarifFileSet)
  : outcome (list SarifRecord) * SarifFileSet :=
  match self with
  | mkFileSet subdirs files =>
      match for_each SarifFileSet_get_records subdirs with
      | (Raises e, subdirs') => (Raises e, mkFileSet subdirs' files)
      | (Returns from_subdirs, subdirs') =>
          match for_each SarifFile_get_records files with
          | (Raises e, files') => (Raises e, mkFileSet subdirs' files')
          | (Returns from_files, files') =>
              (Returns (concat from_subdirs ++ concat from_files),
               mkFileSet subdirs' files')
          end
      end
  end.

Definition SarifFileSet_get_records_grouped_by_severity (self : SarifFileSet)
  : outcome (list (string * list SarifRecord)) * SarifFileSet :=
  match SarifFileSet_get_records self with
  | (Raises e, self) => (Raises e, self)
  | (Returns records, self) =>
      (Returns (_group_records_by_severity records), self)
  end.

Fixpoint SarifFileSet_get_result_count (self : SarifFileSet) : outcome nat :=
  match self with
  | mkFileSet subdirs files =>
      from_subdirs <- map_outcome SarifFileSet_get_result_count subdirs ;;
      from_files <- map_outcome SarifFile_get_result_count files ;;
      Returns (list_sum from_subdirs + list_sum from_files)
  end.

Fixpoint SarifFileSet_get_result_count_by_severity (self : SarifFileSet)
  : outcome (list (string * nat)) * SarifFileSet :=
  match self with
  | mkFileSet subdirs files =>
      match for_each SarifFileSet_get_result_count_by_severity subdirs with
      | (Raises e, subdirs') => (Raises e, mkFileSet subdirs' files)
      | (Returns from_subdirs, subdirs') =>
          match for_each SarifFile_get_result_count_by_severity files with
          | (Raises e, files') => (Raises e, mkFileSet subdirs' files')
          | (Returns from_files, files') =>
              (Returns (sum_counts_by_severity (from_subdirs ++ from_files)),
               mkFileSet subdirs' files')
          end
      end
  end.

Definition SarifFileSet_get_issue_code_histogram (self : SarifFileSet)
  (severity : string) : outcome (list (string * nat)) * SarifFileSet :=
  match SarifFileSet_get_records self with
  | (Raises e, self) => (Raises e, self)
  | (Returns records, self) =>
      (Returns (_count_records_by_issue_code records severity), self)
  end.

(** *** Reference definitions for the aggregations *)

(** The Severity of the record is one of the three of [SARIF_SEVERITIES]. *)
Definition has_canonical_severity (record : SarifRecord) : bool :=
  existsb (val_eq_str (Severity record)) SARIF_SEVERITIES.

(** The Severity of the record is a string that contains [severity]. *)
Definition severity_contains (record : SarifRecord) (severity : string)
  : bool :=
  match Severity record with
  | PyStr s => py_contains s severity
  | _ => false
  end.

(** For each severity, the number of records whose Severity contains it. *)
Definition severity_counts (records : list SarifRecord)
  : list (string * nat) :=
  map (fun severity =>
         (severity,
          List.length (filter (fun r => severity_contains r severity) records)))
      SARIF_SEVERITIES.

Definition has_string_severity (record : SarifRecord) : Prop :=
  exists s, Severity record = PyStr s.

(** The length of what a computation returns, when it returns. *)
Definition length_of {A : Type} (c : outcome (list A)) : outcome nat :=
  match c with
  | Returns l => Returns (List.length l)
  | Raises e => Raises e
  end.

(** Every run of every file of the tree of a file set. *)
Definition all_runs (self : SarifFileSet) : list SarifRun :=
  concat (map runs (flatten self)).

Definition file_with_failing_run : SarifFile :=
  mkFile "/r/f.sarif" PyNone [run_two_errors_one_warning; run_with_failing_result].

Definition fileset_with_records : SarifFileSet :=
  add_file
    (add_dir empty_fileset
       (add_file empty_fileset
          (mkFile "/r/d/g.sarif" PyNone [run_two_records])))
    (mkFile "/r/h.sarif" PyNone [run_two_errors_one_warning; run_with_codes]).

(** What a method of a file set gave, [whole], is what the loop over the
    files of its flattening gave, [parts]: the same files afterwards, and
    the parts put together or the same exception. *)
Definition follows_flatten {A : Type}
  (whole : outcome (list A) * SarifFileSet)
  (parts : outcome (list (list A)) * list SarifFile) : Prop :=
  flatten (snd whole) = snd parts
  /\ match fst whole, fst parts with
     | Returns all, Returns per_file => all = concat per_file
     | Raises e, Raises e' => e = e'
     | _, _ => False
     end.

Fixpoint all_digits (s : string) : bool :=
  match s with
  | EmptyString => true
  | String c rest => is_digit c && all_digits rest
  end.

(** [m] has the form of [DATETIME_REGEX]: eight digits, [T], six digits,
    [Z]. *)
Definition is_timestamp (m : string) : Prop :=
  exists date time,
    m = (date ++ "T" ++ time ++ "Z")%string
    /\ String.length date = 8 /\ all_digits date = true
    /\ String.length time = 6 /\ all_digits time = true.

Definition is_substring (m s : string) : Prop :=
  exists pre post, s = (pre ++ m ++ post)%string.

(** * Properties *)

(** ** Flattening of a file set *)

Lemma filter_concat {A : Type} (f : A -> bool) (ll : list (list A)) :
  filter f (concat ll) = concat (map (filter f) ll).
Proof.
  induction ll as [| l ll IH]; simpl; [reflexivity |].
  now rewrite filter_app, IH.
Qed.

Lemma length_concat_sum {A : Type} (ll : list (list A)) :
  List.length (concat ll) = list_sum (map (@List.length A) ll).
Proof.
  induction ll as [| l ll IH]; simpl; [reflexivity |].
  now rewrite length_app, IH.
Qed.

Lemma len_counts_nonempty_files (self : SarifFileSet) :
  SarifFileSet_len self = List.length (filter SarifFile_bool (flatten self)).
Proof.
  induction self as [subdirs files IH] using SarifFileSet_nested_ind.
  simpl. rewrite filter_app, length_app. f_equal.
  rewrite filter_concat, length_concat_sum, !map_map. f_equal.
  induction IH as [| d ds Hd _ IHds]; simpl; [reflexivity |].
  now rewrite Hd, IHds.
Qed.

Lemma shallow_iter_flatten (self : SarifFileSet) :
  shallow self -> SarifFileSet_iter self = flatten self.
Proof.
  destruct self as [subdirs files]. unfold shallow, SarifFileSet_iter. simpl.
  intros H. f_equal. f_equal.
  induction H as [| d ds Hd _ IH]; simpl; [reflexivity |].
  rewrite IH. f_equal. destruct d as [sd fd]. simpl in *. now subst.
Qed.

Lemma scan_files_spec (index i : Z) (l : list SarifFile) :
  (i <= index)%Z ->
  match nth_error l (Z.to_nat (index - i)) with
  | Some f => scan_files index i l = inl f
  | None => scan_files index i l = inr (i + Z.of_nat (List.length l))%Z
  end.
Proof.
  revert i. induction l as [| f l IH]; intros i Hi; simpl.
  - destruct (Z.to_nat (index - i)); simpl; f_equal; lia.
  - destruct (Z.eqb_spec i index) as [-> | Hne].
    + now rewrite Z.sub_diag.
    + specialize (IH (i + 1)%Z ltac:(lia)).
      replace (Z.to_nat (index - i)) with (S (Z.to_nat (index - (i + 1)))) by lia.
      simpl. destruct (nth_error l _); rewrite IH; f_equal; lia.
Qed.

Lemma scan_subdirs_spec (index i : Z) (dirs : list SarifFileSet) :
  (i <= index)%Z ->
  match nth_error (concat (map files dirs)) (Z.to_nat (index - i)) with
  | Some f => scan_subdirs index i dirs = inl f
  | None =>
      scan_subdirs index i dirs
      = inr (i + Z.of_nat (List.length (concat (map files dirs))))%Z
  end.
Proof.
  revert i. induction dirs as [| d dirs IH]; intros i Hi; simpl.
  - destruct (Z.to_nat (index - i)); simpl; f_equal; lia.
  - pose proof (scan_files_spec index i (files d) Hi) as Hd.
    destruct (nth_error (files d) (Z.to_nat (index - i))) as [f |] eqn:E.
    + rewrite Hd. rewrite nth_error_app1 by (apply nth_error_Some; congruence).
      now rewrite E.
    + rewrite Hd. apply nth_error_None in E.
      rewrite nth_error_app2 by exact E.
      specialize (IH (i + Z.of_nat (List.length (files d)))%Z ltac:(lia)).
      replace (Z.to_nat (index - (i + Z.of_nat (List.length (files d)))))
        with (Z.to_nat (index - i) - List.length (files d))%nat in IH by lia.
      destruct (nth_error (concat (map files dirs)) _).
      * exact IH.
      * rewrite IH, length_app. f_equal. lia.
Qed.

Lemma getitem_agrees_with_iter (self : SarifFileSet) (i : nat) (f : SarifFile) :
  nth_error (SarifFileSet_iter self) i = Some f ->
  SarifFileSet_getitem self (Z.of_nat i) = Returns f.
Proof.
  unfold SarifFileSet_iter, SarifFileSet_getitem. intros H.
  pose proof (scan_subdirs_spec (Z.of_nat i) 0 (subdirs self) ltac:(lia)) as Hs.
  rewrite Z.sub_0_r, Nat2Z.id in Hs.
  destruct (nth_error (concat (map files (subdirs self))) i) as [g |] eqn:E.
  - rewrite Hs. rewrite nth_error_app1 in H by (apply nth_error_Some; congruence).
    congruence.
  - rewrite Hs. apply nth_error_None in E.
    rewrite nth_error_app2 in H by exact E.
    unfold list_getitem.
    set (n := List.length (concat (map files (subdirs self)))) in *.
    replace (Z.of_nat i - (0 + Z.of_nat n))%Z with (Z.of_nat (i - n)) by lia.
    assert (Hlt : (Z.of_nat (i - n) <? 0)%Z = false) by (apply Z.ltb_ge; lia).
    cbv zeta. rewrite !Hlt. now rewrite Nat2Z.id, H.
Qed.

(** C1, as stated, fails: a file set whose only member is a file without
    runs has length 0, while its iteration visits that file. *)
Lemma C1_len_differs_from_iteration :
  SarifFileSet_len fileset_one_empty_file = 0
  /\ SarifFileSet_iter fileset_one_empty_file = [file_without_runs]
  /\ List.length (SarifFileSet_iter fileset_one_empty_file)
     <> SarifFileSet_len fileset_one_empty_file.
Proof.
  repeat split; try reflexivity. simpl. discriminate.
Qed.

(** The other way [__len__] and [__iter__] part: [__len__] descends into
    the subdirectories of a subdirectory, [__iter__] and [__getitem__] read
    only the direct files of each subdirectory. *)
Lemma nested_subdir_counted_but_not_visited :
  SarifFileSet_len fileset_three_levels = 1
  /\ SarifFileSet_iter fileset_three_levels = []
  /\ SarifFileSet_getitem fileset_three_levels 0 = Raises IndexError
  /\ flatten fileset_three_levels = [file_b].
Proof.
  repeat split; reflexivity.
Qed.

(** C1 (amended): index access and iteration agree on every file set,
    [fileset[i]] being the i-th file of the iteration for every i below the
    number of files iterated; [len] counts the files of the depth-first
    flattening that have at least one run; and on a file set whose
    subdirectories have no subdirectories of their own the iteration is that
    depth-first flattening (subdirectories in insertion order, then the
    direct files in insertion order), so that it visits exactly
    [len(fileset)] files when every file has at least one run. *)
Theorem C1_fileset_flattening (self : SarifFileSet) :
  (forall i, (i < List.length (SarifFileSet_iter self))%nat ->
     exists f, nth_error (SarifFileSet_iter self) i = Some f
               /\ SarifFileSet_getitem self (Z.of_nat i) = Returns f)
  /\ SarifFileSet_len self
     = List.length (filter SarifFile_bool (flatten self))
  /\ (shallow self -> SarifFileSet_iter self = flatten self)
  /\ (shallow self ->
      Forall (fun f => SarifFile_bool f = true) (flatten self) ->
      List.length (SarifFileSet_iter self) = SarifFileSet_len self).
Proof.
  split; [| split; [| split]].
  - intros i Hi.
    destruct (nth_error (SarifFileSet_iter self) i) as [f |] eqn:E.
    + exists f. split; [reflexivity |]. now apply getitem_agrees_with_iter.
    + apply nth_error_None in E. lia.
  - apply len_counts_nonempty_files.
  - apply shallow_iter_flatten.
  - intros Hs Hall.
    rewrite len_counts_nonempty_files, (shallow_iter_flatten _ Hs).
    f_equal. symmetry. apply forallb_filter_id.
    now apply forallb_forall, Forall_forall.
Qed.

Lemma C1_fileset_flattening_witness :
  SarifFileSet_iter fileset_two_levels = [file_b; file_c; file_a]
  /\ SarifFileSet_getitem fileset_two_levels 2 = Returns file_a
  /\ List.length (SarifFileSet_iter fileset_two_levels)
     = SarifFileSet_len fileset_two_levels.
Proof.
  pose proof (C1_fileset_flattening fileset_two_levels) as [Hget [_ [Hit Hlen]]].
  assert (Hs : shallow fileset_two_levels) by (repeat constructor).
  split; [rewrite (Hit Hs); reflexivity |].
  split.
  - destruct (Hget 2%nat) as [f [Hf Hg]]; [simpl; lia |].
    simpl in Hf. injection Hf as <-. exact Hg.
  - apply Hlen; [exact Hs | repeat constructor].
Defined.

(** ** Autotrim on a single record *)

(** C2, evaluated on the code: with the single record ["/a/b/c.py"],
    [init_path_prefix_stripping(autotrim=True)] stores the prefix ["/a/b"]
    as it stands, not upper-cased, and [get_records()] then returns the
    record with its location unchanged, because the upper-cased location
    does not start with the stored prefix. *)
Theorem C2_single_record_location_not_stripped :
  exists run1 record,
    init_path_prefix_stripping run_single_record true None = (Returns tt, run1)
    /\ _path_prefixes_upper run1 = Some ["/a/b"]
    /\ fst (get_records run1) = Returns [record]
    /\ Location record = PyStr "/a/b/c.py"
    /\ Location record <> PyStr "c.py".
Proof.
  eexists. eexists.
  split; [reflexivity |].
  split; [reflexivity |].
  split; [reflexivity |].
  split; [reflexivity | discriminate].
Qed.

(** The same run with its location in upper case is stripped, and so are two
    records in lower case, whose common prefix the code upper-cases. *)
Lemma autotrim_strips_when_prefix_is_upper_case :
  (exists run1 record,
     init_path_prefix_stripping run_single_record_upper true None
     = (Returns tt, run1)
     /\ _path_prefixes_upper run1 = Some ["/A/B"]
     /\ fst (get_records run1) = Returns [record]
     /\ Location record = PyStr "C.PY")
  /\ (exists run1 record1 record2,
        init_path_prefix_stripping run_two_records true None
        = (Returns tt, run1)
        /\ _path_prefixes_upper run1 = Some ["/A/B/"]
        /\ fst (get_records run1) = Returns [record1; record2]
        /\ Location record1 = PyStr "c.py"
        /\ Location record2 = PyStr "d.py").
Proof.
  split.
  - eexists. eexists. repeat split; reflexivity.
  - eexists. eexists. eexists.
    split; [reflexivity |].
    split; [reflexivity |].
    split; [reflexivity |].
    split; reflexivity.
Qed.

(** ** Timestamp in the file name *)

(** C6, evaluated on the code: for the file name
    ["scan_20211012T110000Z.sarif"] the method returns the list of matches
    [["20211012T110000Z"]], not the string; with two matches or none it
    returns [None]. *)
Theorem C6_filename_timestamp_returns_match_list :
  get_file_name file_with_timestamp = "scan_20211012T110000Z.sarif"
  /\ get_filename_timestamp file_with_timestamp
     = PyList [PyStr "20211012T110000Z"]
  /\ get_filename_timestamp file_with_timestamp <> PyStr "20211012T110000Z"
  /\ get_filename_timestamp file_with_two_timestamps = PyNone
  /\ get_filename_timestamp file_with_no_timestamp = PyNone.
Proof.
  repeat split; try reflexivity.
  vm_compute. discriminate.
Qed.

(** Whatever the file name, the method returns either [None] or a list of
    exactly one match. *)
Lemma get_filename_timestamp_cases (self : SarifFile) :
  get_filename_timestamp self = PyNone
  \/ exists m, findall_datetime 0 (get_file_name self) = [m]
               /\ get_filename_timestamp self = PyList [PyStr m].
Proof.
  unfold get_filename_timestamp.
  destruct (findall_datetime 0 (get_file_name self)) as [| m [| m' l]];
    simpl; auto.
  right. exists m. auto.
Qed.

(** ** Extraction of a record from a result *)

Lemma bind_returns {A B : Type} (c : outcome A) (k : A -> outcome B) (b : B) :
  bind c k = Returns b -> exists a, c = Returns a /\ k a = Returns b.
Proof.
  destruct c as [a | e]; simpl; [eauto | discriminate].
Qed.

Lemma bind_raises {A B : Type} (c : outcome A) (k : A -> outcome B) (e : pyexn) :
  bind c k = Raises e ->
  c = Raises e \/ exists a, c = Returns a /\ k a = Raises e.
Proof.
  destruct c as [a | e']; simpl; [eauto | left; congruence].
Qed.

Lemma py_get_returns (v : pyval) (k : string) (default x : pyval) :
  py_get v k default = Returns x ->
  exists d, v = PyDict d
            /\ x = match assoc_get d k with Some y => y | None => default end.
Proof.
  destruct v; simpl; try discriminate.
  intros H. eexists. split; [reflexivity |].
  destruct (assoc_get d k); congruence.
Qed.

Lemma py_getitem0_of_get (v location : pyval) :
  truthy v = true -> py_getitem0 v = Returns location ->
  (exists rest, v = PyList (location :: rest))
  \/ (exists c s, v = PyStr (String c s) /\ location = PyStr (String c "")).
Proof.
  destruct v as [| | | s | l | d]; simpl; try discriminate.
  - destruct s; [discriminate |]. intros _ H. injection H as <-. right. eauto.
  - destruct l; [discriminate |]. intros _ H. injection H as <-. left. eauto.
Qed.

(** What a returning [result_to_record] has gone through: the result is an
    object with a rule id, its [locations] array starts with a location object
    that gave the line and a non-empty path, and the record is built from
    these. *)
Lemma result_to_record_returns (self : SarifRun) (result : pyval)
  (record : SarifRecord) :
  result_to_record self result = Returns record ->
  exists d location rest ld physical_location region file_path,
    result = PyDict d
    /\ assoc_get d "locations" = Some (PyList (location :: rest))
    /\ location = PyDict ld
    /\ physical_location
       = match assoc_get ld "physicalLocation" with
         | Some y => y | None => PyDict []
         end
    /\ py_get physical_location "region" (PyDict []) = Returns region
    /\ py_get region "startLine" (PyStr "1") = Returns (Line record)
    /\ find_file_path location = Returns file_path
    /\ truthy file_path = true
    /\ strip_path_prefix (_path_prefixes_upper self) file_path
       = Returns (Location record).
Proof.
  unfold result_to_record. intros H.
  apply bind_returns in H as [error_id [Hid H]].
  apply bind_returns in H as [locations [Hlocs H]].
  apply bind_returns in H as [tool_name [Htool H]].
  apply bind_returns in H as [line_and_path [Hlp H]].
  destruct result as [| | | | | d]; try discriminate.
  destruct (truthy locations) eqn:Ht.
  - apply bind_returns in Hlp as [location [Hloc Hlp]].
    apply bind_returns in Hlp as [physical_location [Hpl Hlp]].
    apply bind_returns in Hlp as [region [Hreg Hlp]].
    apply bind_returns in Hlp as [error_line [Hline Hlp]].
    apply bind_returns in Hlp as [file_path [Hfp Hlp]].
    injection Hlp as <-. cbn [fst snd] in H.
    destruct (truthy file_path) eqn:Htf; simpl in H; [| discriminate].
    apply bind_returns in H as [stripped [Hstrip H]].
    apply bind_returns in H as [severity [_ H]].
    apply bind_returns in H as [message_obj [_ H]].
    apply bind_returns in H as [message [_ H]].
    injection H as <-. cbn [Line Location].
    destruct (py_getitem0_of_get _ _ Ht Hloc) as [[rest ->] | [c [s [-> ->]]]];
      [| discriminate].
    apply py_get_returns in Hpl as Hd. destruct Hd as [ld [-> ->]].
    simpl in Hlocs.
    destruct (assoc_get d "locations") as [y |] eqn:Hl;
      [| injection Hlocs as Hlocs; discriminate].
    injection Hlocs as ->.
    exists d, (PyDict ld), rest, ld. do 3 eexists.
    repeat split; eauto.
  - injection Hlp as <-. simpl in H. discriminate.
Qed.

Lemma lookup_start_line (ld : list (string * pyval))
  (physical_location region line : pyval) :
  physical_location
  = match assoc_get ld "physicalLocation" with
    | Some y => y | None => PyDict []
    end ->
  py_get physical_location "region" (PyDict []) = Returns region ->
  py_get region "startLine" (PyStr "1") = Returns line ->
  line = match lookup_path (PyDict ld) ["physicalLocation"; "region"; "startLine"] with
         | Some v => v
         | None => PyStr "1"
         end.
Proof.
  intros -> Hr Hl.
  apply py_get_returns in Hr as [pl [Hpl ->]].
  apply py_get_returns in Hl as [rg [Hrg ->]].
  cbn [lookup_path].
  destruct (assoc_get ld "physicalLocation") as [y |].
  - subst y. destruct (assoc_get pl "region") as [r |].
    + subst r. now destruct (assoc_get rg "startLine").
    + injection Hrg as <-. reflexivity.
  - injection Hpl as <-. simpl in Hrg. injection Hrg as <-. reflexivity.
Qed.

(** C9, as stated, fails: a result whose region gives [startLine] 42 is
    extracted with the integer 42 as its Line, which is not a string. *)
Lemma C9_line_is_not_always_a_string :
  exists record,
    result_to_record run_without_results result_with_start_line = Returns record
    /\ Line record = PyInt 42
    /\ forall s, Line record <> PyStr s.
Proof.
  eexists. split; [reflexivity |]. split; [reflexivity |]. discriminate.
Qed.

(** C9 (amended): for every extracted result, the Record's Line is the value
    of [physicalLocation.region.startLine] of the result's first location,
    unchanged (an integer where the document gives one), and it is the
    string ["1"] whenever that first location omits
    [physicalLocation.region.startLine]. *)
Theorem C9_line_is_start_line_or_default (self : SarifRun) (result : pyval)
  (record : SarifRecord) :
  result_to_record self result = Returns record ->
  exists location,
    first_location result = Some location
    /\ Line record
       = match lookup_path location ["physicalLocation"; "region"; "startLine"] with
         | Some v => v
         | None => PyStr "1"
         end.
Proof.
  intros H.
  destruct (result_to_record_returns _ _ _ H)
    as (d & location & rest & ld & pl & region & fp
        & -> & Hl & -> & Hpl & Hr & Hline & _).
  exists (PyDict ld). split.
  - unfold first_location. cbn [lookup_path]. now rewrite Hl.
  - eapply lookup_start_line; eauto.
Qed.

Lemma C9_line_is_start_line_or_default_witness :
  exists record,
    result_to_record run_without_results (sample_result "R1" "src/a.py" "note")
    = Returns record
    /\ Line record = PyStr "1".
Proof.
  eexists. split; [reflexivity |].
  destruct (C9_line_is_start_line_or_default run_without_results
              (sample_result "R1" "src/a.py" "note") _ eq_refl)
    as [location [Hloc Hline]].
  vm_compute in Hloc. injection Hloc as <-. exact Hline.
Defined.

Tactic Notation "case_lookup" constr(d) constr(k) :=
  let o := fresh "o" in
  let E := fresh "E" in
  destruct (assoc_get d k) as [o |] eqn:E.

(** On a well-shaped location object the chain of the source returns, and
    what it returns is non-empty exactly when one of the three sources is:
    it is then the first non-empty of them. *)
Lemma find_file_path_wf (location : pyval) :
  wf_location location ->
  exists v, find_file_path location = Returns v
            /\ first_nonempty (location_sources location)
               = if truthy v then Some v else None.
Proof.
  destruct location as [| | | | | ld]; simpl; try tauto.
  intros [Hpl Hll].
  unfold find_file_path, location_sources.
  cbn [lookup_path py_get first_nonempty].
  assert (Hlogical :
    forall w, truthy w = false ->
    exists v,
      (logical_locations <-
         match assoc_get ld "logicalLocations" with
         | Some x => Returns x | None => Returns PyNone
         end ;;
       (if truthy logical_locations
        then first <- py_getitem0 logical_locations ;;
             py_get first "fullyQualifiedName" PyNone
        else Returns w)) = Returns v
      /\ match
           nonempty
             match
               match assoc_get ld "logicalLocations" with
               | Some x => Some x | None => None
               end
             with
             | Some (PyList (first :: _)) =>
                 match first with
                 | PyDict d =>
                     match assoc_get d "fullyQualifiedName" with
                     | Some x => Some x | None => None
                     end
                 | _ => None
                 end
             | _ => None
             end
         with
         | Some v => Some v
         | None => None
         end = if truthy v then Some v else None).
  { intros w Hw.
    case_lookup ld "logicalLocations"; cbn [bind].
    - destruct o as [| | | | [| [| | | | | fd] l] |]; cbv beta iota in Hll;
        try (rewrite Hll; exists w; rewrite Hw; split; reflexivity);
        try (simpl in Hll; discriminate Hll).
      cbn. case_lookup fd "fullyQualifiedName".
      + exists o. split; [reflexivity |].
        unfold nonempty. now destruct (truthy o).
      + exists PyNone. split; reflexivity.
    - exists w. rewrite Hw. split; reflexivity. }
  assert (Hartifact :
    forall pl, absent_or_object (assoc_get pl "artifactLocation") ->
    exists w,
      (artifact_location <-
         match assoc_get pl "artifactLocation" with
         | Some x => Returns x | None => Returns (PyDict [])
         end ;;
       py_get artifact_location "uri" PyNone) = Returns w
      /\ nonempty
           match assoc_get pl "artifactLocation" with
           | Some x => lookup_path x ["uri"]
           | None => None
           end = if truthy w then Some w else None).
  { intros pl Hal. case_lookup pl "artifactLocation"; cbn [bind].
    - destruct o; cbn in Hal; try tauto. cbn.
      case_lookup d "uri".
      + exists o. split; [reflexivity |]. reflexivity.
      + exists PyNone. split; reflexivity.
    - exists PyNone. split; reflexivity. }
  case_lookup ld "physicalLocation"; cbn [bind].
  - destruct o as [| | | | | pl]; try tauto.
    destruct Hpl as (Ha & Hal & _). cbn [py_get].
    destruct (Hartifact pl Hal) as [w [Hw1 Hw2]].
    assert (Hsecond :
      exists v,
        (file_path <-
           (physical_location <- Returns (PyDict pl) ;;
            artifact_location <-
              py_get physical_location "artifactLocation" (PyDict []) ;;
            py_get artifact_location "uri" PyNone) ;;
         (if negb (truthy file_path)
          then logical_locations <-
                 match assoc_get ld "logicalLocations" with
                 | Some x => Returns x | None => Returns PyNone
                 end ;;
               (if truthy logical_locations
                then first <- py_getitem0 logical_locations ;;
                     py_get first "fullyQualifiedName" PyNone
                else Returns file_path)
          else Returns file_path)) = Returns v
        /\ match
             nonempty
               match assoc_get pl "artifactLocation" with
               | Some x => lookup_path x ["uri"]
               | None => None
               end
           with
           | Some v => Some v
           | None =>
               match
                 nonempty
                   match
                     match assoc_get ld "logicalLocations" with
                     | Some x => Some x | None => None
                     end
                   with
                   | Some (PyList (first :: _)) =>
                       lookup_path first ["fullyQualifiedName"]
                   | _ => None
                   end
               with
               | Some v => Some v
               | None => None
               end
           end = if truthy v then Some v else None).
    { cbn [bind py_get]. rewrite Hw1, Hw2. cbn [bind].
      destruct (truthy w) eqn:Htw; cbn [negb].
      - exists w. rewrite Htw. split; reflexivity.
      - exact (Hlogical w Htw). }
    case_lookup pl "address"; cbn [bind].
    + destruct o as [| | | | | ad]; cbn in Ha; try tauto. cbn [py_get lookup_path].
      case_lookup ad "fullyQualifiedName"; cbn [bind nonempty].
      * destruct (truthy o) eqn:Hto; cbn [negb bind].
        -- exists o. rewrite Hto. split; reflexivity.
        -- exact Hsecond.
      * cbn [truthy negb bind]. exact Hsecond.
    + cbn [py_get assoc_get bind truthy negb nonempty]. exact Hsecond.
  - cbn [py_get assoc_get bind truthy negb nonempty].
    exact (Hlogical PyNone eq_refl).
Qed.

Lemma nested_get_is_lookup (v a b c : pyval) (k1 k2 k3 : string) :
  py_get v k1 (PyDict []) = Returns a ->
  py_get a k2 (PyDict []) = Returns b ->
  py_get b k3 PyNone = Returns c ->
  nonempty (lookup_path v [k1; k2; k3]) = if truthy c then Some c else None.
Proof.
  intros Ha Hb Hc.
  apply py_get_returns in Ha as [dv [-> ->]].
  apply py_get_returns in Hb as [da [Hda ->]].
  apply py_get_returns in Hc as [db [Hdb ->]].
  cbn [lookup_path].
  destruct (assoc_get dv k1) as [x |].
  - subst x. destruct (assoc_get da k2) as [y |].
    + subst y. now destruct (assoc_get db k3).
    + injection Hdb as <-. reflexivity.
  - injection Hda as <-. simpl in Hdb. injection Hdb as <-. reflexivity.
Qed.

Lemma logical_location_is_lookup (location ll c w : pyval) :
  py_get location "logicalLocations" PyNone = Returns ll ->
  (if truthy ll
   then first <- py_getitem0 ll ;; py_get first "fullyQualifiedName" PyNone
   else Returns w) = Returns c ->
  nonempty
    match lookup_path location ["logicalLocations"] with
    | Some (PyList (first :: _)) => lookup_path first ["fullyQualifiedName"]
    | _ => None
    end
  = if truthy ll then (if truthy c then Some c else None) else None.
Proof.
  intros Hll Hc.
  apply py_get_returns in Hll as [ld [-> ->]]. cbn [lookup_path].
  destruct (assoc_get ld "logicalLocations") as [ll |]; [| reflexivity].
  destruct (truthy ll) eqn:Ht.
  - apply bind_returns in Hc as [first [Hfirst Hc]].
    destruct (py_getitem0_of_get _ _ Ht Hfirst) as [[rest ->] | [ch [s [-> ->]]]];
      [| discriminate].
    apply py_get_returns in Hc as [fd [-> ->]]. cbn [lookup_path].
    now destruct (assoc_get fd "fullyQualifiedName").
  - destruct ll as [| | | | [| x l] |]; try reflexivity. discriminate.
Qed.

(** Whenever the chain of the source returns a non-empty path, that path is
    the first non-empty of the three sources. *)
Lemma find_file_path_returns (location file_path : pyval) :
  find_file_path location = Returns file_path ->
  truthy file_path = true ->
  first_nonempty (location_sources location) = Some file_path.
Proof.
  unfold find_file_path, location_sources. intros H Ht.
  apply bind_returns in H as [pl [Hpl H]].
  apply bind_returns in H as [address [Haddr H]].
  apply bind_returns in H as [fqn [Hfqn H]].
  apply bind_returns in H as [uri [Huri H]].
  cbn [first_nonempty].
  rewrite (nested_get_is_lookup _ _ _ _ _ _ _ Hpl Haddr Hfqn).
  destruct (truthy fqn) eqn:Hf; cbn [negb] in Huri.
  - injection Huri as <-. rewrite Hf in H. cbn [negb] in H. congruence.
  - apply bind_returns in Huri as [pl' [Hpl' Huri]].
    apply bind_returns in Huri as [al [Hal Huri]].
    rewrite (nested_get_is_lookup _ _ _ _ _ _ _ Hpl' Hal Huri).
    destruct (truthy uri) eqn:Hu; cbn [negb] in H; [congruence |].
    apply bind_returns in H as [ll [Hll H]].
    rewrite (logical_location_is_lookup _ _ _ _ Hll H).
    destruct (truthy ll); [now rewrite Ht |].
    injection H as <-. congruence.
Qed.

Lemma line_lookup_wf (location : pyval) :
  wf_location location ->
  exists physical_location region line,
    py_get location "physicalLocation" (PyDict []) = Returns physical_location
    /\ py_get physical_location "region" (PyDict []) = Returns region
    /\ py_get region "startLine" (PyStr "1") = Returns line.
Proof.
  destruct location as [| | | | | ld]; simpl; try tauto.
  intros [Hpl _].
  case_lookup ld "physicalLocation".
  - destruct o as [| | | | | pl]; try tauto. destruct Hpl as (_ & _ & Hr).
    exists (PyDict pl). simpl.
    case_lookup pl "region".
    + destruct o as [| | | | | rg]; simpl in Hr; try tauto.
      exists (PyDict rg). simpl.
      case_lookup rg "startLine"; eauto.
    + exists (PyDict []). simpl. eauto.
  - exists (PyDict []), (PyDict []). simpl. eauto.
Qed.

Lemma lookup_message_text (d : list (string * pyval)) (message : pyval) :
  lookup_path (PyDict d) ["message"; "text"] = Some message ->
  exists md, assoc_get d "message" = Some (PyDict md)
             /\ assoc_get md "text" = Some message.
Proof.
  cbn [lookup_path].
  case_lookup d "message"; [| discriminate].
  destruct o as [| | | | | md]; try discriminate.
  case_lookup md "text"; [| discriminate]. intros H. exists md. split; congruence.
Qed.

(** C4: for a result whose [locations] list is not empty, the extracted
    Record's Location, before prefix stripping, is the first non-empty of
    [physicalLocation.address.fullyQualifiedName],
    [physicalLocation.artifactLocation.uri] and the [fullyQualifiedName] of
    the first entry of [logicalLocations]: whenever a record is extracted,
    one of the three is non-empty and the record's Location is the first
    such value put through the stripping, and that value itself when no
    prefixes are configured; and on a result shaped as the schema has it, of
    which one of the three is non-empty, the record is extracted. *)
Theorem C4_location_fallback_order (self : SarifRun)
  (d : list (string * pyval)) (location : pyval) (rest : list pyval) :
  assoc_get d "locations" = Some (PyList (location :: rest)) ->
  (forall record,
     result_to_record self (PyDict d) = Returns record ->
     exists v,
       first_nonempty (location_sources location) = Some v
       /\ strip_path_prefix (_path_prefixes_upper self) v
          = Returns (Location record)
       /\ (_path_prefixes_upper self = None -> Location record = v))
  /\ (forall error_id tool_name message v,
        assoc_get d "ruleId" = Some error_id ->
        get_tool_name self = Returns tool_name ->
        wf_location location ->
        lookup_path (PyDict d) ["message"; "text"] = Some message ->
        first_nonempty (location_sources location) = Some v ->
        _path_prefixes_upper self = None ->
        exists record,
          result_to_record self (PyDict d) = Returns record
          /\ Location record = v).
Proof.
  intros Hlocs. split.
  - intros record H.
    destruct (result_to_record_returns _ _ _ H)
      as (d' & location' & rest' & ld & pl & region & fp
          & Hd & Hl & Hld & _ & _ & _ & Hfp & Htfp & Hstrip).
    injection Hd as <-. rewrite Hlocs in Hl. injection Hl as <- <-.
    exists fp. split; [now apply find_file_path_returns |].
    split; [exact Hstrip |].
    intros Hnone. rewrite Hnone in Hstrip. simpl in Hstrip. congruence.
  - intros error_id tool_name message v Hid Htool Hwf Hmsg Hv Hnone.
    destruct (find_file_path_wf _ Hwf) as [w [Hw1 Hw2]].
    rewrite Hv in Hw2.
    destruct (truthy w) eqn:Htw; [| discriminate]. injection Hw2 as ->.
    destruct (line_lookup_wf _ Hwf) as (pl & rg & line & Hpl & Hrg & Hline).
    destruct (lookup_message_text _ _ Hmsg) as [md [Hm Ht]].
    destruct (py_get (PyDict d) "level" (PyStr "warning")) as [severity |] eqn:Hsev;
      [| simpl in Hsev; destruct (assoc_get d "level"); discriminate].
    eexists. unfold result_to_record. rewrite Hsev.
    cbn [py_getitem py_get]. rewrite Hid, Hlocs. cbn [bind truthy py_getitem0].
    rewrite Htool. cbn [bind]. rewrite Hpl. cbn [bind]. rewrite Hrg. cbn [bind].
    rewrite Hline. cbn [bind]. rewrite Hw1. cbn [bind fst snd].
    rewrite Htw. cbn [negb]. rewrite Hnone. cbn [strip_path_prefix bind].
    rewrite Hm. cbn [bind py_getitem]. rewrite Ht.
    cbn [bind]. split; reflexivity.
Qed.

Lemma C4_location_fallback_order_witness :
  exists record,
    result_to_record run_without_results result_with_all_sources
    = Returns record
    /\ Location record = PyStr "src/b.py"
    /\ first_nonempty
         [Some (PyStr ""); Some (PyStr "src/b.py"); Some (PyStr "pkg.Class")]
       = Some (Location record).
Proof.
  destruct (C4_location_fallback_order run_without_results
              (fields_of result_with_all_sources) _ _ eq_refl)
    as [Hreturned Hreturns].
  destruct (Hreturns (PyStr "R2") (PyStr "lint") (PyStr "msg") (PyStr "src/b.py")
              eq_refl eq_refl) as [record [Hrec Hloc]];
    [simpl; repeat split | reflexivity | reflexivity | reflexivity |].
  exists record. split; [exact Hrec |]. split; [exact Hloc |].
  destruct (Hreturned record Hrec) as [v [Hv [_ Hsame]]].
  rewrite (Hsame eq_refl). exact Hv.
Defined.

Lemma build_record_no_value_error (self : SarifRun) (result : pyval)
  (error_id tool_name error_line file_path : pyval) (msg : string) :
  build_record self result error_id tool_name error_line file_path
  <> Raises (ValueError msg).
Proof.
  unfold build_record. intros H.
  apply bind_raises in H as [H | [fp [_ H]]].
  { unfold strip_path_prefix in H.
    destruct (_path_prefixes_upper self) as [[| p ps] |]; try discriminate;
      destruct file_path; discriminate. }
  apply bind_raises in H as [H | [sev [_ H]]].
  { destruct result; try discriminate. simpl in H.
    destruct (assoc_get d "level"); discriminate. }
  apply bind_raises in H as [H | [mo [_ H]]].
  { destruct result; try discriminate. simpl in H.
    destruct (assoc_get d "message"); discriminate. }
  apply bind_raises in H as [H | [m [_ H]]]; [| discriminate].
  destruct mo; try discriminate. simpl in H.
  destruct (assoc_get d "text"); discriminate.
Qed.

Lemma result_to_record_with_location (self : SarifRun)
  (d : list (string * pyval)) (location : pyval) (rest : list pyval)
  (error_id tool_name w : pyval) :
  assoc_get d "ruleId" = Some error_id ->
  assoc_get d "locations" = Some (PyList (location :: rest)) ->
  get_tool_name self = Returns tool_name ->
  wf_location location ->
  find_file_path location = Returns w ->
  exists line,
    result_to_record self (PyDict d)
    = if negb (truthy w)
      then Raises (ValueError (no_location_message error_id tool_name))
      else build_record self (PyDict d) error_id tool_name line w.
Proof.
  intros Hid Hlocs Htool Hwf Hw.
  destruct (line_lookup_wf _ Hwf) as (pl & rg & line & Hpl & Hrg & Hline).
  exists line. unfold result_to_record, build_record.
  cbn [py_getitem]. rewrite Hid. cbn [bind py_get]. rewrite Hlocs.
  cbn [bind truthy py_getitem0]. rewrite Htool. cbn [bind].
  rewrite Hpl. cbn [bind]. rewrite Hrg. cbn [bind]. rewrite Hline. cbn [bind].
  rewrite Hw. cbn [bind fst snd]. reflexivity.
Qed.

Lemma result_to_record_without_locations (self : SarifRun)
  (d : list (string * pyval)) (error_id tool_name : pyval) :
  assoc_get d "ruleId" = Some error_id ->
  get_tool_name self = Returns tool_name ->
  match assoc_get d "locations" with
  | Some v => truthy v = false
  | None => True
  end ->
  result_to_record self (PyDict d)
  = Raises (ValueError (no_location_message error_id tool_name)).
Proof.
  intros Hid Htool Hl. unfold result_to_record.
  cbn [py_getitem]. rewrite Hid. cbn [bind py_get].
  destruct (assoc_get d "locations") as [v |]; cbn [bind]; rewrite Htool;
    cbn [bind]; [rewrite Hl |]; reflexivity.
Qed.

Lemma map_outcome_first_failure {A B : Type} (f : A -> outcome B)
  (before after : list A) (x : A) (e : pyexn) :
  Forall (fun a => exists b, f a = Returns b) before ->
  f x = Raises e ->
  map_outcome f (before ++ x :: after) = Raises e.
Proof.
  intros Hb Hx. induction Hb as [| a l [b Ha] _ IH]; simpl.
  - now rewrite Hx.
  - now rewrite Ha, IH.
Qed.

(** C5: on a result that has a rule id, in a run that has a tool name, and
    whose [locations] follows the shape of the schema, [result_to_record]
    raises the [ValueError] whose message names the rule id and the tool name
    exactly when none of the three location sources yields a non-empty
    location, which includes a [locations] list that is absent or empty; and
    [get_records] does not catch what [result_to_record] raises: the first
    failing result makes [get_records] raise the same error and cache
    nothing. *)
Theorem C5_missing_location_raises (self : SarifRun)
  (d : list (string * pyval)) (error_id tool_name : pyval) :
  assoc_get d "ruleId" = Some error_id ->
  get_tool_name self = Returns tool_name ->
  wf_locations (PyDict d) ->
  (derivable_location (PyDict d) = None ->
   result_to_record self (PyDict d)
   = Raises (ValueError ("No location in " ++ py_str error_id
                         ++ " output from " ++ py_str tool_name)%string))
  /\ ((exists msg, result_to_record self (PyDict d) = Raises (ValueError msg)) ->
      derivable_location (PyDict d) = None)
  /\ (forall before after e,
        cache_empty self ->
        get_results self = Returns (PyList (before ++ PyDict d :: after)) ->
        Forall (fun r => exists record, result_to_record self r = Returns record)
          before ->
        result_to_record self (PyDict d) = Raises e ->
        get_records self = (Raises e, self)).
Proof.
  intros Hid Htool Hwf.
  assert (Hcases :
    (derivable_location (PyDict d) = None
     /\ result_to_record self (PyDict d)
        = Raises (ValueError (no_location_message error_id tool_name)))
    \/ (exists v line,
          derivable_location (PyDict d) = Some v
          /\ result_to_record self (PyDict d)
             = build_record self (PyDict d) error_id tool_name line v)).
  { unfold wf_locations, derivable_location, first_location in *.
    cbn [lookup_path] in *.
    destruct (assoc_get d "locations") as [v |] eqn:Hl.
    - destruct v as [| | | | [| location rest] |];
        try (left; split; [reflexivity |];
             apply result_to_record_without_locations; auto;
             rewrite Hl; exact Hwf).
      destruct (find_file_path_wf _ Hwf) as [w [Hw1 Hw2]].
      destruct (result_to_record_with_location self d location rest
                  error_id tool_name w Hid Hl Htool Hwf Hw1) as [line Hr].
      rewrite Hw2, Hr. destruct (truthy w); cbn [negb]; eauto.
    - left. split; [reflexivity |].
      apply result_to_record_without_locations; auto. now rewrite Hl. }
  split; [| split].
  - intros Hnone. destruct Hcases as [[_ Hr] | (v & line & Hsome & _)].
    + exact Hr.
    + congruence.
  - intros [msg Hmsg]. destruct Hcases as [[Hnone _] | (v & line & _ & Hr)].
    + exact Hnone.
    + rewrite Hr in Hmsg. now apply build_record_no_value_error in Hmsg.
  - intros before after e Hcache Hres Hbefore Hfail.
    unfold get_records, cache_empty in *.
    assert (Hc : compute_records self = Raises e).
    { unfold compute_records. rewrite Hres. cbn [bind py_iter].
      now apply map_outcome_first_failure. }
    rewrite Hc. destruct (_cached_records self) as [[| r l] |];
      [reflexivity | contradiction | reflexivity].
Qed.

Lemma C5_missing_location_raises_witness :
  result_to_record run_with_failing_result result_without_location
  = Raises (ValueError "No location in R3 output from lint")
  /\ get_records run_with_failing_result
     = (Raises (ValueError "No location in R3 output from lint"),
        run_with_failing_result).
Proof.
  destruct (C5_missing_location_raises run_with_failing_result
              (fields_of result_without_location) (PyStr "R3") (PyStr "lint")
              eq_refl eq_refl)
    as [Hraise [_ Habort]].
  - simpl. repeat split.
  - split; [exact (Hraise eq_refl) |].
    apply (Habort [sample_result "R1" "src/a.py" "error"]
                  [sample_result "R1" "src/b.py" "error"]).
    + exact I.
    + reflexivity.
    + constructor; [eexists; reflexivity | constructor].
    + exact (Hraise eq_refl).
Defined.

(** ** Counts by severity *)

Lemma prefix_iff_append (p s : string) :
  String.prefix p s = true <-> exists post, s = (p ++ post)%string.
Proof.
  revert s. induction p as [| c p IH]; intros s; simpl.
  - split; [intros _; exists s | intros _]; now destruct s.
  - destruct s as [| c' s]; simpl.
    + split; [discriminate | intros [post H]; discriminate].
    + destruct (Ascii.ascii_dec c c') as [-> | Hne].
      * rewrite IH. split; intros [post H]; exists post; congruence.
      * split; [discriminate |]. intros [post H]. congruence.
Qed.

Lemma py_contains_iff_substring (s sub : string) :
  py_contains s sub = true
  <-> exists pre post, s = (pre ++ sub ++ post)%string.
Proof.
  induction s as [| c s IH].
  - cbn [py_contains]. rewrite orb_false_r, prefix_iff_append. split.
    + intros [post H]. exists "", post. exact H.
    + intros [pre [post H]]. destruct pre; [| discriminate]. eauto.
  - cbn [py_contains]. rewrite orb_true_iff, IH, prefix_iff_append. split.
    + intros [[post H] | [pre [post H]]].
      * exists "", post. exact H.
      * exists (String c pre), post. simpl. now rewrite H.
    + intros [pre [post H]]. destruct pre as [| c' pre].
      * left. exists post. exact H.
      * right. exists pre, post. simpl in H. congruence.
Qed.

Lemma severity_hits (severity : string) (records : list SarifRecord)
  (sevs : list string) :
  map Severity records = map PyStr sevs ->
  map_outcome (fun record => py_in severity (Severity record)) records
  = Returns (map (fun s => py_contains s severity) sevs).
Proof.
  revert sevs. induction records as [| r records IH]; intros [| s sevs] H;
    try discriminate; [reflexivity |].
  simpl in H. injection H as Hr Hrest.
  simpl. rewrite Hr. simpl. now rewrite (IH _ Hrest).
Qed.

Lemma count_true_map {A : Type} (f : A -> bool) (l : list A) :
  List.length (filter (fun b : bool => b) (map f l)) = List.length (filter f l).
Proof.
  induction l as [| a l IH]; simpl; [reflexivity |].
  destruct (f a); simpl; now rewrite IH.
Qed.

(** C7: where the records of the run have strings as their Severity,
    [get_result_count_by_severity] returns the mapping from ["error"],
    ["warning"] and ["note"], in this order, to the number of records whose
    Severity contains that word as a substring. *)
Theorem C7_result_count_by_severity (self self' : SarifRun)
  (records : list SarifRecord) (sevs : list string) :
  get_records self = (Returns records, self') ->
  map Severity records = map PyStr sevs ->
  get_result_count_by_severity self
  = (Returns
       (map (fun severity =>
               (severity,
                List.length (filter (fun s => py_contains s severity) sevs)))
            ["error"; "warning"; "note"]),
     self')
  /\ (forall s severity,
        py_contains s severity = true
        <-> exists pre post, s = (pre ++ severity ++ post)%string).
Proof.
  intros Hrec Hsev. split; [| intros; apply py_contains_iff_substring].
  unfold get_result_count_by_severity. rewrite Hrec.
  unfold SARIF_SEVERITIES. cbn [map_outcome map].
  rewrite !(severity_hits _ _ _ Hsev). cbn [bind].
  now rewrite !count_true_map.
Qed.

Lemma C7_result_count_by_severity_witness :
  fst (get_result_count_by_severity run_two_errors_one_warning)
  = Returns [("error", 2); ("warning", 1); ("note", 0)].
Proof.
  pose proof (C7_result_count_by_severity run_two_errors_one_warning _ _
                ["error"; "warning"; "error"] eq_refl eq_refl) as [H _].
  rewrite H. reflexivity.
Defined.

(** ** Histogram of issue codes *)

Lemma val_eq_str_iff (v : pyval) (s : string) :
  val_eq_str v s = true <-> v = PyStr s.
Proof.
  destruct v; simpl; try (split; [discriminate | congruence]).
  rewrite String.eqb_eq. split; congruence.
Qed.

Lemma assoc_get_dict_incr (d : list (string * nat)) (c k : string) :
  assoc_get (dict_incr d c) k
  = if String.eqb c k
    then Some (match assoc_get d c with Some n => n + 1 | None => 1 end)
    else assoc_get d k.
Proof.
  induction d as [| [k' n] d IH]; simpl.
  - reflexivity.
  - destruct (String.eqb_spec k' c) as [Heq | Hne]; simpl.
    + subst k'. destruct (String.eqb c k); reflexivity.
    + rewrite IH. apply String.eqb_neq in Hne.
      destruct (String.eqb_spec c k) as [Heq | Hck]; [| reflexivity].
      subst k. rewrite ?Hne. reflexivity.
Qed.

Lemma keys_dict_incr (d : list (string * nat)) (c : string) :
  map fst (dict_incr d c)
  = match assoc_get d c with
    | Some _ => map fst d
    | None => map fst d ++ [c]
    end.
Proof.
  induction d as [| [k n] d IH]; simpl; [reflexivity |].
  destruct (String.eqb_spec k c) as [-> | Hne]; simpl; [reflexivity |].
  rewrite IH. now destruct (assoc_get d c).
Qed.

Lemma assoc_get_in_keys {A : Type} (d : list (string * A)) (k : string) :
  In k (map fst d) <-> assoc_get d k <> None.
Proof.
  induction d as [| [k' v] d IH]; simpl; [tauto |].
  destruct (String.eqb_spec k' k) as [-> | Hne].
  - split; [discriminate | auto].
  - rewrite <- IH. tauto.
Qed.

Lemma assoc_get_in {A : Type} (d : list (string * A)) (k : string) (v : A) :
  NoDup (map fst d) -> (In (k, v) d <-> assoc_get d k = Some v).
Proof.
  induction d as [| [k' v'] d IH]; simpl; intros Hnd.
  - split; [tauto | discriminate].
  - inversion Hnd as [| ? ? Hk Hd]; subst.
    destruct (String.eqb_spec k' k) as [Heq | Hne].
    + subst k'. split.
      * intros [H | H]; [congruence |].
        exfalso. apply Hk. apply (in_map fst) in H. exact H.
      * intros H. left. congruence.
    + rewrite <- (IH Hd). split; [intros [H | H]; [congruence | auto] | auto].
Qed.

Lemma first_index_app_in (c : string) (codes more : list string) :
  In c codes ->
  first_index c (codes ++ more) = first_index c codes
  /\ first_index c codes < List.length codes.
Proof.
  induction codes as [| c' codes IH]; simpl; [tauto |].
  intros H. destruct (String.eqb_spec c' c) as [-> | Hne].
  - split; lia.
  - destruct H as [H | H]; [congruence |].
    destruct (IH H). split; lia.
Qed.

Lemma first_index_app_new (c : string) (codes : list string) :
  ~ In c codes -> first_index c (codes ++ [c]) = List.length codes.
Proof.
  induction codes as [| c' codes IH]; simpl; intros H.
  - now rewrite String.eqb_refl.
  - destruct (String.eqb_spec c' c) as [-> | Hne]; [tauto |].
    rewrite IH; tauto.
Qed.

Lemma StronglySorted_snoc {A : Type} (R : A -> A -> Prop) (l : list A) (x : A) :
  StronglySorted R l -> Forall (fun a => R a x) l ->
  StronglySorted R (l ++ [x]).
Proof.
  induction 1 as [| a l Hs IH Ha]; intros Hall; simpl.
  - repeat constructor.
  - inversion Hall; subst. constructor; [auto |].
    apply Forall_app. split; [exact Ha | repeat constructor; assumption].
Qed.

Lemma StronglySorted_precedes {A : Type} (R : A -> A -> Prop) (l : list A)
  (x y : A) :
  StronglySorted R l -> precedes l x y -> R x y.
Proof.
  induction 1 as [| a l Hs IH Ha]; simpl; [tauto |].
  intros [[-> Hy] | H]; [| auto].
  rewrite Forall_forall in Ha. auto.
Qed.

Lemma precedes_map {A B : Type} (g : A -> B) (l : list A) (x y : A) :
  precedes l x y -> precedes (map g l) (g x) (g y).
Proof.
  induction l as [| a l IH]; simpl; [tauto |].
  intros [[-> Hy] | H]; [left | right; auto].
  split; [reflexivity | now apply in_map].
Qed.

Lemma tally_snoc (codes : list string) (c : string) :
  tally (codes ++ [c]) = dict_incr (tally codes) c.
Proof.
  unfold tally. now rewrite fold_left_app.
Qed.

Lemma tally_get (codes : list string) (k : string) :
  assoc_get (tally codes) k
  = if (count_occ string_dec codes k =? 0)%nat then None
    else Some (count_occ string_dec codes k).
Proof.
  induction codes as [| c codes IH] using rev_ind; [reflexivity |].
  rewrite tally_snoc, assoc_get_dict_incr, count_occ_app. simpl.
  destruct (String.eqb_spec c k) as [Heq | Hne].
  - subst k. rewrite IH. destruct (string_dec c c); [| congruence].
    destruct (Nat.eqb_spec (count_occ string_dec codes c) 0) as [H0 | H0].
    + rewrite H0. reflexivity.
    + destruct (Nat.eqb_spec (count_occ string_dec codes c + 1) 0); [lia |].
      reflexivity.
  - destruct (string_dec c k); [congruence |]. now rewrite Nat.add_0_r.
Qed.

Lemma tally_key_in_codes (codes : list string) (k : string) :
  In k (map fst (tally codes)) <-> In k codes.
Proof.
  rewrite assoc_get_in_keys, tally_get, (count_occ_In string_dec).
  destruct (Nat.eqb_spec (count_occ string_dec codes k) 0); split;
    try lia; try congruence.
Qed.

Lemma tally_keys_by_first_index (codes : list string) :
  StronglySorted lt
    (map (fun k => first_index k codes) (map fst (tally codes))).
Proof.
  induction codes as [| c codes IH] using rev_ind; [constructor |].
  assert (Hold : map (fun k => first_index k (codes ++ [c])) (map fst (tally codes))
                 = map (fun k => first_index k codes) (map fst (tally codes))).
  { apply map_ext_in. intros k Hk. apply (proj1 (tally_key_in_codes _ _)) in Hk.
    exact (proj1 (first_index_app_in k codes [c] Hk)). }
  rewrite tally_snoc, keys_dict_incr.
  destruct (assoc_get (tally codes) c) eqn:Hc.
  - now rewrite Hold.
  - rewrite map_app, Hold. simpl.
    assert (Hnew : ~ In c codes).
    { rewrite <- tally_key_in_codes, assoc_get_in_keys. tauto. }
    rewrite (first_index_app_new _ _ Hnew).
    apply StronglySorted_snoc; [exact IH |].
    apply Forall_forall. intros i Hi.
    apply in_map_iff in Hi as [k [<- Hk]].
    apply (proj1 (tally_key_in_codes _ _)) in Hk.
    exact (proj2 (first_index_app_in k codes [] Hk)).
Qed.

Lemma StronglySorted_lt_NoDup (l : list nat) : StronglySorted lt l -> NoDup l.
Proof.
  induction 1 as [| a l Hs IH Ha]; constructor; [| exact IH].
  intros Hin. rewrite Forall_forall in Ha. specialize (Ha a Hin). lia.
Qed.

Lemma tally_keys_NoDup (codes : list string) : NoDup (map fst (tally codes)).
Proof.
  eapply NoDup_map_inv, StronglySorted_lt_NoDup, tally_keys_by_first_index.
Qed.

Lemma tally_filter (severity : string) (records : list SarifRecord)
  (d : list (string * nat)) :
  fold_left (fun d record =>
               if val_eq_str (Severity record) severity
               then dict_incr d (Code record) else d) records d
  = fold_left dict_incr (codes_with_severity records severity) d.
Proof.
  unfold codes_with_severity. revert d.
  induction records as [| r records IH]; intros d; simpl; [reflexivity |].
  destruct (val_eq_str (Severity r) severity); simpl; apply IH.
Qed.

(** *** The stable sort *)

Lemma insert_desc_in (a y : string * nat) (l : list (string * nat)) :
  In y (insert_desc a l) <-> a = y \/ In y l.
Proof.
  induction l as [| b l IH]; simpl; [tauto |].
  destruct (snd b <=? snd a)%nat; simpl; [tauto |]. rewrite IH. tauto.
Qed.

Lemma insert_desc_perm (a : string * nat) (l : list (string * nat)) :
  Permutation (insert_desc a l) (a :: l).
Proof.
  induction l as [| b l IH]; simpl; [reflexivity |].
  destruct (snd b <=? snd a)%nat; [reflexivity |].
  rewrite IH. apply perm_swap.
Qed.

Lemma sorted_by_count_desc_perm (l : list (string * nat)) :
  Permutation (sorted_by_count_desc l) l.
Proof.
  induction l as [| a l IH]; simpl; [constructor |].
  rewrite insert_desc_perm. now constructor.
Qed.

Lemma insert_desc_sorted (a : string * nat) (l : list (string * nat)) :
  StronglySorted count_ge l -> StronglySorted count_ge (insert_desc a l).
Proof.
  induction 1 as [| b l Hs IH Hb]; simpl; [repeat constructor |].
  destruct (Nat.leb_spec (snd b) (snd a)) as [Hle | Hlt].
  - constructor; [now constructor |].
    constructor; [exact Hle |].
    eapply Forall_impl; [| exact Hb]. unfold count_ge. intros; lia.
  - constructor; [exact IH |].
    apply Forall_forall. intros y Hy. apply insert_desc_in in Hy as [<- | Hy].
    + unfold count_ge. lia.
    + rewrite Forall_forall in Hb. auto.
Qed.

Lemma sorted_by_count_desc_sorted (l : list (string * nat)) :
  StronglySorted count_ge (sorted_by_count_desc l).
Proof.
  induction l as [| a l IH]; simpl; [constructor |].
  now apply insert_desc_sorted.
Qed.

Lemma insert_desc_precedes (a x y : string * nat) (l : list (string * nat)) :
  precedes (insert_desc a l) x y ->
  (a = x /\ In y l) \/ precedes l x y \/ (a = y /\ snd y < snd x).
Proof.
  induction l as [| b l IH]; simpl; [tauto |].
  destruct (Nat.leb_spec (snd b) (snd a)) as [Hle | Hlt]; simpl; [tauto |].
  intros [[-> Hy] | H].
  - apply insert_desc_in in Hy as [<- | Hy]; tauto.
  - destruct (IH H) as [[-> Hy] | [Hp | Hn]]; tauto.
Qed.

Lemma sorted_by_count_desc_stable (l : list (string * nat))
  (x y : string * nat) :
  precedes (sorted_by_count_desc l) x y -> snd x = snd y -> precedes l x y.
Proof.
  induction l as [| a l IH]; simpl; [tauto |].
  intros H Heq. apply insert_desc_precedes in H as [[-> Hy] | [Hp | [_ Hlt]]].
  - left. split; [reflexivity |].
    eapply Permutation_in; [apply sorted_by_count_desc_perm | exact Hy].
  - right. auto.
  - lia.
Qed.

Lemma codes_with_severity_in (records : list SarifRecord)
  (severity code : string) :
  In code (codes_with_severity records severity)
  <-> exists r, In r records /\ Severity r = PyStr severity /\ Code r = code.
Proof.
  unfold codes_with_severity. rewrite in_map_iff. split.
  - intros [r [Hc Hr]]. apply filter_In in Hr as [Hr Hs].
    apply val_eq_str_iff in Hs. eauto.
  - intros [r [Hr [Hs Hc]]]. exists r. split; [exact Hc |].
    apply filter_In. split; [exact Hr |]. now apply val_eq_str_iff.
Qed.

(** C8: [get_issue_code_histogram(severity)] returns one (code, count) pair
    for each distinct Code among the records whose Severity equals
    [severity], the count being the number of those records with that Code;
    a pair never stands before one with a larger count, and of two pairs
    with the same count the one whose Code is met first among the records
    stands first. *)
Theorem C8_issue_code_histogram (self self' : SarifRun)
  (records : list SarifRecord) (severity : string) :
  get_records self = (Returns records, self') ->
  exists hist,
    get_issue_code_histogram self severity = (Returns hist, self')
    /\ NoDup (map fst hist)
    /\ (forall code n,
          In (code, n) hist
          <-> In code (codes_with_severity records severity)
              /\ n = count_occ string_dec
                       (codes_with_severity records severity) code)
    /\ (forall code,
          In code (codes_with_severity records severity)
          <-> exists r, In r records /\ Severity r = PyStr severity
                        /\ Code r = code)
    /\ (forall x y,
          precedes hist x y ->
          snd y <= snd x
          /\ (snd x = snd y ->
              first_index (fst x) (codes_with_severity records severity)
              < first_index (fst y) (codes_with_severity records severity))).
Proof.
  intros Hrec.
  set (codes := codes_with_severity records severity).
  exists (sorted_by_count_desc (tally codes)).
  assert (Hperm := sorted_by_count_desc_perm (tally codes)).
  split; [| split; [| split; [| split]]].
  - unfold get_issue_code_histogram, _count_records_by_issue_code.
    now rewrite Hrec, tally_filter.
  - eapply Permutation_NoDup; [| apply (tally_keys_NoDup codes)].
    apply Permutation_map. now symmetry.
  - intros code n.
    assert (Hin : In (code, n) (sorted_by_count_desc (tally codes))
                  <-> In (code, n) (tally codes)).
    { split; apply Permutation_in; [exact Hperm | now symmetry]. }
    rewrite Hin, (assoc_get_in _ _ _ (tally_keys_NoDup codes)), tally_get.
    rewrite (count_occ_In string_dec).
    destruct (Nat.eqb_spec (count_occ string_dec codes code) 0) as [H0 | H0];
      split; try discriminate; try lia.
    + intros H. injection H as <-. split; [lia | reflexivity].
    + intros [_ ->]. reflexivity.
  - intros code. apply codes_with_severity_in.
  - intros x y Hxy. split.
    + exact (StronglySorted_precedes _ _ _ _
               (sorted_by_count_desc_sorted (tally codes)) Hxy).
    + intros Heq.
      apply sorted_by_count_desc_stable in Hxy; [| exact Heq].
      apply (precedes_map fst) in Hxy.
      apply (precedes_map (fun k => first_index k codes)) in Hxy.
      exact (StronglySorted_precedes _ _ _ _
               (tally_keys_by_first_index codes) Hxy).
Qed.

Lemma C8_issue_code_histogram_witness :
  fst (get_issue_code_histogram run_with_codes "error")
  = Returns [("E2 msg", 2); ("E1 msg", 1); ("E3 msg", 1)].
Proof.
  destruct (C8_issue_code_histogram run_with_codes _ _ "error" eq_refl)
    as [hist [H _]].
  rewrite H. vm_compute in H. injection H as <-. reflexivity.
Defined.

(** The example of the specification, on the module-level function. *)
Example count_records_by_issue_code_example :
  _count_records_by_issue_code
    [record_with_code "error" "E1";
     record_with_code "error" "E1";
     record_with_code "error" "E2"] "error"
  = [("E1", 2); ("E2", 1)].
Proof. reflexivity. Qed.

(** ** The record cache *)

Lemma compute_records_ignores_cache (self : SarifRun)
  (c : option (list SarifRecord)) :
  compute_records (set_cached_records self c) = compute_records self.
Proof. reflexivity. Qed.

Lemma get_records_keeps_configuration (self self1 : SarifRun)
  (out : outcome (list SarifRecord)) :
  get_records self = (out, self1) ->
  run_data self1 = run_data self
  /\ _path_prefixes_upper self1 = _path_prefixes_upper self.
Proof.
  unfold get_records.
  destruct (_cached_records self) as [[| r l] |];
    try destruct (compute_records self);
    intros H; injection H as <- <-; split; reflexivity.
Qed.

Lemma get_records_twice (self self1 : SarifRun)
  (out : outcome (list SarifRecord)) :
  get_records self = (out, self1) -> get_records self1 = (out, self1).
Proof.
  unfold get_records at 1.
  assert (Hfresh :
    cache_empty self ->
    match compute_records self with
    | Returns records =>
        (Returns records, set_cached_records self (Some records))
    | Raises e => (Raises e, self)
    end = (out, self1) -> get_records self1 = (out, self1)).
  { intros Hempty.
    destruct (compute_records self) as [records | e] eqn:Hc;
      intros H; injection H as <- <-.
    - unfold get_records. cbn [_cached_records set_cached_records].
      destruct records as [| r l]; [| reflexivity].
      now rewrite compute_records_ignores_cache, Hc.
    - unfold get_records, cache_empty in *.
      destruct (_cached_records self) as [[| r l] |];
        rewrite ?Hc; try reflexivity. contradiction. }
  unfold cache_empty in Hfresh.
  destruct (_cached_records self) as [[| r l] |] eqn:Hcache;
    try exact (Hfresh I).
  intros H. injection H as <- <-. unfold get_records. now rewrite Hcache.
Qed.

(** C10: a second [get_records()] with no [init_path_prefix_stripping] in
    between gives the same outcome as the first and leaves the run as the
    first left it; and an [init_path_prefix_stripping] that returns leaves
    the cache empty, so that the next [get_records()] is the computation of
    the records from the results of the run under the prefixes just stored.
    With [autotrim] off the call always returns. *)
Theorem C10_record_cache (self : SarifRun) :
  (forall out self1,
     get_records self = (out, self1) -> get_records self1 = (out, self1))
  /\ (forall autotrim path_prefixes self1,
        init_path_prefix_stripping self autotrim path_prefixes
        = (Returns tt, self1) ->
        _cached_records self1 = None
        /\ run_data self1 = run_data self
        /\ get_records self1
           = match compute_records self1 with
             | Returns records =>
                 (Returns records, set_cached_records self1 (Some records))
             | Raises e => (Raises e, self1)
             end)
  /\ (forall path_prefixes,
        exists self1,
          init_path_prefix_stripping self false path_prefixes
          = (Returns tt, self1)).
Proof.
  split; [| split].
  - intros out self1. apply get_records_twice.
  - intros autotrim path_prefixes self1 H.
    assert (Hshape : exists self0 prefixes,
               run_data self0 = run_data self
               /\ self1 = set_cached_records
                            (set_path_prefixes_upper self0 prefixes) None).
    { unfold init_path_prefix_stripping in H.
      destruct autotrim.
      - destruct (get_records self) as [[records | e] self0] eqn:Hget;
          [| discriminate].
        apply get_records_keeps_configuration in Hget as [Hdata _].
        destruct (autotrim_candidate records) as [[p |] | e]; [| | discriminate].
        + destruct (option_truthy (Some p) && _);
            injection H as <-; eauto.
        + injection H as <-; eauto.
      - injection H as <-. eauto. }
    destruct Hshape as (self0 & prefixes & Hdata & ->).
    split; [reflexivity |]. split; [exact Hdata |]. reflexivity.
  - intros path_prefixes. eexists. reflexivity.
Qed.

Lemma C10_record_cache_witness :
  get_records run_two_records_cached
  = (fst (get_records run_two_records), run_two_records_cached)
  /\ option_map (map Location) (_cached_records run_two_records_cached)
     = Some [PyStr "/a/b/c.py"; PyStr "/a/b/d.py"]
  /\ _cached_records run_two_records_reconfigured = None
  /\ fst (get_records run_two_records_reconfigured)
     = Returns [mkRecord (PyStr "lint") (PyStr "c.py") (PyStr "1")
                  (PyStr "error") "R1 msg";
                mkRecord (PyStr "lint") (PyStr "d.py") (PyStr "1")
                  (PyStr "error") "R1 msg"].
Proof.
  destruct (C10_record_cache run_two_records) as [Htwice _].
  destruct (C10_record_cache run_two_records_cached) as [_ [Hinit _]].
  destruct (Hinit true None run_two_records_reconfigured eq_refl)
    as [Hnone [_ Hfresh]].
  split; [exact (Htwice _ _ eq_refl) |].
  split; [reflexivity |].
  split; [exact Hnone |].
  rewrite Hfresh. reflexivity.
Defined.

(** ** The autotrim candidate of two or more records *)

Lemma append_assoc (a b c : string) :
  ((a ++ b) ++ c = a ++ (b ++ c))%string.
Proof.
  induction a as [| x a IH]; simpl; [reflexivity | now rewrite IH].
Qed.

Lemma length_append (a b : string) :
  String.length (a ++ b) = String.length a + String.length b.
Proof.
  induction a as [| x a IH]; simpl; [reflexivity | now rewrite IH].
Qed.

Lemma append_empty_r (a : string) : (a ++ "")%string = a.
Proof.
  induction a as [| x a IH]; simpl; [reflexivity | now rewrite IH].
Qed.

Lemma append_inv_head (a b c : string) :
  (a ++ b = a ++ c)%string -> b = c.
Proof.
  induction a as [| x a IH]; simpl; [auto |]. intros H. injection H. auto.
Qed.

Lemma prefix_refl (a : string) : String.prefix a a = true.
Proof.
  apply prefix_iff_append. exists "". now rewrite append_empty_r.
Qed.

Lemma prefix_trans (a b c : string) :
  String.prefix a b = true -> String.prefix b c = true ->
  String.prefix a c = true.
Proof.
  rewrite !prefix_iff_append. intros [p ->] [q ->].
  exists (p ++ q)%string. apply append_assoc.
Qed.

Lemma prefix_antisym (a b : string) :
  String.prefix a b = true -> String.prefix b a = true -> a = b.
Proof.
  rewrite !prefix_iff_append. intros [p ->] [q H].
  rewrite append_assoc in H.
  rewrite <- (append_empty_r a) in H at 1.
  apply append_inv_head in H.
  destruct p; [now rewrite append_empty_r | discriminate].
Qed.

Lemma prefix_cons (x y : ascii) (a b : string) :
  String.prefix (String x a) (String y b)
  = Ascii.eqb x y && String.prefix a b.
Proof.
  simpl. destruct (Ascii.ascii_dec x y) as [-> | Hne].
  - now rewrite Ascii.eqb_refl.
  - apply Ascii.eqb_neq in Hne. now rewrite Hne.
Qed.

Lemma lcp2_prefix_l (a b : string) : String.prefix (lcp2 a b) a = true.
Proof.
  revert b. induction a as [| x a IH]; intros [| y b]; try reflexivity.
  simpl lcp2. destruct (Ascii.eqb x y); [| reflexivity].
  now rewrite prefix_cons, Ascii.eqb_refl, IH.
Qed.

Lemma lcp2_prefix_r (a b : string) : String.prefix (lcp2 a b) b = true.
Proof.
  revert b. induction a as [| x a IH]; intros [| y b]; try reflexivity.
  simpl lcp2. destruct (Ascii.eqb_spec x y) as [-> | Hne]; [| reflexivity].
  now rewrite prefix_cons, Ascii.eqb_refl, IH.
Qed.

Lemma lcp2_greatest (q a b : string) :
  String.prefix q a = true -> String.prefix q b = true ->
  String.prefix q (lcp2 a b) = true.
Proof.
  revert a b. induction q as [| z q IH]; intros a b Ha Hb; [now destruct (lcp2 a b) |].
  destruct a as [| x a]; [discriminate |].
  destruct b as [| y b]; [discriminate |].
  rewrite prefix_cons in Ha, Hb.
  apply andb_true_iff in Ha as [Hx Ha]. apply andb_true_iff in Hb as [Hy Hb].
  apply Ascii.eqb_eq in Hx, Hy. subst x y.
  simpl lcp2. rewrite Ascii.eqb_refl, prefix_cons, Ascii.eqb_refl. simpl.
  now apply IH.
Qed.

Lemma fold_lcp2_empty (l : list string) : fold_left lcp2 l "" = "".
Proof.
  induction l as [| s l IH]; simpl; [reflexivity | exact IH].
Qed.

Lemma fold_lcp2_is_longest (a : string) (l : list string) :
  is_longest_common_prefix (fold_left lcp2 l a) (a :: l).
Proof.
  revert a. induction l as [| b l IH]; intros a; simpl.
  - split; [repeat constructor; apply prefix_refl |].
    intros q Hq. now inversion Hq.
  - destruct (IH (lcp2 a b)) as [Hall Hmax]. inversion Hall as [| ? ? Hp Hl]; subst.
    split.
    + constructor; [eapply prefix_trans; [exact Hp | apply lcp2_prefix_l] |].
      constructor; [eapply prefix_trans; [exact Hp | apply lcp2_prefix_r] |].
      exact Hl.
    + intros q Hq. inversion Hq as [| ? ? Hqa Hq']; subst.
      inversion Hq' as [| ? ? Hqb Hql]; subst.
      apply Hmax. constructor; [now apply lcp2_greatest | exact Hql].
Qed.

Lemma py_upper_prefix (p s : string) :
  String.prefix p s = true ->
  String.prefix (py_upper p) (py_upper s) = true.
Proof.
  revert s. induction p as [| x p IH]; intros s H; [now destruct s |].
  destruct s as [| y s]; [discriminate |].
  rewrite prefix_cons in H. apply andb_true_iff in H as [Hx H].
  apply Ascii.eqb_eq in Hx. subst y.
  cbn [py_upper]. rewrite prefix_cons, Ascii.eqb_refl. simpl. now apply IH.
Qed.

Lemma slice_from_append (pre s : string) :
  slice_from (String.length pre) (pre ++ s) = s.
Proof.
  induction pre as [| x pre IH]; simpl; [now destruct s | exact IH].
Qed.

Lemma slice_to_append (pre s : string) :
  slice_to (String.length pre) (pre ++ s) = pre.
Proof.
  induction pre as [| x pre IH]; simpl; [now destruct s | now rewrite IH].
Qed.

Lemma proper_prefix_cons (x : ascii) (a b : string) :
  proper_prefix a b -> proper_prefix (String x a) (String x b).
Proof.
  intros [Hp Hne]. split.
  - now rewrite prefix_cons, Ascii.eqb_refl.
  - congruence.
Qed.

(** The inner loop cuts the common prefix down to what it shares with the
    location, unless the location ends first. *)
Lemma trim_common_prefix_spec (loc pre cp : string) :
  ~ proper_prefix loc cp ->
  trim_common_prefix (pre ++ cp) (String.length pre) loc
  = (pre ++ lcp2 cp loc)%string.
Proof.
  revert pre cp. induction loc as [| c loc IH]; intros pre cp Hnp.
  - assert (cp = "") as ->.
    { destruct cp; [reflexivity |]. exfalso. apply Hnp.
      split; [reflexivity | discriminate]. }
    reflexivity.
  - cbn [trim_common_prefix]. rewrite length_append.
    destruct cp as [| x cp].
    + simpl String.length. rewrite Nat.add_0_r, Nat.leb_refl. reflexivity.
    + destruct (Nat.leb_spec (String.length pre + String.length (String x cp))
                  (String.length pre)) as [Hle | _];
        [simpl in Hle; lia |].
      rewrite slice_from_append. cbn [slice_to lcp2].
      destruct (Ascii.eqb_spec x c) as [-> | Hne].
      * rewrite String.eqb_refl. cbn [negb].
        replace (pre ++ String c cp)%string
          with ((pre ++ String c "") ++ cp)%string
          by (now rewrite append_assoc).
        replace (S (String.length pre))
          with (String.length (pre ++ String c ""))
          by (rewrite length_append; simpl; lia).
        rewrite IH.
        -- now rewrite append_assoc.
        -- intros H. apply Hnp. now apply proper_prefix_cons.
      * assert (Hs : String.eqb (String c "") (String x "") = false).
        { apply String.eqb_neq. congruence. }
        rewrite Hs. cbn [negb]. now rewrite slice_to_append, append_empty_r.
Qed.

Lemma common_prefix_loop_spec (records : list SarifRecord)
  (locs : list string) (cp first : string) :
  map Location records = map PyStr locs ->
  String.prefix cp first = true ->
  Forall (fun loc => ~ proper_prefix (py_strip loc) first) locs ->
  common_prefix_loop cp records
  = Returns (fold_left lcp2 (map py_strip locs) cp).
Proof.
  revert locs cp. induction records as [| r records IH];
    intros [| loc locs] cp Hmap Hcp Hnp; try discriminate; [reflexivity |].
  simpl in Hmap. injection Hmap as Hr Hmap.
  inversion Hnp as [| ? ? Hloc Hrest]; subst.
  cbn [common_prefix_loop map fold_left]. rewrite Hr. cbn [val_strip bind].
  assert (Htrim : trim_common_prefix cp 0 (py_strip loc)
                  = lcp2 cp (py_strip loc)).
  { apply (trim_common_prefix_spec (py_strip loc) "" cp).
    intros [Hp Hne]. apply Hloc. split.
    - eapply prefix_trans; eassumption.
    - intros Heq. apply Hne. apply prefix_antisym; [exact Hp |].
      now rewrite Heq. }
  rewrite Htrim.
  destruct (String.eqb_spec (lcp2 cp (py_strip loc)) "") as [He | Hne].
  - rewrite He. now rewrite fold_lcp2_empty.
  - apply IH; [exact Hmap | | exact Hrest].
    eapply prefix_trans; [apply lcp2_prefix_l | exact Hcp].
Qed.

(** C3, as stated, fails: for the records ["/a/b/c.py"] and ["/a/b/d.py"]
    the longest common prefix of the locations is ["/a/b/"], the candidate
    is ["/A/B/"], and that is not a prefix of ["/a/b/c.py"]. *)
Lemma C3_candidate_is_upper_cased :
  exists records,
    fst (get_records run_two_records) = Returns records
    /\ map Location records = [PyStr "/a/b/c.py"; PyStr "/a/b/d.py"]
    /\ is_longest_common_prefix "/a/b/" ["/a/b/c.py"; "/a/b/d.py"]
    /\ autotrim_candidate records = Returns (Some "/A/B/")
    /\ String.prefix "/A/B/" "/a/b/c.py" = false.
Proof.
  eexists. split; [reflexivity |]. split; [reflexivity |].
  split; [exact (fold_lcp2_is_longest "/a/b/c.py" ["/a/b/d.py"]) |].
  split; reflexivity.
Qed.

(** When a later location ends inside the prefix kept so far, the loop
    leaves that prefix as it is: the candidate is then longer than that
    location. *)
Lemma autotrim_keeps_prefix_longer_than_a_later_location :
  exists records,
    fst (get_records run_with_shorter_second_record) = Returns records
    /\ map Location records = [PyStr "/a/b/c.py"; PyStr "/a"]
    /\ autotrim_candidate records = Returns (Some "/A/B/C.PY")
    /\ py_startswith (py_upper "/a") "/A/B/C.PY" = false.
Proof.
  eexists. repeat split; reflexivity.
Qed.

Lemma py_upper_empty (p : string) : py_upper p = "" -> p = "".
Proof.
  destruct p; [reflexivity | discriminate].
Qed.

(** C3 (amended): for a run with two or more records, none of which after
    the first has a trimmed location that is a proper prefix of the first
    record's trimmed location, [init_path_prefix_stripping(autotrim=True)]
    uses as the autotrim candidate the upper-cased longest common
    character-by-character prefix of all the records' trimmed locations,
    when that prefix is not empty, and no candidate otherwise; the candidate
    is a prefix of every record's upper-cased trimmed location, and with no
    explicit prefixes it is the one prefix stored. *)
Theorem C3_autotrim_candidate_of_several_records (self self0 : SarifRun)
  (records : list SarifRecord) (first second : string) (others : list string) :
  get_records self = (Returns records, self0) ->
  map Location records = map PyStr (first :: second :: others) ->
  Forall (fun loc => ~ proper_prefix (py_strip loc) (py_strip first))
    (second :: others) ->
  exists p,
    is_longest_common_prefix p (map py_strip (first :: second :: others))
    /\ autotrim_candidate records
       = Returns (if String.eqb p "" then None else Some (py_upper p))
    /\ Forall (fun loc =>
                 py_startswith (py_upper (py_strip loc)) (py_upper p) = true)
         (first :: second :: others)
    /\ exists self1,
         init_path_prefix_stripping self true None = (Returns tt, self1)
         /\ _path_prefixes_upper self1
            = if String.eqb p "" then None else Some [py_upper p].
Proof.
  intros Hget Hmap Hnp.
  set (p := fold_left lcp2 (map py_strip (second :: others)) (py_strip first)).
  exists p.
  assert (Hlcp : is_longest_common_prefix p
                   (map py_strip (first :: second :: others)))
    by apply fold_lcp2_is_longest.
  assert (Hcand : autotrim_candidate records
                  = Returns (if String.eqb p "" then None
                             else Some (py_upper p))).
  { destruct records as [| r0 [| r1 rest]]; try discriminate.
    simpl in Hmap. injection Hmap as H0 H1 Hrest.
    unfold autotrim_candidate. rewrite H0. cbn [val_strip bind].
    rewrite (common_prefix_loop_spec (r1 :: rest) (second :: others)
               (py_strip first) (py_strip first)).
    - cbn [bind]. fold p. now destruct (String.eqb p "").
    - simpl. now rewrite H1, Hrest.
    - apply prefix_refl.
    - exact Hnp. }
  split; [exact Hlcp |]. split; [exact Hcand |]. split.
  - destruct Hlcp as [Hall _]. rewrite Forall_map in Hall.
    eapply Forall_impl; [| exact Hall]. intros loc Hloc.
    now apply py_upper_prefix.
  - unfold init_path_prefix_stripping. rewrite Hget, Hcand.
    destruct (String.eqb_spec p "") as [He | Hne].
    + eexists. split; reflexivity.
    + assert (Ht : option_truthy (Some (py_upper p)) = true).
      { simpl. apply negb_true_iff, String.eqb_neq.
        intros H. now apply py_upper_empty in H. }
      rewrite Ht. cbn [existsb negb andb app].
      eexists. split; reflexivity.
Qed.

Lemma C3_autotrim_candidate_of_several_records_witness :
  exists records self1,
    fst (get_records run_two_records) = Returns records
    /\ autotrim_candidate records = Returns (Some "/A/B/")
    /\ init_path_prefix_stripping run_two_records true None
       = (Returns tt, self1)
    /\ _path_prefixes_upper self1 = Some ["/A/B/"].
Proof.
  destruct (C3_autotrim_candidate_of_several_records run_two_records _ _
              "/a/b/c.py" "/a/b/d.py" [] eq_refl eq_refl)
    as (p & Hlcp & Hcand & _ & self1 & Hinit & Hpre).
  - constructor; [| constructor].
    intros [Hp _]. vm_compute in Hp. discriminate.
  - eexists. exists self1. split; [reflexivity |].
    split; [reflexivity |]. split; [exact Hinit |].
    rewrite Hpre.
    match type of Hcand with
    | ?c = _ => assert (Hc : c = Returns (Some "/A/B/")) by reflexivity
    end.
    rewrite Hc in Hcand.
    destruct (String.eqb p ""); [discriminate |].
    injection Hcand as <-. reflexivity.
Defined.


(** * Further properties of the module *)

(** ** File names *)

Lemma slice_to_from (n : nat) (s : string) :
  s = (slice_to n s ++ slice_from n s)%string.
Proof.
  revert s. induction n as [| n IH]; intros [| c s]; simpl; try reflexivity.
  now rewrite <- IH.
Qed.


Lemma py_endswith_iff (s suffix : string) :
  py_endswith s suffix = true <-> exists stem, s = (stem ++ suffix)%string.
Proof.
  unfold py_endswith. rewrite andb_true_iff, Nat.leb_le, String.eqb_eq. split.
  - intros [Hle Heq].
    exists (slice_to (String.length s - String.length suffix) s).
    rewrite <- Heq at 2. apply slice_to_from.
  - intros [stem ->]. rewrite length_append. split; [lia |].
    replace (String.length stem + String.length suffix - String.length suffix)
      with (String.length stem) by lia.
    apply slice_from_append.
Qed.

Lemma upper_char_idempotent (c : ascii) : upper_char (upper_char c) = upper_char c.
Proof.
  unfold upper_char. destruct (is_lower c) eqn:Hl; [| now rewrite Hl].
  unfold is_lower in *. apply andb_true_iff in Hl as [H1 H2].
  apply Nat.leb_le in H1, H2.
  rewrite nat_ascii_embedding by lia.
  destruct (Nat.leb_spec 97 (nat_of_ascii c - 32)); [lia |]. reflexivity.
Qed.

Lemma py_upper_idempotent (s : string) : py_upper (py_upper s) = py_upper s.
Proof.
  induction s as [| c s IH]; simpl; [reflexivity |].
  now rewrite upper_char_idempotent, IH.
Qed.

(** X1: [has_sarif_file_extension] holds exactly when the name, upper-cased
    and then trimmed, ends in [.SARIF] or [.SARIF.JSON]; it does not look at
    the case of the letters: a name and its upper-cased form get the same
    answer, as do any two names that differ only in case. *)
Theorem has_sarif_file_extension_spec (filename : string) :
  (has_sarif_file_extension filename = true
   <-> exists stem,
         py_strip (py_upper filename) = (stem ++ ".SARIF")%string
         \/ py_strip (py_upper filename) = (stem ++ ".SARIF.JSON")%string)
  /\ has_sarif_file_extension (py_upper filename)
     = has_sarif_file_extension filename
  /\ (forall other,
        py_upper other = py_upper filename ->
        has_sarif_file_extension other = has_sarif_file_extension filename).
Proof.
  split; [| split].
  - unfold has_sarif_file_extension. cbn [existsb].
    rewrite orb_false_r, orb_true_iff, !py_endswith_iff. split.
    + intros [[stem H] | [stem H]]; exists stem; auto.
    + intros [stem [H | H]]; [left | right]; exists stem; exact H.
  - unfold has_sarif_file_extension. now rewrite py_upper_idempotent.
  - intros other H. unfold has_sarif_file_extension. now rewrite H.
Qed.

Lemma has_sarif_file_extension_spec_witness :
  has_sarif_file_extension "  Report.Sarif.json " = true
  /\ has_sarif_file_extension "report.sarif" = true
  /\ has_sarif_file_extension "report.json" = false.
Proof.
  destruct (has_sarif_file_extension_spec "report.sarif") as [_ [_ Hcase]].
  split; [reflexivity |]. split; [| reflexivity].
  rewrite <- (Hcase "REPORT.SARIF" eq_refl). reflexivity.
Defined.

Lemma index_of_char (c : ascii) (s : string) (pos : nat) :
  py_contains s (String c "") = true ->
  exists i,
    index_at pos s (String c "") = Returns (pos + i)
    /\ s = (slice_to i s ++ String c (slice_from (i + 1) s))%string
    /\ py_contains (slice_to i s) (String c "") = false.
Proof.
  revert pos. induction s as [| x s IH]; intros pos H; [discriminate |].
  cbn [py_contains] in H. cbn [index_at].
  rewrite prefix_cons in *.
  destruct (Ascii.eqb_spec c x) as [<- | Hne].
  - exists 0. simpl. rewrite Nat.add_0_r.
    repeat split; try reflexivity. now destruct s.
  - simpl in H. destruct (IH (S pos) H) as [i [Hi [Hs Hno]]].
    exists (S i). cbn [andb]. rewrite Hi. split; [f_equal; lia |].
    split.
    + simpl. now rewrite <- Hs.
    + cbn [slice_to py_contains]. rewrite prefix_cons, Hno.
      apply Ascii.eqb_neq in Hne. now rewrite Hne.
Qed.

(** X2: the name without extension and the extension take the file name
    apart at its first dot: when the name has a dot, it is the first part, a
    dot and the extension, and the first part has no dot; when it has none,
    the first part is the whole name and the extension is empty.  Neither
    method raises. *)
Theorem file_name_splits_at_first_dot (self : SarifFile) :
  exists stem extension,
    get_file_name_without_extension self = Returns stem
    /\ get_file_name_extension self = Returns extension
    /\ py_contains stem "." = false
    /\ if py_contains (get_file_name self) "."
       then get_file_name self = (stem ++ "." ++ extension)%string
       else stem = get_file_name self /\ extension = "".
Proof.
  unfold get_file_name_without_extension, get_file_name_extension.
  destruct (py_contains (get_file_name self) ".") eqn:Hdot.
  - destruct (index_of_char "." (get_file_name self) 0 Hdot)
      as [i [Hi [Hs Hno]]].
    unfold py_index. rewrite Hi. cbn [bind Nat.add].
    eexists. eexists. repeat split; [exact Hno | exact Hs].
  - eexists. eexists. repeat split. exact Hdot.
Qed.

Lemma contains_char_cons (c x : ascii) (s : string) :
  py_contains (String x s) (String c "")
  = Ascii.eqb c x || py_contains s (String c "").
Proof.
  cbn [py_contains]. rewrite prefix_cons. now destruct s, (Ascii.eqb c x).
Qed.

Lemma contains_char_slice_from (c : ascii) (n : nat) (s : string) :
  py_contains s (String c "") = false ->
  py_contains (slice_from n s) (String c "") = false.
Proof.
  revert s. induction n as [| n IH]; intros [| x s] H; simpl; auto.
  rewrite contains_char_cons in H. apply orb_false_iff in H as [_ H]. auto.
Qed.

(** [rfind] of a single character: the position of its last occurrence. *)
Lemma rfind_of_char (c : ascii) (s : string) (pos : Z) :
  (0 <= pos)%Z ->
  (rfind_at pos s (String c "") = (-1)%Z
   /\ py_contains s (String c "") = false)
  \/ exists i,
       rfind_at pos s (String c "") = (pos + Z.of_nat i)%Z
       /\ s = (slice_to i s ++ String c (slice_from (i + 1) s))%string
       /\ py_contains (slice_from (i + 1) s) (String c "") = false.
Proof.
  revert pos. induction s as [| x s IH]; intros pos Hpos.
  - left. split; reflexivity.
  - cbn [rfind_at]. rewrite prefix_cons, contains_char_cons.
    destruct (IH (pos + 1)%Z ltac:(lia)) as [[Hr Hno] | [i [Hr [Hs Hno]]]].
    + rewrite Hr, Hno. cbn.
      destruct (Ascii.eqb_spec c x) as [<- | Hne].
      * right. exists 0. rewrite Z.add_0_r. cbn.
        split; [now destruct s |]. split; [reflexivity | exact Hno].
      * left. split; [now destruct s | reflexivity].
    + rewrite Hr. right. exists (S i).
      destruct (Z.leb_spec 0 (pos + 1 + Z.of_nat i)); [| lia].
      split; [lia |]. split; [simpl; now rewrite <- Hs | exact Hno].
Qed.

Lemma basename_spec (p : string) :
  exists dir,
    p = (dir ++ basename p)%string
    /\ py_contains (basename p) "/" = false
    /\ (dir = "" \/ exists parent, dir = (parent ++ "/")%string).
Proof.
  unfold basename, py_rfind.
  destruct (rfind_of_char "/" p 0 ltac:(lia)) as [[Hr Hno] | [i [Hr [Hs Hno]]]].
  - rewrite Hr. exists "". simpl. auto.
  - rewrite Hr.
    replace (Z.to_nat (0 + Z.of_nat i + 1)) with (i + 1) by lia.
    exists (slice_to i p ++ "/")%string.
    split; [now rewrite append_assoc |]. split; [exact Hno |]. eauto.
Qed.

(** X3: [get_file_name] is the part of the absolute path after its last
    [/]: the path is a directory part, empty or ending in [/], followed by
    the file name, and the file name has no [/] in it. *)
Theorem file_name_is_last_path_segment (self : SarifFile) :
  exists dir,
    get_abs_file_path self = (dir ++ get_file_name self)%string
    /\ py_contains (get_file_name self) "/" = false
    /\ (dir = "" \/ exists parent, dir = (parent ++ "/")%string).
Proof.
  apply basename_spec.
Qed.

(** ** Path prefixes *)

Lemma slice_from_add (a b : nat) (s : string) :
  slice_from (a + b) s = slice_from a (slice_from b s).
Proof.
  revert s. induction b as [| b IH]; intros s.
  - now rewrite Nat.add_0_r.
  - rewrite Nat.add_succ_r. destruct s as [| x s]; simpl.
    + now destruct a.
    + apply IH.
Qed.

Lemma contains_char_later (c : ascii) (i j : nat) (s : string) :
  i <= j ->
  py_contains (slice_from (i + 1) s) (String c "") = false ->
  py_contains (slice_from (j + 1) s) (String c "") = false.
Proof.
  intros Hij H.
  replace (j + 1) with ((j - i) + (i + 1)) by lia.
  rewrite slice_from_add. now apply contains_char_slice_from.
Qed.

(** X4: for a run with a single record the autotrim candidate is what
    stands before the last path separator of the trimmed location: the
    trimmed location is the candidate, one separator ([/] or [\]) and a
    last segment with no separator in it; when the location has no
    separator at all there is no candidate. *)
Theorem single_record_candidate_is_directory (record : SarifRecord)
  (loc : string) :
  Location record = PyStr loc ->
  (autotrim_candidate [record] = Returns None
   /\ py_contains (py_strip loc) "/" = false
   /\ py_contains (py_strip loc) "\" = false)
  \/ exists p sep name,
       autotrim_candidate [record] = Returns (Some p)
       /\ In sep _SLASHES
       /\ py_strip loc = (p ++ sep ++ name)%string
       /\ py_contains name "/" = false
       /\ py_contains name "\" = false.
Proof.
  intros Hloc. unfold autotrim_candidate. rewrite Hloc.
  cbn [val_strip bind _SLASHES map py_max fold_left].
  set (s := py_strip loc). unfold py_rfind.
  destruct (rfind_of_char "\" s 0 ltac:(lia)) as [[Hb Hnb] | [i [Hb [Hsb Hnb]]]];
    destruct (rfind_of_char "/" s 0 ltac:(lia)) as [[Hf Hnf] | [j [Hf [Hsf Hnf]]]];
    rewrite Hb, Hf.
  - left. repeat split; assumption.
  - right. exists (slice_to j s), "/", (slice_from (j + 1) s).
    replace (Z.max (-1) (0 + Z.of_nat j))%Z with (Z.of_nat j) by lia.
    destruct (Z.ltb_spec (-1) (Z.of_nat j)); [| lia]. rewrite Nat2Z.id.
    repeat split; simpl; auto. now apply contains_char_slice_from.
  - right. exists (slice_to i s), "\", (slice_from (i + 1) s).
    replace (Z.max (0 + Z.of_nat i) (-1))%Z with (Z.of_nat i) by lia.
    destruct (Z.ltb_spec (-1) (Z.of_nat i)); [| lia]. rewrite Nat2Z.id.
    repeat split; simpl; auto. now apply contains_char_slice_from.
  - right. destruct (Nat.le_gt_cases i j) as [Hij | Hji].
    + exists (slice_to j s), "/", (slice_from (j + 1) s).
      replace (Z.max (0 + Z.of_nat i) (0 + Z.of_nat j))%Z
        with (Z.of_nat j) by lia.
      destruct (Z.ltb_spec (-1) (Z.of_nat j)); [| lia]. rewrite Nat2Z.id.
      repeat split; simpl; auto. now apply (contains_char_later _ i j).
    + exists (slice_to i s), "\", (slice_from (i + 1) s).
      replace (Z.max (0 + Z.of_nat i) (0 + Z.of_nat j))%Z
        with (Z.of_nat i) by lia.
      destruct (Z.ltb_spec (-1) (Z.of_nat i)); [| lia]. rewrite Nat2Z.id.
      repeat split; simpl; auto. apply (contains_char_later _ j i); [lia | auto].
Qed.

Lemma single_record_candidate_is_directory_witness :
  autotrim_candidate [record_with_code "error" "E1"] = Returns (Some "src").
Proof.
  destruct (single_record_candidate_is_directory
              (record_with_code "error" "E1") "src/a.py" eq_refl)
    as [[Hnone _] | (p & sep & name & Hsome & _)].
  - vm_compute in Hnone. discriminate.
  - rewrite Hsome. vm_compute in Hsome. injection Hsome as <-. reflexivity.
Defined.





Lemma result_to_record_under_prefixes (self : SarifRun) (result : pyval)
  (record : SarifRecord) (ps : option (list string)) :
  result_to_record (set_path_prefixes_upper self None) result = Returns record ->
  result_to_record (set_path_prefixes_upper self ps) result
  = (file_path <- strip_path_prefix ps (Location record) ;;
     Returns {| Tool := Tool record;
                Location := file_path;
                Line := Line record;
                Severity := Severity record;
                Code := Code record |}).
Proof.
  unfold result_to_record.
  change (get_tool_name (set_path_prefixes_upper self None))
    with (get_tool_name self).
  change (get_tool_name (set_path_prefixes_upper self ps))
    with (get_tool_name self).
  cbn [_path_prefixes_upper set_path_prefixes_upper].
  intros H.
  apply bind_returns in H as [error_id [Hid H]]. rewrite Hid. cbn [bind].
  apply bind_returns in H as [locations [Hlocs H]]. rewrite Hlocs. cbn [bind].
  apply bind_returns in H as [tool_name [Htool H]]. rewrite Htool. cbn [bind].
  apply bind_returns in H as [line_and_path [Hlp H]]. rewrite Hlp. cbn [bind].
  destruct (negb (truthy (snd line_and_path))); [discriminate |].
  cbn [strip_path_prefix bind] in H.
  apply bind_returns in H as [severity [Hsev H]].
  apply bind_returns in H as [message_obj [Hmo H]].
  apply bind_returns in H as [message [Hm H]].
  injection H as <-. cbn [Tool Location Line Severity Code].
  destruct (strip_path_prefix ps (snd line_and_path)); cbn [bind];
    [| reflexivity].
  rewrite Hsev. cbn [bind]. rewrite Hmo. cbn [bind]. rewrite Hm. reflexivity.
Qed.

(** X6: the prefix configuration of a run touches nothing of a record but
    its Location.  A result that is extracted with stripping off and has a
    string as its location is extracted under every list of prefixes too,
    with the same Tool, Line, Severity and Code, and with the stripped
    location as its Location. *)
Theorem prefixes_change_only_location (self : SarifRun) (result : pyval)
  (record : SarifRecord) (loc : string) (prefixes : list string) :
  result_to_record (set_path_prefixes_upper self None) result = Returns record ->
  Location record = PyStr loc ->
  result_to_record (set_path_prefixes_upper self (Some prefixes)) result
  = Returns {| Tool := Tool record;
               Location := PyStr (strip_first_prefix loc (py_upper loc) prefixes);
               Line := Line record;
               Severity := Severity record;
               Code := Code record |}.
Proof.
  intros H Hloc.
  rewrite (result_to_record_under_prefixes _ _ _ (Some prefixes) H), Hloc.
  destruct prefixes as [| p ps]; reflexivity.
Qed.

Lemma prefixes_change_only_location_witness :
  result_to_record (set_path_prefixes_upper run_without_results (Some ["SRC"]))
    result_with_start_line
  = Returns (mkRecord (PyStr "lint") (PyStr "a.py") (PyInt 42)
               (PyStr "warning") "R1 msg").
Proof.
  exact (prefixes_change_only_location run_without_results
           result_with_start_line _ "src/a.py" ["SRC"] eq_refl eq_refl).
Defined.



(** ** Aggregations over the records of a run *)

Lemma canonical_severity_cases (record : SarifRecord) :
  has_canonical_severity record = true ->
  Severity record = PyStr "error" \/ Severity record = PyStr "warning"
  \/ Severity record = PyStr "note".
Proof.
  unfold has_canonical_severity. cbn [existsb SARIF_SEVERITIES].
  rewrite orb_false_r, !orb_true_iff, !val_eq_str_iff. tauto.
Qed.

(** X8: [_group_records_by_severity] gives one group for each of ["error"],
    ["warning"] and ["note"], in this order; the group of a severity is the
    records with exactly that Severity, in record order; and the three
    groups together are the records with one of the three severities, each
    in one group only: a record with any other Severity is in no group. *)
Theorem group_records_by_severity_partition (records : list SarifRecord) :
  map fst (_group_records_by_severity records) = ["error"; "warning"; "note"]
  /\ (forall severity group,
        In (severity, group) (_group_records_by_severity records) ->
        group = filter (fun r => val_eq_str (Severity r) severity) records
        /\ forall r, In r group <-> In r records /\ Severity r = PyStr severity)
  /\ Permutation (concat (map snd (_group_records_by_severity records)))
       (filter has_canonical_severity records).
Proof.
  split; [reflexivity |]. split.
  - intros severity group Hin.
    unfold _group_records_by_severity in Hin. apply in_map_iff in Hin as [s [Hs _]].
    injection Hs as <- <-. split; [reflexivity |].
    intros r. rewrite filter_In, val_eq_str_iff. tauto.
  - unfold _group_records_by_severity, has_canonical_severity.
    cbn [SARIF_SEVERITIES map snd concat existsb]. rewrite app_nil_r.
    induction records as [| r records IH]; [constructor |].
    cbn [filter].
    destruct (Severity r) as [| | | s | |]; cbn [val_eq_str orb]; try exact IH.
    destruct (String.eqb_spec s "error") as [-> | He]; cbn [orb].
    + cbn. now constructor.
    + destruct (String.eqb_spec s "warning") as [-> | Hw]; cbn [orb].
      * cbn. rewrite <- IH. symmetry. apply Permutation_middle.
      * destruct (String.eqb_spec s "note") as [-> | Hn]; cbn [orb]; [| exact IH].
        cbn. rewrite <- IH, !app_assoc. symmetry. apply Permutation_middle.
Qed.

Lemma group_records_by_severity_partition_witness :
  assoc_get
    (_group_records_by_severity
       [record_with_code "error" "E1"; record_with_code "info" "I1"]) "error"
  = Some [record_with_code "error" "E1"]
  /\ In (record_with_code "error" "E1")
       [record_with_code "error" "E1"; record_with_code "info" "I1"].
Proof.
  destruct (group_records_by_severity_partition
              [record_with_code "error" "E1"; record_with_code "info" "I1"])
    as [_ [Hgroups _]].
  destruct (Hgroups "error" [record_with_code "error" "E1"]
              ltac:(left; reflexivity)) as [_ Hin_group].
  split; [reflexivity |].
  exact (proj1 (proj1 (Hin_group _) ltac:(left; reflexivity))).
Defined.

Lemma canonical_contains_is_equal (s severity : string) :
  In s SARIF_SEVERITIES -> In severity SARIF_SEVERITIES ->
  py_contains s severity = String.eqb s severity.
Proof.
  intros [<- | [<- | [<- | []]]] [<- | [<- | [<- | []]]]; reflexivity.
Qed.

Lemma severity_hits_of_records (severity : string)
  (records : list SarifRecord) :
  Forall has_string_severity records ->
  map_outcome (fun record => py_in severity (Severity record)) records
  = Returns (map (fun r => severity_contains r severity) records).
Proof.
  induction 1 as [| r records [s Hs] _ IH]; [reflexivity |].
  cbn [map_outcome map]. cbv beta. rewrite IH.
  unfold severity_contains at 2. rewrite Hs. reflexivity.
Qed.

Lemma run_count_by_severity (self self' : SarifRun)
  (records : list SarifRecord) :
  get_records self = (Returns records, self') ->
  Forall has_string_severity records ->
  get_result_count_by_severity self = (Returns (severity_counts records), self').
Proof.
  intros Hrec Hstr. unfold get_result_count_by_severity. rewrite Hrec.
  unfold severity_counts, SARIF_SEVERITIES. cbn [map_outcome map].
  rewrite !(severity_hits_of_records _ _ Hstr). cbn [bind].
  now rewrite !count_true_map.
Qed.

Lemma canonical_has_string_severity (records : list SarifRecord) :
  Forall (fun r => has_canonical_severity r = true) records ->
  Forall has_string_severity records.
Proof.
  apply Forall_impl. intros r H.
  destruct (canonical_severity_cases r H) as [E | [E | E]];
    eexists; exact E.
Qed.

Lemma canonical_count_is_group_size (records : list SarifRecord)
  (severity : string) :
  In severity SARIF_SEVERITIES ->
  Forall (fun r => has_canonical_severity r = true) records ->
  filter (fun r => severity_contains r severity) records
  = filter (fun r => val_eq_str (Severity r) severity) records.
Proof.
  intros Hsev Hall. apply filter_ext_in. intros r Hr.
  rewrite Forall_forall in Hall. specialize (Hall r Hr).
  unfold severity_contains.
  destruct (canonical_severity_cases r Hall) as [E | [E | E]]; rewrite E;
    cbn [val_eq_str]; apply canonical_contains_is_equal; simpl; auto.
Qed.

(** X9: on a run whose records all have one of the three severities, the
    count [get_result_count_by_severity] gives for a severity, found by
    substring search, is the size of the group
    [get_records_grouped_by_severity] gives for it, found by equality; and
    the three counts add up to the number of records. *)
Theorem counts_agree_with_groups (self self' : SarifRun)
  (records : list SarifRecord) :
  get_records self = (Returns records, self') ->
  Forall (fun r => has_canonical_severity r = true) records ->
  exists counts groups,
    get_result_count_by_severity self = (Returns counts, self')
    /\ get_records_grouped_by_severity self = (Returns groups, self')
    /\ (forall severity,
          In severity SARIF_SEVERITIES ->
          exists group,
            assoc_get groups severity = Some group
            /\ assoc_get counts severity = Some (List.length group))
    /\ list_sum (map snd counts) = List.length records.
Proof.
  intros Hrec Hall.
  exists (severity_counts records), (_group_records_by_severity records).
  split; [apply run_count_by_severity;
          [exact Hrec | now apply canonical_has_string_severity] |].
  split; [unfold get_records_grouped_by_severity; now rewrite Hrec |].
  split.
  - intros severity Hsev.
    exists (filter (fun r => val_eq_str (Severity r) severity) records).
    rewrite <- (canonical_count_is_group_size _ _ Hsev Hall) at 2.
    destruct Hsev as [<- | [<- | [<- | []]]]; split; reflexivity.
  - unfold severity_counts. cbn [SARIF_SEVERITIES map snd list_sum].
    rewrite !canonical_count_is_group_size by (simpl; auto).
    clear Hrec. induction Hall as [| r records Hr _ IH]; [reflexivity |].
    cbn [filter].
    destruct (canonical_severity_cases r Hr) as [E | [E | E]]; rewrite E;
      simpl; simpl in IH; lia.
Qed.

Lemma counts_agree_with_groups_witness :
  exists counts groups,
    fst (get_result_count_by_severity run_two_errors_one_warning)
    = Returns counts
    /\ fst (get_records_grouped_by_severity run_two_errors_one_warning)
       = Returns groups
    /\ map (fun cg => (fst cg, List.length (snd cg))) groups = counts.
Proof.
  destruct (counts_agree_with_groups run_two_errors_one_warning _ _ eq_refl)
    as (counts & groups & Hc & Hg & _).
  - repeat constructor.
  - exists counts, groups. rewrite Hc, Hg.
    vm_compute in Hc, Hg. injection Hc as <-. injection Hg as <-.
    repeat split.
Defined.

Lemma sum_dict_incr (d : list (string * nat)) (c : string) :
  list_sum (map snd (dict_incr d c)) = list_sum (map snd d) + 1.
Proof.
  induction d as [| [k n] d IH]; simpl; [reflexivity |].
  destruct (String.eqb k c); simpl; [lia | rewrite IH; lia].
Qed.

Lemma sum_fold_dict_incr (codes : list string) (d : list (string * nat)) :
  list_sum (map snd (fold_left dict_incr codes d))
  = list_sum (map snd d) + List.length codes.
Proof.
  revert d. induction codes as [| c codes IH]; intros d; simpl; [lia |].
  rewrite IH, sum_dict_incr. lia.
Qed.

Lemma list_sum_perm (l l' : list nat) :
  Permutation l l' -> list_sum l = list_sum l'.
Proof.
  induction 1; simpl; lia.
Qed.

(** X10: the counts of the histogram of a severity add up to the number of
    records with that Severity, and no pair of the histogram has the count
    zero. *)
Theorem histogram_counts_add_up (records : list SarifRecord)
  (severity : string) :
  list_sum (map snd (_count_records_by_issue_code records severity))
  = List.length (filter (fun r => val_eq_str (Severity r) severity) records)
  /\ Forall (fun pair => 1 <= snd pair)
       (_count_records_by_issue_code records severity).
Proof.
  unfold _count_records_by_issue_code. rewrite tally_filter.
  fold (tally (codes_with_severity records severity)).
  set (codes := codes_with_severity records severity).
  assert (Hperm := sorted_by_count_desc_perm (tally codes)).
  split.
  - rewrite (list_sum_perm _ _ (Permutation_map snd Hperm)).
    unfold tally. rewrite sum_fold_dict_incr. simpl.
    unfold codes, codes_with_severity. now rewrite length_map.
  - apply Forall_forall. intros [c n] Hin.
    apply (Permutation_in _ Hperm) in Hin.
    apply (assoc_get_in _ _ _ (tally_keys_NoDup codes)) in Hin.
    rewrite tally_get in Hin. simpl.
    destruct (Nat.eqb_spec (count_occ string_dec codes c) 0); [discriminate |].
    injection Hin as <-. lia.
Qed.

Lemma map_outcome_Forall2 {A B : Type} (f : A -> outcome B) (l : list A)
  (l' : list B) :
  map_outcome f l = Returns l' ->
  Forall2 (fun a b => f a = Returns b) l l'.
Proof.
  revert l'. induction l as [| a l IH]; intros l' H; simpl in H.
  - injection H as <-. constructor.
  - apply bind_returns in H as [b [Hb H]].
    apply bind_returns in H as [bs [Hbs H]]. injection H as <-.
    constructor; auto.
Qed.

Lemma length_list_ascii_of_string (s : string) :
  List.length (list_ascii_of_string s) = String.length s.
Proof.
  induction s as [| c s IH]; simpl; [reflexivity | now rewrite IH].
Qed.

Lemma py_len_of_iter (v : pyval) :
  py_len v
  = match py_iter v with
    | Returns items => Returns (List.length items)
    | Raises e => Raises e
    end.
Proof.
  destruct v; simpl; try reflexivity.
  - now rewrite length_map, length_list_ascii_of_string.
  - now rewrite length_map.
Qed.

(** X11: when the cache is empty, a [get_records()] that returns gives one
    record for each result of the run, in result order, each the
    [result_to_record] of its result; their number is what
    [get_result_count()] returns, and they are what the cache then holds. *)
Theorem get_records_one_per_result (self self' : SarifRun)
  (records : list SarifRecord) :
  cache_empty self ->
  get_records self = (Returns records, self') ->
  exists results,
    (r <- get_results self ;; py_iter r) = Returns results
    /\ Forall2 (fun result record => result_to_record self result = Returns record)
         results records
    /\ get_result_count self = Returns (List.length records)
    /\ _cached_records self' = Some records.
Proof.
  unfold cache_empty, get_records. intros Hempty H.
  assert (Hc : compute_records self = Returns records
               /\ self' = set_cached_records self (Some records)).
  { destruct (_cached_records self) as [[| r l] |]; try contradiction;
      destruct (compute_records self); try discriminate;
      injection H as <- <-; auto. }
  destruct Hc as [Hc ->]. unfold compute_records in Hc.
  apply bind_returns in Hc as [r [Hr Hc]].
  apply bind_returns in Hc as [items [Hitems Hc]].
  exists items. rewrite Hr. cbn [bind].
  split; [exact Hitems |].
  pose proof (map_outcome_Forall2 _ _ _ Hc) as Hall.
  split; [exact Hall |]. split; [| reflexivity].
  unfold get_result_count. rewrite Hr. cbn [bind].
  rewrite py_len_of_iter, Hitems. f_equal.
  now apply Forall2_length in Hall.
Qed.

Lemma get_records_one_per_result_witness :
  get_result_count run_two_errors_one_warning = Returns 3
  /\ option_map (@List.length SarifRecord)
       (_cached_records (snd (get_records run_two_errors_one_warning)))
     = Some 3.
Proof.
  destruct (get_records_one_per_result run_two_errors_one_warning _ _ I eq_refl)
    as (results & _ & _ & Hcount & Hcache).
  split; [exact Hcount |].
  exact (f_equal (option_map (@List.length SarifRecord)) Hcache).
Defined.

(** ** File sets *)

Lemma scan_files_below (index i : Z) (l : list SarifFile) :
  (index < i)%Z ->
  scan_files index i l = inr (i + Z.of_nat (List.length l))%Z.
Proof.
  revert i. induction l as [| f l IH]; intros i Hi; simpl.
  - f_equal. lia.
  - destruct (Z.eqb_spec i index); [lia |].
    rewrite IH by lia. f_equal. lia.
Qed.

Lemma scan_subdirs_below (index i : Z) (dirs : list SarifFileSet) :
  (index < i)%Z ->
  scan_subdirs index i dirs
  = inr (i + Z.of_nat (List.length (concat (map files dirs))))%Z.
Proof.
  revert i. induction dirs as [| d dirs IH]; intros i Hi; simpl.
  - f_equal. lia.
  - rewrite scan_files_below by exact Hi. rewrite IH by lia.
    rewrite length_app. f_equal. lia.
Qed.

Lemma getitem_beyond_iteration (self : SarifFileSet) (i : nat) :
  List.length (SarifFileSet_iter self) <= i ->
  SarifFileSet_getitem self (Z.of_nat i) = Raises IndexError.
Proof.
  intros Hi. unfold SarifFileSet_getitem, SarifFileSet_iter in *.
  rewrite length_app in Hi.
  pose proof (scan_subdirs_spec (Z.of_nat i) 0 (subdirs self) ltac:(lia)) as Hs.
  rewrite Z.sub_0_r, Nat2Z.id in Hs.
  destruct (nth_error (concat (map files (subdirs self))) i) eqn:E.
  + assert (i < List.length (concat (map files (subdirs self))))
      by (apply nth_error_Some; congruence).
    lia.
  + rewrite Hs. unfold list_getitem.
    set (s := List.length (concat (map files (subdirs self)))) in *.
    replace (Z.of_nat i - (0 + Z.of_nat s))%Z with (Z.of_nat (i - s)) by lia.
    assert (Hlt : (Z.of_nat (i - s) <? 0)%Z = false) by (apply Z.ltb_ge; lia).
    cbv zeta. rewrite !Hlt, Nat2Z.id.
    destruct (nth_error (files self) (i - s)) eqn:E2; [| reflexivity].
    assert (i - s < List.length (files self))
      by (apply nth_error_Some; congruence).
    lia.
Qed.

Lemma getitem_negative (self : SarifFileSet) (k : nat) :
  let s := List.length (concat (map files (subdirs self))) in
  let n := List.length (files self) in
  1 <= k ->
  SarifFileSet_getitem self (- Z.of_nat k)
  = if (k + s <=? n)%nat
    then match nth_error (files self) (n - (k + s)) with
         | Some f => Returns f
         | None => Raises IndexError
         end
    else Raises IndexError.
Proof.
  cbn zeta.
  intros Hk. cbn zeta. unfold SarifFileSet_getitem.
  rewrite scan_subdirs_below by lia. unfold list_getitem.
  set (s := List.length (concat (map files (subdirs self)))).
  set (n := List.length (files self)).
  assert (Hneg : (- Z.of_nat k - (0 + Z.of_nat s) <? 0)%Z = true)
    by (apply Z.ltb_lt; lia).
  cbv zeta. rewrite Hneg.
  destruct (Nat.leb_spec (k + s) n) as [Hle | Hgt].
  + assert (Hlt : (- Z.of_nat k - (0 + Z.of_nat s) + Z.of_nat n <? 0)%Z = false)
      by (apply Z.ltb_ge; lia).
    rewrite Hlt.
    replace (Z.to_nat (- Z.of_nat k - (0 + Z.of_nat s) + Z.of_nat n))
      with (n - (k + s)) by lia.
    reflexivity.
  + assert (Hlt : (- Z.of_nat k - (0 + Z.of_nat s) + Z.of_nat n <? 0)%Z = true)
      by (apply Z.ltb_lt; lia).
    now rewrite Hlt.
Qed.

(** X12: the bounds of [fileset[index]].  An index from the number of files
    iterated upwards raises [IndexError].  A negative index is not counted
    from the end of the iteration: it is looked up in the direct files only,
    after the number of subdirectory files has been taken off it, so [-k]
    is the k-th direct file from the end only when no subdirectory has a
    file, and reaches [k + s] places back from the end of the direct files
    when the subdirectories have [s] files, raising [IndexError] when there
    are not that many. *)
Theorem getitem_out_of_range (self : SarifFileSet) :
  let s := List.length (concat (map files (subdirs self))) in
  let n := List.length (files self) in
  (forall i, List.length (SarifFileSet_iter self) <= i ->
     SarifFileSet_getitem self (Z.of_nat i) = Raises IndexError)
  /\ (forall k, 1 <= k ->
        SarifFileSet_getitem self (- Z.of_nat k)
        = if (k + s <=? n)%nat
          then match nth_error (files self) (n - (k + s)) with
               | Some f => Returns f
               | None => Raises IndexError
               end
          else Raises IndexError).
Proof.
  cbn zeta. split.
  - apply getitem_beyond_iteration.
  - apply getitem_negative.
Qed.

Lemma getitem_out_of_range_witness :
  SarifFileSet_getitem fileset_two_levels 3 = Raises IndexError
  /\ SarifFileSet_getitem fileset_two_levels (-1) = Raises IndexError
  /\ SarifFileSet_iter fileset_two_levels = [file_b; file_c; file_a].
Proof.
  destruct (getitem_out_of_range fileset_two_levels) as [Hhigh Hneg].
  split; [exact (Hhigh 3 ltac:(simpl; lia)) |].
  split; [exact (Hneg 1 ltac:(lia)) | reflexivity].
Defined.

Lemma bool_iff_some_file (self : SarifFileSet) :
  SarifFileSet_bool self = true <-> flatten self <> [].
Proof.
  induction self as [subdirs files IH] using SarifFileSet_nested_ind.
  cbn [SarifFileSet_bool flatten]. rewrite orb_true_iff, existsb_exists. split.
  - intros [[d [Hd Hb]] | Hf].
    + rewrite Forall_forall in IH. apply (IH d Hd) in Hb.
      intros Happ. apply app_eq_nil in Happ as [Hc _].
      apply Hb. apply (proj1 (concat_nil_Forall _)) in Hc.
      rewrite Forall_map, Forall_forall in Hc. auto.
    + intros Happ. apply app_eq_nil in Happ as [_ ->]. discriminate.
  - intros Hne. destruct files as [| f files]; [| now right].
    left. rewrite app_nil_r in Hne.
    induction IH as [| d ds Hd _ IHds]; [now contradiction Hne |].
    simpl in Hne. destruct (flatten d) as [| f fl] eqn:Hfl.
    + destruct (IHds Hne) as [d' [Hin Hb]]. exists d'. simpl. auto.
    + exists d. split; [now left |]. apply Hd. discriminate.
Qed.

(** X13: a file set is truthy exactly when its tree holds a file, with or
    without runs; hence a file set of positive length is truthy, and a falsy
    one has length 0, while a truthy one may have length 0. *)
Theorem fileset_bool_and_len (self : SarifFileSet) :
  (SarifFileSet_bool self = true <-> flatten self <> [])
  /\ (0 < SarifFileSet_len self -> SarifFileSet_bool self = true)
  /\ (SarifFileSet_bool self = false -> SarifFileSet_len self = 0).
Proof.
  assert (Hpos : 0 < SarifFileSet_len self -> SarifFileSet_bool self = true).
  { intros Hlen. apply bool_iff_some_file.
    rewrite len_counts_nonempty_files in Hlen.
    intros Hnil. rewrite Hnil in Hlen. simpl in Hlen. lia. }
  split; [apply bool_iff_some_file |]. split; [exact Hpos |].
  intros Hb. destruct (SarifFileSet_len self) eqn:E; [reflexivity |].
  rewrite Hpos in Hb by lia. discriminate.
Qed.

Lemma fileset_bool_and_len_witness :
  SarifFileSet_bool fileset_two_levels = true
  /\ SarifFileSet_bool fileset_one_empty_file = true
  /\ SarifFileSet_len fileset_one_empty_file = 0.
Proof.
  destruct (fileset_bool_and_len fileset_two_levels) as [_ [Hpos _]].
  split; [apply Hpos; simpl; lia |]. split; reflexivity.
Defined.

Lemma list_sum_snoc (l : list nat) (x : nat) :
  list_sum (l ++ [x]) = list_sum l + x.
Proof.
  rewrite list_sum_app. simpl. lia.
Qed.

(** X14: how the two ways of growing a file set act on it.  [add_file] puts
    the file at the end of the flattening and of the iteration and adds 1 to
    the length when the file has a run, and nothing otherwise; [add_dir]
    adds the length of the subdirectory to the length, and puts its
    flattening after that of the subdirectories already there and before the
    direct files. *)
Theorem add_file_and_add_dir (self : SarifFileSet) :
  (forall f,
     flatten (add_file self f) = flatten self ++ [f]
     /\ SarifFileSet_iter (add_file self f) = SarifFileSet_iter self ++ [f]
     /\ SarifFileSet_len (add_file self f)
        = SarifFileSet_len self + (if SarifFile_bool f then 1 else 0))
  /\ (forall d,
        flatten (add_dir self d)
        = concat (map flatten (subdirs self)) ++ flatten d ++ files self
        /\ SarifFileSet_len (add_dir self d)
           = SarifFileSet_len self + SarifFileSet_len d).
Proof.
  destruct self as [dirs direct]. split.
  - intros f. unfold add_file, SarifFileSet_iter.
    cbn [subdirs files flatten SarifFileSet_len].
    split; [now rewrite app_assoc |]. split; [now rewrite app_assoc |].
    rewrite filter_app, length_app. cbn [filter].
    destruct (SarifFile_bool f); simpl; lia.
  - intros d. unfold add_dir.
    cbn [subdirs files flatten SarifFileSet_len].
    rewrite !map_app, concat_app, list_sum_app. cbn [map concat list_sum].
    rewrite app_nil_r, <- app_assoc. split; [reflexivity |].
    change (list_sum [SarifFileSet_len d]) with (SarifFileSet_len d + 0).
    lia.
Qed.

(** X15: [get_description].  When the length of the file set is not 1 the
    description is the length followed by [ files].  When it is 1 the
    description is the file name of the first file of the iteration,
    whether or not that is the file that was counted, and the call raises
    [IndexError] when the iteration is empty; on a file set whose
    subdirectories have no subdirectories and whose files all have runs, it
    is the name of the one file of the set. *)
Theorem get_description_spec (self : SarifFileSet) :
  (SarifFileSet_len self <> 1 ->
   get_description self
   = Returns (py_str (PyInt (Z.of_nat (SarifFileSet_len self))) ++ " files")%string)
  /\ (SarifFileSet_len self = 1 ->
      get_description self
      = match SarifFileSet_iter self with
        | first :: _ => Returns (get_file_name first)
        | [] => Raises IndexError
        end)
  /\ (SarifFileSet_len self = 1 ->
      shallow self ->
      Forall (fun f => SarifFile_bool f = true) (flatten self) ->
      exists only,
        flatten self = [only]
        /\ get_description self = Returns (get_file_name only)).
Proof.
  assert (Hone : SarifFileSet_len self = 1 ->
                 get_description self
                 = match SarifFileSet_iter self with
                   | first :: _ => Returns (get_file_name first)
                   | [] => Raises IndexError
                   end).
  { intros Hlen. unfold get_description. rewrite Hlen. cbn [Nat.eqb].
    destruct (SarifFileSet_iter self) as [| first rest] eqn:Hit.
    - change 0%Z with (Z.of_nat 0).
      rewrite (getitem_beyond_iteration self 0); [reflexivity |].
      rewrite Hit. simpl. lia.
    - change 0%Z with (Z.of_nat 0).
      rewrite (getitem_agrees_with_iter self 0 first); [reflexivity |].
      now rewrite Hit. }
  split; [| split; [exact Hone |]].
  - intros Hlen. unfold get_description.
    destruct (Nat.eqb_spec (SarifFileSet_len self) 1); [contradiction |].
    reflexivity.
  - intros Hlen Hshallow Hall.
    rewrite (Hone Hlen), (shallow_iter_flatten _ Hshallow).
    rewrite len_counts_nonempty_files in Hlen.
    rewrite forallb_filter_id in Hlen
      by (now apply forallb_forall, Forall_forall).
    destruct (flatten self) as [| only [| other rest]]; try discriminate.
    exists only. split; reflexivity.
Qed.

Lemma get_description_spec_witness :
  get_description fileset_two_levels = Returns "3 files"
  /\ get_description (add_file empty_fileset file_a) = Returns "a.sarif"
  /\ get_description fileset_three_levels = Raises IndexError.
Proof.
  split; [| split].
  - destruct (get_description_spec fileset_two_levels) as [Hmany _].
    exact (Hmany ltac:(discriminate)).
  - destruct (get_description_spec (add_file empty_fileset file_a))
      as [_ [_ Hone]].
    destruct (Hone eq_refl) as [only [Hflat Hdesc]].
    + constructor.
    + repeat constructor.
    + rewrite Hdesc. injection Hflat as <-. reflexivity.
  - destruct (get_description_spec fileset_three_levels) as [_ [Hfirst _]].
    exact (Hfirst eq_refl).
Defined.




(** ** The three levels of the composite *)

Lemma map_outcome_length_of {A B : Type} (f : A -> outcome (list B))
  (g : A -> outcome nat) (l : list A) :
  Forall (fun a => g a = length_of (f a)) l ->
  (per_part <- map_outcome g l ;; Returns (list_sum per_part))
  = length_of (per_part <- map_outcome f l ;; Returns (concat per_part)).
Proof.
  induction 1 as [| a l Ha _ IH]; [reflexivity |].
  cbn [map_outcome]. rewrite Ha.
  destruct (f a) as [xs | e]; cbn [length_of bind]; [| reflexivity].
  destruct (map_outcome g l) as [ns | e]; destruct (map_outcome f l) as [ys | e'];
    cbn [bind length_of] in *; try congruence.
  injection IH as IH. simpl. now rewrite length_app, IH.
Qed.

Lemma map_outcome_sum_length {A B : Type} (f : A -> outcome (list B))
  (g : A -> outcome nat) (l : list A) :
  Forall (fun a => g a = length_of (f a)) l ->
  match map_outcome g l, map_outcome f l with
  | Returns ns, Returns xs => list_sum ns = List.length (concat xs)
  | Raises e, Raises e' => e = e'
  | _, _ => False
  end.
Proof.
  intros H. pose proof (map_outcome_length_of f g l H) as Heq.
  destruct (map_outcome g l), (map_outcome f l); cbn [bind length_of] in Heq;
    congruence.
Qed.

Lemma run_result_count (self : SarifRun) :
  get_result_count self
  = length_of (results <- get_results self ;; py_iter results).
Proof.
  unfold get_result_count. destruct (get_results self) as [v | e]; cbn [bind];
    [| reflexivity].
  rewrite py_len_of_iter. now destruct (py_iter v).
Qed.

Lemma file_result_count (self : SarifFile) :
  SarifFile_get_result_count self = length_of (SarifFile_get_results self).
Proof.
  unfold SarifFile_get_result_count, SarifFile_get_results.
  apply map_outcome_length_of. apply Forall_forall. intros run _.
  apply run_result_count.
Qed.

Lemma fileset_result_count (self : SarifFileSet) :
  SarifFileSet_get_result_count self
  = length_of (SarifFileSet_get_results self).
Proof.
  induction self as [dirs direct IH] using SarifFileSet_nested_ind.
  cbn [SarifFileSet_get_result_count SarifFileSet_get_results].
  pose proof (map_outcome_sum_length _ _ dirs IH) as Hd.
  assert (Hfiles : Forall (fun f => SarifFile_get_result_count f
                                    = length_of (SarifFile_get_results f)) direct).
  { apply Forall_forall. intros f _. apply file_result_count. }
  pose proof (map_outcome_sum_length _ _ direct Hfiles) as Hf.
  destruct (map_outcome SarifFileSet_get_result_count dirs) as [ns | e];
    destruct (map_outcome SarifFileSet_get_results dirs) as [xs | e'];
    try contradiction; cbn [bind length_of]; [| now subst].
  destruct (map_outcome SarifFile_get_result_count direct) as [ms | e];
    destruct (map_outcome SarifFile_get_results direct) as [ys | e'];
    try contradiction; cbn [bind length_of]; [| now subst].
  now rewrite length_app, Hd, Hf.
Qed.

(** X17: at each of the three levels, run, file and file set,
    [get_result_count()] is the number of results [get_results()] gives, and
    it raises what [get_results()] raises when that raises (for a run: what
    walking through its [results] raises). *)
Theorem result_count_is_number_of_results :
  (forall run : SarifRun,
     get_result_count run
     = length_of (results <- get_results run ;; py_iter results))
  /\ (forall file : SarifFile,
        SarifFile_get_result_count file
        = length_of (SarifFile_get_results file))
  /\ (forall fileset : SarifFileSet,
        SarifFileSet_get_result_count fileset
        = length_of (SarifFileSet_get_results fileset)).
Proof.
  split; [exact run_result_count |].
  split; [exact file_result_count | exact fileset_result_count].
Qed.

Lemma for_each_twice {S A : Type} (op : S -> outcome A * S) (l : list S) :
  Forall (fun x => forall out x', op x = (out, x') -> op x' = (out, x')) l ->
  forall out l', for_each op l = (out, l') -> for_each op l' = (out, l').
Proof.
  induction 1 as [| x l Hx _ IH]; intros out l' H; cbn [for_each] in H.
  - injection H as <- <-. reflexivity.
  - destruct (op x) as [[a | e] x'].
    + destruct (for_each op l) as [[others | e] rest'];
        injection H as <- <-; cbn [for_each];
        rewrite (Hx _ _ eq_refl), (IH _ _ eq_refl); reflexivity.
    + injection H as <- <-. cbn [for_each]. now rewrite (Hx _ _ eq_refl).
Qed.

Lemma file_get_records_twice (self self' : SarifFile)
  (out : outcome (list SarifRecord)) :
  SarifFile_get_records self = (out, self') ->
  SarifFile_get_records self' = (out, self').
Proof.
  unfold SarifFile_get_records. intros H.
  assert (Hruns : Forall (fun run => forall o run',
                            get_records run = (o, run') ->
                            get_records run' = (o, run')) (runs self)).
  { apply Forall_forall. intros run _ o run'. apply get_records_twice. }
  destruct (for_each get_records (runs self)) as [[per_run | e] runs'] eqn:Hfe;
    injection H as <- <-; cbn [runs set_runs];
    rewrite (for_each_twice _ _ Hruns _ _ Hfe); reflexivity.
Qed.

Lemma fileset_get_records_twice (self : SarifFileSet) :
  forall out self',
    SarifFileSet_get_records self = (out, self') ->
    SarifFileSet_get_records self' = (out, self').
Proof.
  induction self as [dirs direct IH] using SarifFileSet_nested_ind.
  intros out self' H. cbn [SarifFileSet_get_records] in H.
  assert (Hfiles : Forall (fun f => forall o f',
                             SarifFile_get_records f = (o, f') ->
                             SarifFile_get_records f' = (o, f')) direct).
  { apply Forall_forall. intros f _ o f'. apply file_get_records_twice. }
  destruct (for_each SarifFileSet_get_records dirs)
    as [[from_subdirs | e] dirs'] eqn:Hd.
  - destruct (for_each SarifFile_get_records direct)
      as [[from_files | e] direct'] eqn:Hf;
      injection H as <- <-; cbn [SarifFileSet_get_records];
      rewrite (for_each_twice _ _ IH _ _ Hd),
              (for_each_twice _ _ Hfiles _ _ Hf); reflexivity.
  - injection H as <- <-. cbn [SarifFileSet_get_records].
    now rewrite (for_each_twice _ _ IH _ _ Hd).
Qed.

(** X18: at the level of a file and of a file set, as for a run, a second
    [get_records()] with nothing in between gives what the first gave, the
    same records or the same exception, and leaves every run of the tree as
    the first call left it. *)
Theorem composite_get_records_twice :
  (forall (file file' : SarifFile) out,
     SarifFile_get_records file = (out, file') ->
     SarifFile_get_records file' = (out, file'))
  /\ (forall (fileset fileset' : SarifFileSet) out,
        SarifFileSet_get_records fileset = (out, fileset') ->
        SarifFileSet_get_records fileset' = (out, fileset')).
Proof.
  split.
  - intros file file' out. apply file_get_records_twice.
  - intros fileset fileset' out. apply fileset_get_records_twice.
Qed.

Lemma composite_get_records_twice_witness :
  fst (SarifFile_get_records (snd (SarifFile_get_records file_with_failing_run)))
  = Raises (ValueError "No location in R3 output from lint")
  /\ option_map (@List.length SarifRecord)
       (match fst (SarifFileSet_get_records
                     (snd (SarifFileSet_get_records fileset_with_records))) with
        | Returns records => Some records
        | Raises _ => None
        end) = Some 10.
Proof.
  destruct composite_get_records_twice as [Hfile Hset].
  split.
  - rewrite (Hfile file_with_failing_run
               (snd (SarifFile_get_records file_with_failing_run))
               (fst (SarifFile_get_records file_with_failing_run)) eq_refl).
    reflexivity.
  - rewrite (Hset fileset_with_records
               (snd (SarifFileSet_get_records fileset_with_records))
               (fst (SarifFileSet_get_records fileset_with_records)) eq_refl).
    reflexivity.
Defined.

Lemma for_each_related {S A B : Type} (op1 : S -> outcome A * S)
  (op2 : S -> outcome B * S) (P : A -> Prop) (g : A -> B) (l : list S) :
  Forall (fun x => forall a x',
            op1 x = (Returns a, x') -> P a -> op2 x = (Returns (g a), x')) l ->
  forall parts l',
    for_each op1 l = (Returns parts, l') ->
    Forall P parts ->
    for_each op2 l = (Returns (map g parts), l').
Proof.
  induction 1 as [| x l Hx _ IH]; intros parts l' H HP; cbn [for_each] in H.
  - injection H as <- <-. reflexivity.
  - destruct (op1 x) as [[a | e] x'] eqn:Hop; [| discriminate].
    destruct (for_each op1 l) as [[others | e] rest'] eqn:Hrest;
      [| discriminate].
    injection H as <- <-. inversion HP as [| ? ? Ha Hothers]; subst.
    cbn [for_each map].
    now rewrite (Hx _ _ eq_refl Ha), (IH _ _ eq_refl Hothers).
Qed.

Lemma Forall_concat_parts {A : Type} (P : A -> Prop) (parts : list (list A)) :
  Forall P (concat parts) -> Forall (Forall P) parts.
Proof.
  induction parts as [| p parts IH]; simpl; intros H; [constructor |].
  apply Forall_app in H as [Hp Hrest]. constructor; auto.
Qed.

Lemma count_sum_concat (severity : string)
  (parts : list (list SarifRecord)) :
  In severity SARIF_SEVERITIES ->
  list_sum (map (fun rc => match assoc_get rc severity with
                           | Some n => n
                           | None => 0
                           end) (map severity_counts parts))
  = List.length (filter (fun r => severity_contains r severity) (concat parts)).
Proof.
  intros Hsev. induction parts as [| p parts IH]; [reflexivity |].
  cbn [map concat]. rewrite filter_app, length_app, <- IH.
  destruct Hsev as [<- | [<- | [<- | []]]]; reflexivity.
Qed.

Lemma severity_counts_concat (parts : list (list SarifRecord)) :
  sum_counts_by_severity (map severity_counts parts)
  = severity_counts (concat parts).
Proof.
  unfold sum_counts_by_severity. unfold severity_counts at 2.
  apply map_ext_in. intros severity Hsev. f_equal.
  now apply count_sum_concat.
Qed.

Lemma file_count_by_severity (self self' : SarifFile)
  (records : list SarifRecord) :
  SarifFile_get_records self = (Returns records, self') ->
  Forall has_string_severity records ->
  SarifFile_get_result_count_by_severity self
  = (Returns (severity_counts records), self').
Proof.
  unfold SarifFile_get_records, SarifFile_get_result_count_by_severity.
  intros H Hstr.
  destruct (for_each get_records (runs self)) as [[per_run | e] runs'] eqn:Hfe;
    [| discriminate].
  injection H as <- <-.
  rewrite (for_each_related get_records get_result_count_by_severity
             (Forall has_string_severity) severity_counts (runs self)
             ltac:(apply Forall_forall; intros run _ a x';
                   apply run_count_by_severity)
             _ _ Hfe (Forall_concat_parts _ _ Hstr)).
  now rewrite severity_counts_concat.
Qed.

Lemma fileset_count_by_severity (self : SarifFileSet) :
  forall records self',
    SarifFileSet_get_records self = (Returns records, self') ->
    Forall has_string_severity records ->
    SarifFileSet_get_result_count_by_severity self
    = (Returns (severity_counts records), self').
Proof.
  induction self as [dirs direct IH] using SarifFileSet_nested_ind.
  intros records self' H Hstr. cbn [SarifFileSet_get_records] in H.
  cbn [SarifFileSet_get_result_count_by_severity].
  destruct (for_each SarifFileSet_get_records dirs)
    as [[from_subdirs | e] dirs'] eqn:Hd; [| discriminate].
  destruct (for_each SarifFile_get_records direct)
    as [[from_files | e] direct'] eqn:Hf; [| discriminate].
  injection H as <- <-. apply Forall_app in Hstr as [Hs1 Hs2].
  rewrite (for_each_related _ _ (Forall has_string_severity) severity_counts
             dirs IH _ _ Hd (Forall_concat_parts _ _ Hs1)).
  rewrite (for_each_related SarifFile_get_records
             SarifFile_get_result_count_by_severity
             (Forall has_string_severity) severity_counts direct
             ltac:(apply Forall_forall; intros f _ a x';
                   apply file_count_by_severity)
             _ _ Hf (Forall_concat_parts _ _ Hs2)).
  now rewrite <- map_app, severity_counts_concat, concat_app.
Qed.

(** X19: the counts by severity of a file and of a file set, which are
    added up from the counts of their parts, are the counts of their own
    records: when [get_records()] of the file or file set returns records
    whose Severity is a string, [get_result_count_by_severity()] returns,
    for each of the three severities, the number of those records whose
    Severity contains it, and leaves the runs as [get_records()] leaves
    them. *)
Theorem composite_counts_are_counts_of_records :
  (forall (file file' : SarifFile) records,
     SarifFile_get_records file = (Returns records, file') ->
     Forall has_string_severity records ->
     SarifFile_get_result_count_by_severity file
     = (Returns
          (map (fun severity =>
                  (severity,
                   List.length
                     (filter (fun r => severity_contains r severity) records)))
               ["error"; "warning"; "note"]),
        file'))
  /\ (forall (fileset fileset' : SarifFileSet) records,
        SarifFileSet_get_records fileset = (Returns records, fileset') ->
        Forall has_string_severity records ->
        SarifFileSet_get_result_count_by_severity fileset
        = (Returns
             (map (fun severity =>
                     (severity,
                      List.length
                        (filter (fun r => severity_contains r severity) records)))
                  ["error"; "warning"; "note"]),
           fileset')).
Proof.
  split.
  - intros file file' records. apply file_count_by_severity.
  - intros fileset fileset' records. apply fileset_count_by_severity.
Qed.

Lemma composite_counts_are_counts_of_records_witness :
  fst (SarifFileSet_get_result_count_by_severity fileset_with_records)
  = Returns [("error", 8); ("warning", 2); ("note", 0)].
Proof.
  destruct composite_counts_are_counts_of_records as [_ Hset].
  rewrite (Hset fileset_with_records _ _ eq_refl).
  - reflexivity.
  - repeat constructor; eexists; reflexivity.
Defined.

Lemma for_each_returns {S A : Type} (op : S -> outcome A * S) (l l' : list S)
  (parts : list A) :
  for_each op l = (Returns parts, l') ->
  Forall2 (fun x x' => exists a, op x = (Returns a, x')) l l'.
Proof.
  revert l' parts. induction l as [| x l IH]; intros l' parts H;
    cbn [for_each] in H.
  - injection H as <- <-. constructor.
  - destruct (op x) as [[a | e] x'] eqn:Hop; [| discriminate].
    destruct (for_each op l) as [[others | e] rest'] eqn:Hrest;
      [| discriminate].
    injection H as <- <-. constructor; eauto.
Qed.

Lemma run_init_returns (self self1 : SarifRun) (autotrim : bool)
  (path_prefixes : option (list string)) (u : unit) :
  init_path_prefix_stripping self autotrim path_prefixes = (Returns u, self1) ->
  _cached_records self1 = None
  /\ run_data self1 = run_data self
  /\ run_index self1 = run_index self.
Proof.
  unfold init_path_prefix_stripping. intros H.
  assert (Hshape : exists self0 prefixes,
             run_data self0 = run_data self
             /\ run_index self0 = run_index self
             /\ self1 = set_cached_records
                          (set_path_prefixes_upper self0 prefixes) None).
  { destruct autotrim.
    - destruct (get_records self) as [[records | e] self0] eqn:Hget;
        [| discriminate].
      assert (Hkeep : run_data self0 = run_data self
                      /\ run_index self0 = run_index self).
      { unfold get_records in Hget.
        destruct (_cached_records self) as [[| r l] |];
          try destruct (compute_records self);
          try discriminate; inversion Hget; subst; split; reflexivity. }
      destruct Hkeep as [Hdata Hindex].
      destruct (autotrim_candidate records) as [[p |] | e]; [| | discriminate].
      + destruct (option_truthy (Some p) && _);
          injection H as _ <-; eauto 6.
      + injection H as _ <-; eauto 6.
    - injection H as _ <-. eauto 6. }
  destruct Hshape as (self0 & prefixes & Hdata & Hindex & ->).
  repeat split; assumption.
Qed.

Lemma all_runs_unfold (dirs : list SarifFileSet) (direct : list SarifFile) :
  all_runs (mkFileSet dirs direct)
  = concat (map all_runs dirs) ++ concat (map runs direct).
Proof.
  unfold all_runs. cbn [flatten]. rewrite map_app, concat_app. f_equal.
  induction dirs as [| d dirs IH]; [reflexivity |].
  cbn [map concat]. now rewrite map_app, concat_app, IH.
Qed.

Lemma file_init_returns (self self' : SarifFile) (autotrim : bool)
  (path_prefixes : option (list string)) (u : unit) :
  SarifFile_init_path_prefix_stripping self autotrim path_prefixes
  = (Returns u, self') ->
  Forall (fun run => _cached_records run = None) (runs self')
  /\ map run_data (runs self') = map run_data (runs self).
Proof.
  unfold SarifFile_init_path_prefix_stripping. intros H.
  destruct (for_each _ (runs self)) as [[parts | e] runs'] eqn:Hfe;
    [| discriminate].
  injection H as _ <-. cbn [runs set_runs].
  apply for_each_returns in Hfe.
  induction Hfe as [| run run' l l' [a Ha] _ IH]; [split; constructor |].
  destruct IH as [IH1 IH2]. apply run_init_returns in Ha as [Hc [Hd _]].
  split; [constructor; assumption |]. cbn [map]. now rewrite Hd, IH2.
Qed.

Lemma fileset_init_returns (autotrim : bool)
  (path_prefixes : option (list string)) (self : SarifFileSet) :
  forall u self',
    SarifFileSet_init_path_prefix_stripping self autotrim path_prefixes
    = (Returns u, self') ->
    Forall (fun run => _cached_records run = None) (all_runs self')
    /\ map run_data (all_runs self') = map run_data (all_runs self).
Proof.
  induction self as [dirs direct IH] using SarifFileSet_nested_ind.
  intros u self' H. cbn [SarifFileSet_init_path_prefix_stripping] in H.
  destruct (for_each _ dirs) as [[parts | e] dirs'] eqn:Hd; [| discriminate].
  destruct (for_each _ direct) as [[parts' | e] direct'] eqn:Hf;
    [| discriminate].
  injection H as _ <-. rewrite !all_runs_unfold, !map_app.
  apply for_each_returns in Hd, Hf.
  assert (Hdirs : Forall (fun run => _cached_records run = None)
                    (concat (map all_runs dirs'))
                  /\ map run_data (concat (map all_runs dirs'))
                     = map run_data (concat (map all_runs dirs))).
  { clear Hf. induction Hd as [| d d' l l' [a Ha] _ IHd]; [split; constructor |].
    inversion IH as [| ? ? Hhead Htail]; subst.
    destruct (IHd Htail) as [IH1 IH2]. destruct (Hhead _ _ Ha) as [Hc Hdata].
    cbn [map concat]. rewrite !map_app, Hdata, IH2.
    split; [apply Forall_app; split; assumption | reflexivity]. }
  assert (Hfiles : Forall (fun run => _cached_records run = None)
                     (concat (map runs direct'))
                   /\ map run_data (concat (map runs direct'))
                      = map run_data (concat (map runs direct))).
  { clear Hd. induction Hf as [| f f' l l' [a Ha] _ IHf]; [split; constructor |].
    destruct IHf as [IH1 IH2]. apply file_init_returns in Ha as [Hc Hdata].
    cbn [map concat]. rewrite !map_app, Hdata, IH2.
    split; [apply Forall_app; split; assumption | reflexivity]. }
  destruct Hdirs as [Hd1 Hd2]. destruct Hfiles as [Hf1 Hf2].
  split; [apply Forall_app; split; assumption | now rewrite Hd2, Hf2].
Qed.

(** X20: [init_path_prefix_stripping] on a file set reaches every run of
    every file of the tree, also those of nested subdirectories: when it
    returns, no run of the tree has cached records, and the runs are the
    same runs, in the same order, with their data untouched. *)
Theorem fileset_init_clears_every_cache (self self' : SarifFileSet)
  (autotrim : bool) (path_prefixes : option (list string)) :
  SarifFileSet_init_path_prefix_stripping self autotrim path_prefixes
  = (Returns tt, self') ->
  Forall (fun run => _cached_records run = None) (all_runs self')
  /\ map run_data (all_runs self') = map run_data (all_runs self).
Proof.
  apply fileset_init_returns.
Qed.

Lemma fileset_init_clears_every_cache_witness :
  Forall (fun run => _cached_records run = None)
    (all_runs
       (snd (SarifFileSet_init_path_prefix_stripping
               (snd (SarifFileSet_get_records fileset_with_records))
               true None))).
Proof.
  refine (proj1 (fileset_init_clears_every_cache
                   (snd (SarifFileSet_get_records fileset_with_records)) _
                   true None _)).
  vm_compute. reflexivity.
Defined.

Lemma map_outcome_app {A B : Type} (f : A -> outcome B) (l1 l2 : list A) :
  map_outcome f (l1 ++ l2)
  = (xs <- map_outcome f l1 ;; ys <- map_outcome f l2 ;; Returns (xs ++ ys)).
Proof.
  induction l1 as [| a l1 IH]; cbn [app map_outcome bind].
  - now destruct (map_outcome f l2).
  - destruct (f a); cbn [bind]; [| reflexivity]. rewrite IH.
    destruct (map_outcome f l1); cbn [bind]; [| reflexivity].
    now destruct (map_outcome f l2).
Qed.

Lemma fileset_get_results_flat (self : SarifFileSet) :
  SarifFileSet_get_results self
  = (per_file <- map_outcome SarifFile_get_results (flatten self) ;;
     Returns (concat per_file)).
Proof.
  induction self as [dirs direct IH] using SarifFileSet_nested_ind.
  cbn [SarifFileSet_get_results flatten]. rewrite map_outcome_app.
  assert (Hd : (from_subdirs <- map_outcome SarifFileSet_get_results dirs ;;
                Returns (concat from_subdirs))
               = (per_file <- map_outcome SarifFile_get_results
                                (concat (map flatten dirs)) ;;
                  Returns (concat per_file))).
  { induction IH as [| d ds Hd _ IHds]; [reflexivity |].
    cbn [map concat map_outcome]. rewrite map_outcome_app, Hd.
    destruct (map_outcome SarifFile_get_results (flatten d)); cbn [bind];
      [| reflexivity].
    destruct (map_outcome SarifFileSet_get_results ds);
      destruct (map_outcome SarifFile_get_results (concat (map flatten ds)));
      cbn [bind] in *; try congruence.
    injection IHds as IHds. cbn [concat]. now rewrite concat_app, IHds. }
  destruct (map_outcome SarifFileSet_get_results dirs);
    destruct (map_outcome SarifFile_get_results (concat (map flatten dirs)));
    cbn [bind] in *; try congruence.
  injection Hd as Hd.
  destruct (map_outcome SarifFile_get_results direct); cbn [bind];
    [| reflexivity].
  now rewrite concat_app, Hd.
Qed.

Lemma for_each_app {S A : Type} (op : S -> outcome A * S) (l1 l2 : list S) :
  for_each op (l1 ++ l2)
  = match for_each op l1 with
    | (Raises e, l1') => (Raises e, l1' ++ l2)
    | (Returns xs, l1') =>
        match for_each op l2 with
        | (Raises e, l2') => (Raises e, l1' ++ l2')
        | (Returns ys, l2') => (Returns (xs ++ ys), l1' ++ l2')
        end
    end.
Proof.
  induction l1 as [| x l1 IH]; cbn [app for_each].
  - now destruct (for_each op l2) as [[ys | e] l2'].
  - destruct (op x) as [[a | e] x']; [| reflexivity]. rewrite IH.
    destruct (for_each op l1) as [[xs | e] l1']; [| reflexivity].
    now destruct (for_each op l2) as [[ys | e] l2'].
Qed.

Lemma fileset_get_records_flat (self : SarifFileSet) :
  follows_flatten (SarifFileSet_get_records self)
    (for_each SarifFile_get_records (flatten self)).
Proof.
  induction self as [dirs direct IH] using SarifFileSet_nested_ind.
  cbn [SarifFileSet_get_records flatten]. rewrite for_each_app.
  assert (Hd :
    concat (map flatten (snd (for_each SarifFileSet_get_records dirs)))
    = snd (for_each SarifFile_get_records (concat (map flatten dirs)))
    /\ match fst (for_each SarifFileSet_get_records dirs),
             fst (for_each SarifFile_get_records (concat (map flatten dirs)))
       with
       | Returns parts, Returns per_file => concat parts = concat per_file
       | Raises e, Raises e' => e = e'
       | _, _ => False
       end).
  { induction IH as [| d ds Hd _ IHds]; [split; reflexivity |].
    cbn [map concat for_each]. rewrite for_each_app.
    destruct Hd as [Hd1 Hd2].
    destruct (SarifFileSet_get_records d) as [[recs | e] d'];
      destruct (for_each SarifFile_get_records (flatten d)) as [[pf | e'] fl'];
      cbn [fst snd] in *; try contradiction.
    - destruct IHds as [I1 I2].
      destruct (for_each SarifFileSet_get_records ds) as [[parts | e] ds'];
        destruct (for_each SarifFile_get_records (concat (map flatten ds)))
          as [[pfs | e'] fls'];
        cbn [fst snd map concat] in *; try contradiction; subst.
      + split; [reflexivity |]. now rewrite concat_app, I2.
      + split; reflexivity.
    - subst. split; reflexivity. }
  destruct Hd as [Hd1 Hd2].
  destruct (for_each SarifFileSet_get_records dirs) as [[parts | e] dirs'];
    destruct (for_each SarifFile_get_records (concat (map flatten dirs)))
      as [[pf | e'] fl'];
    cbn [fst snd] in *; try contradiction.
  - destruct (for_each SarifFile_get_records direct) as [[ys | e] direct'];
      split; cbn [fst snd flatten]; try (now rewrite Hd1).
    + now rewrite concat_app, Hd2.
    + reflexivity.
  - split; cbn [fst snd flatten]; [now rewrite Hd1 | exact Hd2].
Qed.

(** X21: the aggregations of a file set go through the files of its
    depth-first flattening, those of nested subdirectories included, in
    that order.  [get_results()] is the concatenation of the results of the
    files of the flattening, or the first exception met there;
    [get_records()] gives the concatenation of the records of those files,
    or the first exception met, and leaves the files as a loop over the
    flattening leaves them. *)
Theorem fileset_aggregates_follow_flatten (self : SarifFileSet) :
  SarifFileSet_get_results self
  = (per_file <- map_outcome SarifFile_get_results (flatten self) ;;
     Returns (concat per_file))
  /\ follows_flatten (SarifFileSet_get_records self)
       (for_each SarifFile_get_records (flatten self)).
Proof.
  split; [apply fileset_get_results_flat | apply fileset_get_records_flat].
Qed.

(** ** The timestamp of a file name *)

Lemma eat_digits_spec (n : nat) (s rest : string) :
  eat_digits n s = Some rest ->
  exists d, s = (d ++ rest)%string /\ String.length d = n
            /\ all_digits d = true.
Proof.
  revert s. induction n as [| n IH]; intros s H; simpl in H.
  - injection H as <-. exists "". repeat split.
  - destruct s as [| c s]; [discriminate |].
    destruct (is_digit c) eqn:Hc; [| discriminate].
    destruct (IH _ H) as [d [-> [Hl Hd]]].
    exists (String c d). simpl. rewrite Hc, Hl, Hd. repeat split.
Qed.

Lemma eat_char_spec (c : ascii) (s rest : string) :
  eat_char c s = Some rest -> s = String c rest.
Proof.
  destruct s as [| c' s]; simpl; [discriminate |].
  destruct (Ascii.eqb_spec c c'); [| discriminate]. congruence.
Qed.

Lemma match_datetime_spec (s : string) :
  match_datetime s = true ->
  is_timestamp (slice_to 16 s) /\ is_substring (slice_to 16 s) s.
Proof.
  unfold match_datetime. intros H.
  destruct (eat_digits 8 s) as [s1 |] eqn:H1; [| discriminate].
  destruct (eat_char "T" s1) as [s2 |] eqn:H2; [| discriminate].
  destruct (eat_digits 6 s2) as [s3 |] eqn:H3; [| discriminate].
  destruct (eat_char "Z" s3) as [s4 |] eqn:H4; [| discriminate].
  apply eat_digits_spec in H1 as [date [-> [Hdl Hdd]]].
  apply eat_char_spec in H2 as ->.
  apply eat_digits_spec in H3 as [time [-> [Htl Htd]]].
  apply eat_char_spec in H4 as ->.
  assert (Hs : (date ++ String "T" (time ++ String "Z" s4))%string
               = ((date ++ "T" ++ time ++ "Z") ++ s4)%string).
  { rewrite append_assoc. simpl. rewrite append_assoc. reflexivity. }
  assert (Hlen : String.length (date ++ "T" ++ time ++ "Z") = 16).
  { rewrite !length_append. simpl. lia. }
  rewrite Hs, <- Hlen, slice_to_append. split.
  - exists date, time. repeat split; assumption.
  - exists "", s4. reflexivity.
Qed.

Lemma findall_datetime_spec (s : string) (skip : nat) :
  Forall (fun m => is_timestamp m /\ is_substring m s)
    (findall_datetime skip s).
Proof.
  revert skip. induction s as [| c s IH]; intros skip; [constructor |].
  assert (Hlift : forall k,
            Forall (fun m => is_timestamp m /\ is_substring m (String c s))
              (findall_datetime k s)).
  { intros k. eapply Forall_impl; [| apply IH].
    intros m [Ht [pre [post Hs]]]. split; [exact Ht |].
    exists (String c pre), post. simpl. now rewrite Hs. }
  cbn [findall_datetime]. destruct skip as [| k]; [| apply Hlift].
  destruct (match_datetime (String c s)) eqn:Hm; [| apply Hlift].
  constructor; [now apply match_datetime_spec | apply Hlift].
Qed.

(** X22: [get_filename_timestamp] returns [None] or a list of one string,
    and that string has the form of the pattern, eight digits, [T], six
    digits, [Z], and stands in the file name. *)
Theorem filename_timestamp_shape (self : SarifFile) :
  get_filename_timestamp self = PyNone
  \/ exists m,
       get_filename_timestamp self = PyList [PyStr m]
       /\ is_timestamp m
       /\ is_substring m (get_file_name self).
Proof.
  destruct (get_filename_timestamp_cases self) as [Hnone | [m [Hm Hr]]];
    [now left |].
  right. exists m. split; [exact Hr |].
  pose proof (findall_datetime_spec (get_file_name self) 0) as Hall.
  rewrite Hm in Hall. inversion Hall as [| ? ? Hhead _]; subst. exact Hhead.
Qed.

(** ** Records and results *)

Lemma run_records_count (self self' : SarifRun) (records : list SarifRecord) :
  cache_empty self ->
  get_records self = (Returns records, self') ->
  get_result_count self = Returns (List.length records).
Proof.
  unfold cache_empty, get_records, get_result_count. intros Hempty H.
  assert (Hc : compute_records self = Returns records).
  { destruct (_cached_records self) as [[| r l] |]; try contradiction;
      destruct (compute_records self); try discriminate;
      injection H as <- _; reflexivity. }
  unfold compute_records in Hc.
  apply bind_returns in Hc as [r [Hr Hc]].
  apply bind_returns in Hc as [items [Hitems Hc]].
  rewrite Hr. cbn [bind]. rewrite py_len_of_iter, Hitems. f_equal.
  apply map_outcome_Forall2, Forall2_length in Hc. congruence.
Qed.

Lemma for_each_counts {S A : Type} (op : S -> outcome (list A) * S)
  (count : S -> outcome nat) (l : list S) :
  Forall (fun x => forall a x',
            op x = (Returns a, x') -> count x = Returns (List.length a)) l ->
  forall parts l',
    for_each op l = (Returns parts, l') ->
    map_outcome count l = Returns (map (@List.length A) parts).
Proof.
  induction 1 as [| x l Hx _ IH]; intros parts l' H; cbn [for_each] in H.
  - injection H as <- _. reflexivity.
  - destruct (op x) as [[a | e] x'] eqn:Hop; [| discriminate].
    destruct (for_each op l) as [[others | e] rest'] eqn:Hrest;
      [| discriminate].
    injection H as <- _. cbn [map_outcome map].
    now rewrite (Hx _ _ eq_refl), (IH _ _ eq_refl).
Qed.

Lemma file_records_count (self self' : SarifFile)
  (records : list SarifRecord) :
  Forall cache_empty (runs self) ->
  SarifFile_get_records self = (Returns records, self') ->
  SarifFile_get_result_count self = Returns (List.length records).
Proof.
  unfold SarifFile_get_records, SarifFile_get_result_count. intros Hempty H.
  destruct (for_each get_records (runs self)) as [[per_run | e] runs'] eqn:Hfe;
    [| discriminate].
  injection H as <- _.
  rewrite (for_each_counts get_records get_result_count (runs self)
             ltac:(eapply Forall_impl; [| exact Hempty];
                   intros run Hrun a x'; now apply run_records_count)
             _ _ Hfe).
  cbn [bind]. now rewrite length_concat_sum.
Qed.

Lemma fileset_records_count (self : SarifFileSet) :
  forall records self',
    Forall cache_empty (all_runs self) ->
    SarifFileSet_get_records self = (Returns records, self') ->
    SarifFileSet_get_result_count self = Returns (List.length records).
Proof.
  induction self as [dirs direct IH] using SarifFileSet_nested_ind.
  intros records self' Hempty H. rewrite all_runs_unfold in Hempty.
  apply Forall_app in Hempty as [Hed Hef].
  cbn [SarifFileSet_get_records] in H. cbn [SarifFileSet_get_result_count].
  destruct (for_each SarifFileSet_get_records dirs)
    as [[from_subdirs | e] dirs'] eqn:Hd; [| discriminate].
  destruct (for_each SarifFile_get_records direct)
    as [[from_files | e] direct'] eqn:Hf; [| discriminate].
  injection H as <- _.
  assert (Hdirs : Forall (fun d => forall a d',
                            SarifFileSet_get_records d = (Returns a, d') ->
                            SarifFileSet_get_result_count d
                            = Returns (List.length a)) dirs).
  { clear Hd. induction IH as [| d ds Hdd _ IHds]; [constructor |].
    cbn [map concat] in Hed. apply Forall_app in Hed as [H1 H2].
    constructor; [intros a d' Ha; exact (Hdd a d' H1 Ha) | exact (IHds H2)]. }
  assert (Hfiles : Forall (fun f => forall a f',
                             SarifFile_get_records f = (Returns a, f') ->
                             SarifFile_get_result_count f
                             = Returns (List.length a)) direct).
  { clear Hf. induction direct as [| f fs IHf]; [constructor |].
    cbn [map concat] in Hef. apply Forall_app in Hef as [H1 H2].
    constructor; [intros a f' Ha; exact (file_records_count f f' a H1 Ha) |
                  exact (IHf H2)]. }
  rewrite (for_each_counts _ _ dirs Hdirs _ _ Hd). cbn [bind].
  rewrite (for_each_counts _ _ direct Hfiles _ _ Hf). cbn [bind].
  now rewrite length_app, !length_concat_sum.
Qed.

(** X23: where no run has records cached, the number of records is the
    number of results, at every level: when [get_records()] of a file or of
    a file set returns, [get_result_count()] of the same file or file set
    returns the number of the records. *)
Theorem records_are_as_many_as_results :
  (forall (file file' : SarifFile) records,
     Forall cache_empty (runs file) ->
     SarifFile_get_records file = (Returns records, file') ->
     SarifFile_get_result_count file = Returns (List.length records))
  /\ (forall (fileset fileset' : SarifFileSet) records,
        Forall cache_empty (all_runs fileset) ->
        SarifFileSet_get_records fileset = (Returns records, fileset') ->
        SarifFileSet_get_result_count fileset
        = Returns (List.length records)).
Proof.
  split.
  - intros file file' records. apply file_records_count.
  - intros fileset fileset' records. apply fileset_records_count.
Qed.

Lemma records_are_as_many_as_results_witness :
  SarifFileSet_get_result_count fileset_with_records = Returns 10.
Proof.
  destruct records_are_as_many_as_results as [_ Hset].
  rewrite (Hset fileset_with_records _ _ ltac:(repeat constructor) eq_refl).
  reflexivity.
Defined.
